(** * Node-RED Dashboard 2.0: the ui-base coordinator and the ui-chart history

    A shallow embedding of [nodes/config/ui_base.js] (connection filtering,
    the debounced config emission, the widget registry, the widget-action
    router) and of [nodes/widgets/ui_chart.js] (the history eviction run by
    [onInput]), with the properties of both stated over the embedding. *)

From Stdlib Require Import ZArith Lia DecimalString.
From stdpp Require Import gmap strings list fin_maps.

Set Warnings "-register-all".

Open Scope string_scope.
Open Scope list_scope.
Open Scope Z_scope.

(** ** JavaScript values *)

(** Numbers handled by this code are counts, list indices and millisecond
    time stamps: integers, kept as [Z], with [NaN] as a value of its own
    because it decides comparisons.  Functions are handles: what a handle
    does when called is given by the environment of the section using it. *)
Inductive jsval : Type :=
  | JUndefined
  | JNull
  | JBool (b : bool)
  | JNum (n : Z)
  | JNaN
  | JStr (s : string)
  | JArr (l : list jsval)
  | JObj (o : gmap string jsval)
  | JFun (f : nat).

Module JS.

(** [!!v] is [negb (truthy v)]. *)
Definition truthy (v : jsval) : bool :=
  match v with
  | JUndefined | JNull | JNaN => false
  | JBool b => b
  | JNum n => negb (Z.eqb n 0)
  | JStr s => negb (String.eqb s "")
  | JArr _ | JObj _ | JFun _ => true
  end.

Definition typeof (v : jsval) : string :=
  match v with
  | JUndefined => "undefined"
  | JNull | JArr _ | JObj _ => "object"
  | JBool _ => "boolean"
  | JNum _ | JNaN => "number"
  | JStr _ => "string"
  | JFun _ => "function"
  end.

Definition isArray (v : jsval) : bool :=
  match v with JArr _ => true | _ => false end.

(** [a === b] where one side is a primitive.  Object identity is not part
    of a value here, so two objects never compare equal; the source only
    compares against strings, booleans and [undefined]. *)
Definition strict_eq (a b : jsval) : bool :=
  match a, b with
  | JUndefined, JUndefined => true
  | JNull, JNull => true
  | JBool x, JBool y => Bool.eqb x y
  | JNum x, JNum y => Z.eqb x y
  | JStr x, JStr y => String.eqb x y
  | _, _ => false
  end.

(** The canonical array index a property key denotes, if any. *)
Definition array_index (k : string) : option nat :=
  match NilEmpty.uint_of_string k with
  | Some u =>
      let n := Nat.of_uint u in
      if String.eqb (NilEmpty.string_of_uint (Nat.to_uint n)) k
      then Some n else None
  | None => None
  end.

(** [v.k] / [v[k]] on a value that is neither [null] nor [undefined]:
    own data properties only. *)
Definition get (v : jsval) (k : string) : jsval :=
  match v with
  | JObj o => default JUndefined (o !! k)
  | JArr l =>
      if String.eqb k "length" then JNum (Z.of_nat (length l))
      else match array_index k with
           | Some i => default JUndefined (l !! i)
           | None => JUndefined
           end
  | JStr s => if String.eqb k "length" then JNum (Z.of_nat (String.length s))
              else JUndefined
  | _ => JUndefined
  end.

(** [v?.k] *)
Definition get_opt (v : jsval) (k : string) : jsval :=
  match v with
  | JUndefined | JNull => JUndefined
  | _ => get v k
  end.

(** The own enumerable properties copied by [{...v}]. *)
Definition spread (v : jsval) : gmap string jsval :=
  match v with
  | JObj o => o
  | _ => ∅
  end.

(** [{...a, ...b}]: keys of [b] win. *)
Definition merge (a b : jsval) : jsval := JObj (spread b ∪ spread a).

(** [o.k = x] on an object. *)
Definition set (v : jsval) (k : string) (x : jsval) : jsval :=
  match v with
  | JObj o => JObj (<[k := x]> o)
  | _ => v
  end.

(** [Object.entries(v)] for a plain object (nothing for other values
    reaching it here); the order of a [gmap] stands for insertion order. *)
Definition entries (v : jsval) : list (string * jsval) :=
  match v with
  | JObj o => map_to_list o
  | _ => []
  end.

(** [delete o.k] *)
Definition remove (v : jsval) (k : string) : jsval :=
  match v with
  | JObj o => JObj (delete k o)
  | _ => v
  end.

Definition is_function (v : jsval) : bool := String.eqb (typeof v) "function".

(** [Number(v)] for the values that reach arithmetic in this code: time
    stamps and parsed settings.  [None] is [NaN]. *)
Definition to_number (v : jsval) : option Z :=
  match v with
  | JNum n => Some n
  | JNull => Some 0
  | JBool b => Some (if b then 1 else 0)
  | _ => None
  end.

Definition of_number (n : option Z) : jsval :=
  match n with Some z => JNum z | None => JNaN end.

(** [a * b], [a - b], [a > b]: any comparison with [NaN] is false. *)
Definition mul (a b : jsval) : jsval :=
  of_number (x ← to_number a; y ← to_number b; Some (x * y)).
Definition sub (a b : jsval) : jsval :=
  of_number (x ← to_number a; y ← to_number b; Some (x - y)).
Definition gt (a b : jsval) : bool :=
  match to_number a, to_number b with
  | Some x, Some y => Z.ltb y x
  | _, _ => false
  end.

(** [a || b] *)
Definition or (a b : jsval) : jsval := if truthy a then a else b.

(** Decimal text of an integer, as [String(n)] prints it. *)
Definition string_of_Z (n : Z) : string := NilZero.string_of_int (Z.to_int n).

(** The property key a value is coerced to when it indexes an object
    ([seen[series]], [state[node.id]]): the value's [ToString]. *)
Fixpoint to_key (v : jsval) : string :=
  match v with
  | JUndefined => "undefined"
  | JNull => "null"
  | JBool true => "true"
  | JBool false => "false"
  | JNum n => string_of_Z n
  | JNaN => "NaN"
  | JStr s => s
  | JArr l =>
      String.concat ","
        (List.map (λ x, match x with
                        | JUndefined | JNull => ""
                        | _ => to_key x
                        end) l)
  | JObj _ => "[object Object]"
  | JFun _ => "function"
  end.

End JS.

(** ** Exceptions *)

Inductive exn : Type :=
  | TypeError
  | Thrown (e : jsval).

(** The outcome of running code that may throw. *)
Inductive res (A : Type) : Type :=
  | Ok (a : A)
  | Throw (e : exn).
Arguments Ok {A} a.
Arguments Throw {A} e.

#[global] Instance res_ret : MRet res := λ A a, Ok a.
#[global] Instance res_bind : MBind res :=
  λ A B f m, match m with Ok a => f a | Throw e => Throw e end.

Module Strict.
(** [v.k] as the engine evaluates it: reading a property of [null] or
    [undefined] throws a TypeError. *)
Definition get (v : jsval) (k : string) : res jsval :=
  match v with
  | JUndefined | JNull => Throw TypeError
  | _ => Ok (JS.get v k)
  end.
End Strict.


(** ** The host runtime, as far as ui-base touches it *)

(** A socket.io connection. *)
Record socket : Type := Socket {
  sock_id : string;
  sock_baseId : string
}.

(** A plugin of type node-red-dashboard-2 with the hooks it defines.
    Hooks are host code, taken here to return a value. *)
Record plugin : Type := Plugin {
  onIsValidConnection : option (socket → jsval → jsval);
  hook_onAction : option (socket → jsval → jsval → jsval)
}.

(** The ui-base configuration [n] once [init] has filled in the defaults
    ([acceptsClientConfig] is an array from then on); [base_obj] is the
    object itself, as stored in the dashboards map. *)
Record base_config : Type := BaseConfig {
  base_id : string;
  acceptsClientConfig : list jsval;
  base_obj : jsval
}.

(** The default [init] gives to a configuration without the property. *)
Definition default_acceptsClientConfig : list jsval :=
  [JStr "ui-control"; JStr "ui-notification"].

(** What the code does to the outside world, in the order it does it. *)
Inductive effect : Type :=
  | SockEmit (to : string) (event : string) (args : list jsval)
  | SockOff (to : string) (event : string) (handler : jsval)
  | NodeSend (wNode : jsval) (msg : jsval)
  | WidgetOnError (handler : jsval) (e : exn)
  | NodeError (wNode : jsval) (e : exn)
  | BaseError (e : exn)
  | BaseWarn (text : string).

(** ** The state store *)

Module Statestore.

(** Modelled from the spec: [store/state.js] is not among the sources.
    The spec gives "a property-level key/value store keyed by widget id
    ... Pure data, no behavior", where "read of any property not yet set
    returns undefined". *)
Definition getAll (state : gmap string (gmap string jsval)) (id : jsval)
  : jsval :=
  match state !! JS.to_key id with
  | Some bag => JObj bag
  | None => JUndefined
  end.

(** Modelled from the spec: the read of one property of one widget. *)
Definition getProperty (state : gmap string (gmap string jsval))
    (id : jsval) (property : string) : jsval :=
  match state !! JS.to_key id with
  | Some bag => default JUndefined (bag !! property)
  | None => JUndefined
  end.

(** Modelled from the spec: [set(base, node, msg, prop, value)] writes
    the entry [(node.id, prop)]. *)
Definition set (state : gmap string (gmap string jsval))
    (node : jsval) (prop : string) (value : jsval)
  : gmap string (gmap string jsval) :=
  let id := JS.to_key (JS.get node "id") in
  <[id := <[prop := value]> (default ∅ (state !! id))]> state.

End Statestore.

(** ** The ui-base node *)

(** [node.ui] *)
Record ui_maps : Type := UI {
  heads : gmap string jsval;
  dashboards : gmap string jsval;
  pages : gmap string jsval;
  themes : gmap string jsval;
  groups : gmap string jsval;
  widgets : gmap string jsval
}.

(** The node, the state store and [uiShared.connections], with a clock for
    the one timer the node owns.  [emitConfigRequested] is the handle
    [setTimeout] returned, represented by the instant it is due. *)
Record base : Type := Base {
  ui : ui_maps;
  emitConfigRequested : option nat;
  connections : list socket;
  statestore : gmap string (gmap string jsval);
  now : nat;
  trace : list effect
}.

Definition set_ui (u : ui_maps) (b : base) : base :=
  Base u (emitConfigRequested b) (connections b) (statestore b) (now b) (trace b).
Definition set_emitConfigRequested (t : option nat) (b : base) : base :=
  Base (ui b) t (connections b) (statestore b) (now b) (trace b).
Definition set_statestore (s : gmap string (gmap string jsval)) (b : base) : base :=
  Base (ui b) (emitConfigRequested b) (connections b) s (now b) (trace b).
Definition set_now (t : nat) (b : base) : base :=
  Base (ui b) (emitConfigRequested b) (connections b) (statestore b) t (trace b).
Definition log (e : effect) (b : base) : base :=
  Base (ui b) (emitConfigRequested b) (connections b) (statestore b) (now b)
       (trace b ++ [e]).

Definition set_pages (m : gmap string jsval) (u : ui_maps) : ui_maps :=
  UI (heads u) (dashboards u) m (themes u) (groups u) (widgets u).
Definition set_groups (m : gmap string jsval) (u : ui_maps) : ui_maps :=
  UI (heads u) (dashboards u) (pages u) (themes u) m (widgets u).
Definition set_widgets (m : gmap string jsval) (u : ui_maps) : ui_maps :=
  UI (heads u) (dashboards u) (pages u) (themes u) (groups u) m.
Definition set_dashboards (m : gmap string jsval) (u : ui_maps) : ui_maps :=
  UI (heads u) m (pages u) (themes u) (groups u) (widgets u).
Definition set_themes (m : gmap string jsval) (u : ui_maps) : ui_maps :=
  UI (heads u) (dashboards u) (pages u) m (groups u) (widgets u).

(** [[...map]]: a Map spreads into its entries, each a two-element array
    [[key, value]]. *)
Definition map_entries (m : gmap string jsval) : list jsval :=
  (λ kv, JArr [JStr kv.1; kv.2]) <$> map_to_list m.

(** [Object.fromEntries(map)] *)
Definition fromEntries (m : gmap string jsval) : jsval := JObj m.

Section UIBaseNode.

(** The configuration the node was created with. *)
Variable n : base_config.
(** [RED.plugins.getByType('node-red-dashboard-2')] *)
Variable plugins : list plugin.
(** [RED.nodes.getNode]: the live node with an id, or [undefined]. *)
Variable getNode : jsval → jsval.
(** [uiShared.contribs]: third-party widget types. *)
Variable contribs : gmap string jsval.
(** Calling a function value with arguments. *)
Variable call : nat → list jsval → res jsval.
(** The text [f.toString()] gives for a function value. *)
Variable fn_source : nat → string.
(** [appendTopic(RED, config, wNode, msg)] and
    [addConnectionCredentials(RED, msg, conn, n)] of [utils/index.js],
    which is not among the sources: the host-supplied topic decoration
    and the client-data annotation. *)
Variable appendTopic : jsval → jsval → jsval → res jsval.
Variable addConnectionCredentials : jsval → socket → jsval.
(** The [{ id, name, order }] object [register] builds for a widget whose
    parent [getNode(widgetConfig.z)] is a subflow instance. *)
Variable subflow_info : jsval → jsval → res jsval.

(** *** Which connections a message may go to *)

(** The results pushed on [checks] by the plugin loop. *)
Definition plugin_checks (conn : socket) (msg : jsval) : list jsval :=
  omap (λ p, (λ h, h conn msg) <$> onIsValidConnection p) plugins.

Definition isValidConnection (conn : socket) (msg : jsval) : res bool :=
  let checks := plugin_checks conn msg in
  client ← Strict.get msg "_client";
  let socketId := JS.get_opt client "socketId" in
  let checks :=
    if JS.truthy socketId
    then checks ++ [JBool (JS.strict_eq socketId (JStr (sock_id conn)))]
    else checks in
  (* !checks.length || !checks.includes(false) *)
  mret (Nat.eqb (length checks) 0
        || negb (existsb (JS.strict_eq (JBool false)) checks)).

(** [wNode ? n.acceptsClientConfig?.includes(wNode.type) : true] *)
Definition nodeAllowsConstraints (wNode : jsval) : bool :=
  if JS.truthy wNode
  then existsb (JS.strict_eq (JS.get wNode "type")) (acceptsClientConfig n)
  else true.

Definition canSendTo (conn : socket) (wNode msg : jsval) : res bool :=
  if nodeAllowsConstraints wNode
  then isValidConnection conn msg
  else mret true.

(** [emit(event, msg, wNode)]: the loop over the connections stops at
    the first one for which the check throws. *)
Definition emit (event : string) (msg wNode : jsval) (b : base) : res base :=
  foldl (λ acc conn,
           b ← acc;
           ok ← canSendTo conn wNode msg;
           mret (if ok : bool then log (SockEmit (sock_id conn) event [msg]) b
                 else b))
        (mret b) (connections b).

(** *** Emitting the configuration *)

(** The body of the widget loop of [emitConfig] for one entry. *)
Definition merge_widget_state (ss : gmap string (gmap string jsval))
    (id : string) (widget : jsval) : jsval :=
  let state := Statestore.getAll ss (JStr id) in
  if JS.truthy state then
    let widget :=
      JS.set widget "props" (JS.merge (JS.get widget "props") state) in
    JS.set widget "state" (JS.merge (JS.get widget "state") state)
  else widget.

(** The body of the page loop and of the group loop for one entry. *)
Definition merge_entry_state (ss : gmap string (gmap string jsval))
    (id : string) (entry : jsval) : jsval :=
  let state := Statestore.getAll ss (JStr id) in
  if JS.truthy state then JS.merge entry state else entry.

Definition ui_snapshot (u : ui_maps) : jsval :=
  JObj (list_to_map
    [("dashboards", fromEntries (dashboards u));
     ("heads", fromEntries (heads u));
     ("pages", fromEntries (pages u));
     ("themes", fromEntries (themes u));
     ("groups", fromEntries (groups u));
     ("widgets", fromEntries (widgets u))]).

(** The three loops of [emitConfig] over the registry. *)
Definition merge_statestore (ss : gmap string (gmap string jsval))
    (u : ui_maps) : ui_maps :=
  let u := set_widgets
             (map_imap (λ id w, Some (merge_widget_state ss id w)) (widgets u)) u in
  let u := set_pages
             (map_imap (λ id p, Some (merge_entry_state ss id p)) (pages u)) u in
  set_groups
    (map_imap (λ id g, Some (merge_entry_state ss id g)) (groups u)) u.

Definition emitConfig (socket : socket) (b : base) : base :=
  let b := set_ui (merge_statestore (statestore b) (ui b)) b in
  log (SockEmit (sock_id socket) "ui-config"
         [JStr (base_id n); ui_snapshot (ui b)]) b.

(** *** The debounced request *)

Definition debounce : nat := 300.

Definition requestEmitConfig (b : base) : base :=
  match emitConfigRequested b with
  | Some _ => b
  | None => set_emitConfigRequested (Some (now b + debounce)%nat) b
  end.

(** The callback given to [setTimeout]. *)
Definition emitConfigTimeout (b : base) : base :=
  set_emitConfigRequested None
    (foldl (λ b socket, emitConfig socket b) b (connections b)).

(** The event loop lets [d] time units pass: a timer that falls due in
    that span runs its callback at the instant it is due. *)
Definition elapse (d : nat) (b : base) : base :=
  match emitConfigRequested b with
  | Some due =>
      if (due <=? now b + d)%nat
      then set_now (now b + d)%nat (emitConfigTimeout (set_now due b))
      else set_now (now b + d)%nat b
  | None => set_now (now b + d)%nat b
  end.

(** *** Registration *)

(** One of the three "default states" tests of [register]. *)
Definition seed_default (widgetConfig : jsval) (prop : string) (value : jsval)
    (ss : gmap string (gmap string jsval)) : gmap string (gmap string jsval) :=
  if JS.strict_eq (Statestore.getProperty ss (JS.get widgetConfig "id") prop)
                  JUndefined
  then Statestore.set ss widgetConfig prop value
  else ss.

Definition seed_defaults (widgetConfig : jsval)
    (ss : gmap string (gmap string jsval)) : gmap string (gmap string jsval) :=
  let ss := seed_default widgetConfig "enabled" (JBool true) ss in
  let ss := seed_default widgetConfig "visible" (JBool true) ss in
  seed_default widgetConfig "class" (JStr "") ss.

Definition stringify_fn (v : jsval) : jsval :=
  match v with
  | JFun f => JStr (fn_source f)
  | _ => v
  end.

(** The loop over [Object.entries(widget.props)] that turns function
    definitions into text; [Object.entries] of a [null] or [undefined]
    [methods] property throws. *)
Definition stringify_functions (props : jsval) : res jsval :=
  match props with
  | JObj o =>
      match o !! "methods" with
      | Some JNull | Some JUndefined => Throw TypeError
      | _ =>
          mret (JObj (map_imap (λ key value,
            Some (if (String.eqb key "onMounted" || String.eqb key "onInput")
                     && JS.is_function value
                  then stringify_fn value
                  else if String.eqb key "methods"
                  then match value with
                       | JObj ms => JObj (stringify_fn <$> ms)
                       | JArr ms => JArr (stringify_fn <$> ms)
                       | _ => value
                       end
                  else value)) o))
      end
  | _ => mret props
  end.

(** The widget object [register] builds from [widgetConfig]. *)
Definition build_widget (widgetConfig widgetEvents : jsval)
    (ss : gmap string (gmap string jsval)) : res jsval :=
  let id := JS.get widgetConfig "id" in
  let type := JS.get widgetConfig "type" in
  let layout := JObj (list_to_map
    [("width", JS.or (JS.get widgetConfig "width") (JNum 3));
     ("height", JS.or (JS.get widgetConfig "height") (JNum 1));
     ("order", JS.or (JS.get widgetConfig "order") (JNum 0))]) in
  let state := Statestore.getAll ss id in
  let src := default JUndefined (contribs !! JS.to_key type) in
  let z := JS.get widgetConfig "z" in
  let parent := getNode z in
  props ← (if JS.truthy parent
              && JS.strict_eq (JS.get parent "TYPE") (JStr "subflow")
           then info ← subflow_info parent z;
                mret (JS.set widgetConfig "subflow" info)
           else mret widgetConfig);
  let props := foldl JS.remove props ["id"; "type"; "x"; "y"; "wires"] in
  let props := if JS.strict_eq (JS.get props "width") (JStr "0")
               then JS.set props "width" JNull else props in
  let props := if JS.strict_eq (JS.get props "height") (JStr "0")
               then JS.set props "height" JNull else props in
  props ← stringify_functions props;
  mret (JObj (list_to_map
    [("id", id); ("type", type); ("props", props); ("layout", layout);
     ("state", state); ("hooks", widgetEvents); ("src", src)])).

Definition registerTheme (theme : jsval) (u : ui_maps) : ui_maps :=
  let t := foldl JS.remove theme
             ["_wireCount"; "_inputCallback"; "_inputCallbacks";
              "_closeCallbacks"; "wires"; "type"] in
  set_themes (<[JS.to_key (JS.get t "id") := t]> (themes u)) u.

(** [node.register]; the listeners it installs on [widgetNode] belong to
    the host node and are not part of the state kept here. *)
Definition register (page group widgetNode widgetConfig widgetEvents : jsval)
    (b : base) : res base :=
  '(widget, b) ←
    (if JS.truthy widgetNode && JS.truthy widgetConfig then
       let ss := seed_defaults widgetConfig (statestore b) in
       widget ← build_widget widgetConfig widgetEvents ss;
       mret (widget, set_statestore ss b)
     else mret (JNull, b));
  let u := ui b in
  let u := match dashboards u !! base_id n with
           | Some _ => u
           | None => set_dashboards (<[base_id n := base_obj n]> (dashboards u)) u
           end in
  let '(u, b) :=
    if JS.truthy page
       && JS.strict_eq (JS.get page "type") (JStr "ui-page")
       && negb (bool_decide (is_Some (themes u !! JS.to_key (JS.get page "theme"))))
    then
      let theme := getNode (JS.get page "theme") in
      if JS.truthy theme then (registerTheme theme u, b)
      else (u, log (BaseWarn "Theme specified in page does not exist") b)
    else (u, b) in
  let u := if JS.truthy page
           then set_pages (<[JS.to_key (JS.get page "id")
                             := JS.remove page "_users"]> (pages u)) u
           else u in
  let u := if JS.truthy group
           then set_groups (<[JS.to_key (JS.get group "id")
                              := foldl JS.remove group ["_user"; "type"]]> (groups u)) u
           else u in
  let u := if JS.truthy widgetNode && JS.truthy widgetConfig
              && negb (bool_decide (is_Some (widgets u !! JS.to_key (JS.get widget "id"))))
           then set_widgets (<[JS.to_key (JS.get widget "id") := widget]> (widgets u)) u
           else u in
  mret (requestEmitConfig (set_ui u b)).

(** *** Deregistration *)

(** The [socket.off] calls made for a widget with custom socket hooks. *)
Definition release_socket_hooks (widget : jsval) (b : base) : base :=
  foldl (λ b socket,
    foldl (λ b (ev : string * jsval),
      let handlers := JS.get widget "_onSocketHandlers" in
      if JS.truthy handlers
      then log (SockOff (sock_id socket) ev.1 (JS.get handlers ev.1)) b
      else b)
      b (JS.entries (JS.get (JS.get widget "hooks") "onSocket")))
    b (connections b).

Definition deregister (page group widgetNode : jsval) (b : base) : res base :=
  '(b, changes) ←
    (if JS.truthy widgetNode then
       let id := JS.to_key (JS.get widgetNode "id") in
       let widget := default JUndefined (widgets (ui b) !! id) in
       hooks ← Strict.get widget "hooks";
       let b := if JS.truthy (JS.get_opt hooks "onSocket")
                then release_socket_hooks widget b else b in
       mret (set_ui (set_widgets (delete id (widgets (ui b))) (ui b)) b, true)
     else mret (b, false));
  let '(b, changes) :=
    if JS.truthy group
       && Nat.eqb (length (List.filter
            (λ w, JS.strict_eq (JS.get_opt (JS.get w "props") "group")
                               (JS.get group "id"))
            (map_entries (widgets (ui b))))) 0
    then (set_ui (set_groups (delete (JS.to_key (JS.get group "id"))
                                     (groups (ui b))) (ui b)) b, true)
    else (b, changes) in
  let '(b, changes) :=
    if JS.truthy page
       && Nat.eqb (length (List.filter
            (λ g, JS.strict_eq (JS.get g "page") (JS.get page "id"))
            (map_entries (groups (ui b))))) 0
    then (set_ui (set_pages (delete (JS.to_key (JS.get page "id"))
                                    (pages (ui b))) (ui b)) b, true)
    else (b, changes) in
  mret (if changes : bool then requestEmitConfig b else b).

(** *** The widget-action route *)

Definition getWidgetAndConfig (id : jsval) (b : base)
  : jsval * jsval * jsval * jsval :=
  let wNode := getNode id in
  let widget := default JUndefined (widgets (ui b) !! JS.to_key id) in
  let widgetConfig := JS.or (JS.get_opt widget "props") (JObj ∅) in
  let widgetEvents := JS.or (JS.get_opt widget "hooks") (JObj ∅) in
  (wNode, widgetConfig, widgetEvents, widget).

(** The [catch] block shared by the routes: the widget's [onError], else
    the widget node's [error], else the base node's. *)
Definition report_error (widgetEvents wNode : jsval) (e : exn) (b : base)
  : base :=
  if JS.is_function (JS.get widgetEvents "onError")
  then log (WidgetOnError (JS.get widgetEvents "onError") e) b
  else if JS.is_function (JS.get wNode "error")
  then log (NodeError wNode e) b
  else log (BaseError e) b.

(** The message after the plugin loop of [onAction]. *)
Definition run_onAction_hooks (conn : socket) (id msg : jsval) : jsval :=
  foldl (λ msg p,
           match hook_onAction p with
           | Some h => if JS.truthy msg then h conn id msg else msg
           | None => msg
           end) msg plugins.

(** [call] on a value known to be a function. *)
Definition apply_fn (f : jsval) (args : list jsval) : res jsval :=
  match f with
  | JFun h => call h args
  | _ => Throw TypeError
  end.

(** [if (!msg || typeof msg !== 'object') msg = { payload: msg }] *)
Definition ensure_object (msg : jsval) : jsval :=
  if negb (JS.truthy msg) || negb (String.eqb (JS.typeof msg) "object")
  then JObj {[ "payload" := msg ]} else msg.

(** The [beforeSend] step of the routes: applied when the widget defines
    it as a function. *)
Definition run_beforeSend (widgetEvents msg : jsval) : res jsval :=
  let beforeSend := JS.get_opt widgetEvents "beforeSend" in
  if JS.truthy beforeSend && JS.is_function beforeSend
  then apply_fn beforeSend [msg]
  else mret msg.

Definition onAction (conn : socket) (id msg : jsval) (b : base) : base :=
  let msg := run_onAction_hooks conn id msg in
  if negb (JS.truthy msg) then b else
  let msg := addConnectionCredentials msg conn in
  let msg := ensure_object msg in
  let '(wNode, widgetConfig, widgetEvents, _) := getWidgetAndConfig id b in
  if negb (JS.truthy wNode) || negb (JS.truthy (JS.get widgetEvents "onAction"))
  then b else
  match (msg ← appendTopic widgetConfig wNode msg;
         run_beforeSend widgetEvents msg) with
  | Ok msg => log (NodeSend wNode msg) b
  | Throw e => report_error widgetEvents wNode e b
  end.

End UIBaseNode.

(** ** The data store *)

Module Datastore.

(** Modelled from the spec: [store/data.js] is not among the sources.  The
    spec gives "an append-only, per-widget message history"; [get] reads
    what is stored for a widget id. *)
Definition get (data : gmap string jsval) (id : string) : jsval :=
  default JUndefined (data !! id).

(** Modelled from the spec: [save(base, node, msg)] replaces what is stored
    for the node. *)
Definition save (data : gmap string jsval) (id : string) (msg : jsval)
  : gmap string jsval :=
  <[id := msg]> data.

(** Modelled from the spec: [append(base, node, msg)] pushes a message on
    the node's history. *)
Definition append (data : gmap string jsval) (id : string) (msg : jsval)
  : gmap string jsval :=
  match get data id with
  | JArr history => <[id := JArr (history ++ [msg])]> data
  | _ => <[id := JArr [msg]]> data
  end.

End Datastore.

(** ** The ui-chart node *)

(** The settings of a chart that [onInput] reads. *)
Record chart_config : Type := ChartConfig {
  action : jsval;
  xAxisType : jsval;
  removeOlderPoints : jsval;
  removeOlder : jsval;
  removeOlderUnit : jsval
}.

(** [array.filter((x, index) => p(x, index))], counting from [index]. *)
Fixpoint filter_from {A : Type} (p : A → nat → bool) (index : nat) (l : list A)
  : list A :=
  match l with
  | [] => []
  | x :: l => if p x index then x :: filter_from p (S index) l
              else filter_from p (S index) l
  end.

(** [array.filter(p)] for a callback that may throw. *)
Fixpoint filter_res {A : Type} (p : A → res bool) (l : list A) : res (list A) :=
  match l with
  | [] => mret []
  | x :: l =>
      keep ← p x;
      rest ← filter_res p l;
      mret (if keep : bool then x :: rest else rest)
  end.

(** [array.forEach((x, i) => out.push(f(x, i)))] for a callback that may
    throw. *)
Fixpoint map_res {A B : Type} (f : A → nat → res B) (index : nat) (l : list A)
  : res (list B) :=
  match l with
  | [] => mret []
  | x :: l =>
      y ← f x index;
      rest ← map_res f (S index) l;
      mret (y :: rest)
  end.

Section ChartNode.

Variable config : chart_config.
(** [node.id] *)
Variable node_id : string.
(** [parseInt], [parseFloat]: a number or [NaN]. *)
Variable parseInt : jsval → jsval.
Variable parseFloat : jsval → jsval.
(** [(new Date(s)).getTime()] for a string: a number or [NaN]. *)
Variable dateParse : string → jsval.
(** [JSON.parse(JSON.stringify(p))] *)
Variable json_clone : jsval → res jsval.

(** *** Appending *)

(** The message stored for element [i] of an array payload. *)
Definition split_message (msg p : jsval) (i : nat) : res jsval :=
  payload ← json_clone p;
  let d := if JS.truthy (JS.get msg "_datapoint")
           then JS.get (JS.get msg "_datapoint") (JS.string_of_Z (Z.of_nat i))
           else JNull in
  mret (JObj (<["_datapoint" := d]> (<["payload" := payload]> (JS.spread msg)))).

(** The store after the part of [onInput] that clears and appends. *)
Definition append_phase (msg : jsval) (data : gmap string jsval)
  : res (gmap string jsval) :=
  let data := if JS.truthy (Datastore.get data node_id) then data
              else Datastore.save data node_id (JArr []) in
  let data := if JS.strict_eq (action config) (JStr "replace")
              then Datastore.save data node_id (JArr []) else data in
  payload ← Strict.get msg "payload";
  match payload with
  | JArr ps =>
      ms ← map_res (split_message msg) 0 ps;
      mret (foldl (λ data m, Datastore.append data node_id m) data ms)
  | _ => mret (Datastore.append data node_id (JObj (JS.spread msg)))
  end.

(** *** Latest message per category *)

(** The [forEach] that fills [seen]. *)
Fixpoint record_seen (msgs : list jsval) (index : nat) (seen : gmap string nat)
  : res (gmap string nat) :=
  match msgs with
  | [] => mret seen
  | m :: msgs =>
      datapoint ← Strict.get m "_datapoint";
      series ← Strict.get datapoint "category";
      record_seen msgs (S index) (<[JS.to_key series := index]> seen)
  end.

Definition latest_per_category (msgs : list jsval) : res (list jsval) :=
  seen ← record_seen msgs 0 ∅;
  let indices := (map_to_list seen).*2 in
  mret (filter_from (λ _ index, bool_decide (index ∈ indices)) 0 msgs).

(** *** At most [maxPoints] per label *)

(** The [for] loop from [i = k - 1] down to [0]; [splice(i, 1)] removes
    the element at [i]. *)
Fixpoint prune_loop (maxPoints : Z) (k : nat) (msgs : list jsval)
    (lineCounts : gmap string Z) : res (list jsval) :=
  match k with
  | O => mret msgs
  | S i =>
      let msg := default JUndefined (msgs !! i) in
      topic ← Strict.get msg "topic";
      let label := JS.to_key topic in
      let count := default 0 (lineCounts !! label) in
      if Z.geb count maxPoints
      then prune_loop maxPoints i (delete i msgs) (<[label := count]> lineCounts)
      else prune_loop maxPoints i msgs (<[label := count + 1]> lineCounts)
  end.

Definition latest_per_label (maxPoints : Z) (msgs : list jsval)
  : res (list jsval) :=
  prune_loop maxPoints (length msgs) msgs ∅.

(** *** Nothing older than the window *)

(** The time stamp the filter compares: [x] itself, or the date a string
    [x] denotes. *)
Definition timestamp (msg : jsval) : res jsval :=
  datapoint ← Strict.get msg "_datapoint";
  x ← Strict.get datapoint "x";
  mret (match x with JStr s => dateParse s | _ => x end).

Definition cutoff_at (now : Z) : jsval :=
  let ago := JS.mul (JS.mul (parseFloat (removeOlder config))
                            (parseFloat (removeOlderUnit config)))
                    (JNum 1000) in
  JS.sub (JNum now) ago.

Definition within_window (now : Z) (msgs : list jsval) : res (list jsval) :=
  filter_res (λ msg, t ← timestamp msg; mret (JS.gt t (cutoff_at now))) msgs.

(** *** The eviction steps in the order [onInput] takes them *)

(** The history read back from the store. *)
Definition history (data : gmap string jsval) : list jsval :=
  match Datastore.get data node_id with
  | JArr msgs => msgs
  | _ => []
  end.

Definition count_window_on : bool :=
  JS.truthy (parseInt (removeOlderPoints config))
  && JS.truthy (removeOlderPoints config).

Definition time_window_on : bool :=
  JS.strict_eq (xAxisType config) (JStr "time")
  && JS.truthy (removeOlder config) && JS.truthy (removeOlderUnit config).

Definition evict_by_axis (data : gmap string jsval) : res (gmap string jsval) :=
  if JS.strict_eq (xAxisType config) (JStr "category") then
    msgs ← latest_per_category (history data);
    mret (Datastore.save data node_id (JArr msgs))
  else if count_window_on then
    match parseInt (removeOlderPoints config) with
    | JNum maxPoints =>
        msgs ← latest_per_label maxPoints (history data);
        mret (Datastore.save data node_id (JArr msgs))
    | _ => mret data
    end
  else mret data.

Definition evict_by_time (now : Z) (data : gmap string jsval)
  : res (gmap string jsval) :=
  if time_window_on then
    msgs ← within_window now (history data);
    mret (Datastore.save data node_id (JArr msgs))
  else mret data.

(** [onInput(msg, send, done)] at the instant [now]: the store it leaves
    and the message it sends on. *)
Definition onInput (now : Z) (msg : jsval) (data : gmap string jsval)
  : res (gmap string jsval * jsval) :=
  payload ← Strict.get msg "payload";
  match payload with
  | JArr [] =>
      mret (Datastore.save data node_id (JArr []), msg)
  | _ =>
      data ← append_phase msg data;
      data ← evict_by_axis data;
      data ← evict_by_time now data;
      mret (data, msg)
  end.

End ChartNode.

(** ** The event loop around the timer *)

(** What can happen to the node between two instants: a caller asks for
    an emission, or time passes. *)
Inductive loop_event : Type :=
  | Request
  | Elapse (d : nat).

Definition step (n : base_config) (b : base) (e : loop_event) : base :=
  match e with
  | Request => requestEmitConfig b
  | Elapse d => elapse n d b
  end.

Definition run (n : base_config) (script : list loop_event) (b : base) : base :=
  foldl (step n) b script.

(** The time a script takes. *)
Definition duration (script : list loop_event) : nat :=
  foldr (λ e t, match e with Request => t | Elapse d => (d + t)%nat end)
        0%nat script.

(** The [ui-config] events one run of the timer callback puts on the
    sockets, all carrying [snapshot]. *)
Definition fan_out (n : base_config) (snapshot : jsval) (conns : list socket)
  : list effect :=
  (λ s, SockEmit (sock_id s) "ui-config" [JStr (base_id n); snapshot]) <$> conns.

(** ** Vocabulary of the statements *)

Definition nullish (v : jsval) : bool :=
  match v with JUndefined | JNull => true | _ => false end.

(** The connection id a message is addressed to: [msg._client?.socketId]. *)
Definition target_of (msg : jsval) : jsval :=
  JS.get_opt (JS.get msg "_client") "socketId".

(** The message names a connection, and it is not [conn]. *)
Definition addressed_elsewhere (conn : socket) (msg : jsval) : bool :=
  JS.truthy (target_of msg)
  && negb (JS.strict_eq (target_of msg) (JStr (sock_id conn))).

(** No [onIsValidConnection] hook returns [false] for the pair. *)
Definition no_objection (plugins : list plugin) (conn : socket) (msg : jsval)
  : bool :=
  forallb (λ c, negb (JS.strict_eq (JBool false) c)) (plugin_checks plugins conn msg).










(** The default states of a widget. *)
Definition default_states : list (string * jsval) :=
  [("enabled", JBool true); ("visible", JBool true); ("class", JStr "")].

(** Every value in a map of the registry is an object, as [register]
    builds them. *)
Definition all_objects (m : gmap string jsval) : Prop :=
  ∀ id v, m !! id = Some v → ∃ o, v = JObj o.

(** ** Sample configurations *)

Definition example_base_config : base_config :=
  BaseConfig "base1" default_acceptsClientConfig (JObj {[ "id" := JStr "base1" ]}).

Definition msg_for (socketId : string) : jsval :=
  JObj {[ "payload" := JNum 1;
          "_client" := JObj {[ "socketId" := JStr socketId ]} ]}.

(** A registered widget of a group, with the fields [deregister] reads. *)
Definition widget_in (id group : string) : jsval :=
  JObj (list_to_map
    [("id", JStr id); ("type", JStr "ui-button");
     ("props", JObj {[ "group" := JStr group ]});
     ("state", JObj ∅); ("hooks", JObj ∅)]).

(** One page [p1] holding one group [g1] holding the widgets [w1], [w2]. *)
Definition example_ui : ui_maps :=
  UI ∅
     {[ "base1" := base_obj example_base_config ]}
     {[ "p1" := JObj {[ "id" := JStr "p1"; "type" := JStr "ui-page" ]} ]}
     ∅
     {[ "g1" := JObj {[ "id" := JStr "g1"; "page" := JStr "p1" ]} ]}
     {[ "w1" := widget_in "w1" "g1"; "w2" := widget_in "w2" "g1" ]}.

Definition example_base : base :=
  Base example_ui None [Socket "A" "base1"; Socket "B" "base1"] ∅ 0%nat [].

Definition node_with_id (id : string) : jsval := JObj {[ "id" := JStr id ]}.

Definition no_node (id : jsval) : jsval := JUndefined.
Definition no_subflow (parent z : jsval) : res jsval := Throw TypeError.
Definition no_source (f : nat) : string := "".

(** The configuration of a button [w3] of group [g1], as the editor
    gives it. *)
Definition example_widgetConfig : jsval :=
  JObj (list_to_map
    [("id", JStr "w3"); ("type", JStr "ui-button"); ("group", JStr "g1");
     ("width", JStr "0"); ("x", JNum 120); ("y", JNum 80);
     ("wires", JArr [])]).

(** [example_base] with a state store in which [w3] was made invisible. *)
Definition example_base_hidden : base :=
  set_statestore {[ "w3" := {[ "visible" := JBool false ]} ]} example_base.

Definition example_registered : base :=
  match register example_base_config no_node ∅ no_source no_subflow
                 JNull JNull (node_with_id "w3") example_widgetConfig (JObj ∅)
                 example_base_hidden with
  | Ok b => b
  | Throw _ => example_base_hidden
  end.

(** A runtime in which the nodes [w1], [w2] and [w5] are alive. *)
Definition example_getNode (id : jsval) : jsval :=
  if String.eqb (JS.to_key id) "w1" || String.eqb (JS.to_key id) "w2"
     || String.eqb (JS.to_key id) "w5"
  then JObj {[ "id" := JStr (JS.to_key id); "type" := JStr "ui-button" ]}
  else JUndefined.

(** Function values of the samples: each marks the message it is given. *)
Definition example_call (f : nat) (args : list jsval) : res jsval :=
  match args with
  | [m] => Ok (JS.set m "_datapoint" (JNum (Z.of_nat f)))
  | _ => Ok JUndefined
  end.

Definition example_appendTopic (config wNode msg : jsval) : res jsval :=
  Ok (JS.set msg "topic" (JS.get config "topic")).

Definition example_credentials (msg : jsval) (conn : socket) : jsval :=
  JS.set msg "_client" (JObj {[ "socketId" := JStr (sock_id conn) ]}).

(** A button that handles actions and pre-processes what it sends. *)
Definition example_action_widget : jsval :=
  JObj (list_to_map
    [("id", JStr "w5"); ("type", JStr "ui-button");
     ("props", JObj {[ "group" := JStr "g1"; "topic" := JStr "pressed" ]});
     ("state", JObj ∅);
     ("hooks", JObj {[ "onAction" := JBool true; "beforeSend" := JFun 7 ]})]).

Definition example_base_actions : base :=
  set_ui (set_widgets (<["w5" := example_action_widget]> (widgets example_ui))
                      example_ui) example_base.

(** A burst of three requests spread over 299 time units. *)
Definition example_burst : list loop_event :=
  [Elapse 100; Request; Elapse 50; Request; Elapse 149].

(** [example_base] after a message moved [w1] to another group and hid
    page [p1]. *)
Definition example_base_moved : base :=
  set_statestore {[ "w1" := {[ "group" := JStr "g9" ]};
                    "p1" := {[ "visible" := JBool false ]} ]} example_base.

(** *** Sample charts *)

(** [parseInt] and [parseFloat] on the decimal settings of the samples. *)
Definition example_parse (v : jsval) : jsval :=
  match v with
  | JNum n => JNum n
  | JStr s =>
      if String.eqb s "" then JNaN
      else match NilEmpty.uint_of_string s with
           | Some u => JNum (Z.of_uint u)
           | None => JNaN
           end
  | _ => JNaN
  end.

(** Dates of the samples are written as decimal milliseconds. *)
Definition example_dateParse (s : string) : jsval := example_parse (JStr s).

Definition example_clone (p : jsval) : res jsval := Ok p.

(** The node receives the messages one after the other, each at its
    instant. *)
Fixpoint feed (config : chart_config) (node_id : string)
    (inputs : list (Z * jsval)) (data : gmap string jsval)
  : res (gmap string jsval) :=
  match inputs with
  | [] => mret data
  | (now, msg) :: inputs =>
      r ← onInput config node_id example_parse example_parse example_dateParse
                  example_clone now msg data;
      feed config node_id inputs r.1
  end.


(** A message as it leaves [beforeSend]. *)
Definition point (topic : string) (category : jsval) (x y : jsval) : jsval :=
  JObj {[ "topic" := JStr topic; "payload" := y;
          "_datapoint" := JObj {[ "category" := category; "x" := x; "y" := y ]} ]}.



(** A line chart keeping three points per line. *)
Definition example_line_chart : chart_config :=
  ChartConfig (JStr "append") (JStr "time") (JStr "3") (JStr "") (JStr "").

Definition dot (topic : string) (x y : Z) : jsval :=
  point topic (JStr topic) (JNum x) (JNum y).

(** The store after three points of line A and one of line B. *)
Definition example_lines_stored : gmap string jsval :=
  match feed example_line_chart "chart2"
             [(10, dot "A" 10 1); (20, dot "B" 20 2); (30, dot "A" 30 3);
              (40, dot "A" 40 4)] ∅ with
  | Ok data => data
  | Throw _ => ∅
  end.



(** The reset signal: an empty array as payload. *)
Definition reset_message : jsval := JObj {[ "payload" := JArr [] ]}.

(** A message carrying two points at once, as it leaves [beforeSend]. *)
Definition example_batch : jsval :=
  JObj {[ "topic" := JStr "A";
          "payload" := JArr [JNum 7; JNum 8];
          "_datapoint" := JArr [JObj {[ "category" := JStr "A"; "y" := JNum 7 ]};
                                JObj {[ "category" := JStr "A"; "y" := JNum 8 ]}] ]}.

Definition example_replacing_chart : chart_config :=
  ChartConfig (JStr "replace") (JStr "time") (JStr "") (JStr "") (JStr "").

(** The two entries stored for [example_batch]. *)
Definition example_batch_entries : list jsval :=
  [JObj {[ "topic" := JStr "A"; "payload" := JNum 7;
           "_datapoint" := JObj {[ "category" := JStr "A"; "y" := JNum 7 ]} ]};
   JObj {[ "topic" := JStr "A"; "payload" := JNum 8;
           "_datapoint" := JObj {[ "category" := JStr "A"; "y" := JNum 8 ]} ]}].

(** A message that reached [onInput] without a data point. *)
Definition example_bare_message : jsval :=
  JObj {[ "topic" := JStr "A"; "payload" := JNum 1 ]}.

(** ** The ui-chart node: deriving data points *)

(** The character at which [getProperty] splits a path. *)
Definition dot_char : Ascii.ascii := Ascii.Ascii false true true true false true false false.

(** [s.split(sep)] for a one-character separator. *)
Fixpoint split_on (sep : Ascii.ascii) (s : string) : list string :=
  match s with
  | EmptyString => [EmptyString]
  | String c rest =>
      if Ascii.eqb c sep then EmptyString :: split_on sep rest
      else match split_on sep rest with
           | part :: parts => String c part :: parts
           | [] => [String c EmptyString]
           end
  end.

(** The [forEach] of [getProperty]: a step is taken only from a truthy
    value. *)
Definition walk (value : jsval) (props : list string) : jsval :=
  foldl (λ value prop, if JS.truthy value then JS.get value prop else value)
        value props.

(** [getProperty(value, property)]; [property.split] exists for strings
    only. *)
Definition getProperty (value property : jsval) : res jsval :=
  match property with
  | JStr path => mret (walk value (split_on dot_char path))
  | _ => Throw TypeError
  end.

(** The settings of a chart that [beforeSend] reads. *)
Record plot_config : Type := PlotConfig {
  chartType : jsval;
  category : jsval;
  categoryType : jsval;
  xAxisProperty : jsval
}.

Section ChartBeforeSend.

Variable config : plot_config.
(** [RED.util.evaluateNodeProperty(config.category, config.categoryType,
    node, msg)] for the message at hand. *)
Variable evaluateNodeProperty : jsval → jsval.
(** [(new Date()).getTime()] *)
Variable now : Z.
(** [s in p], which also looks through the prototype chain of [p] and
    throws for a [p] that is no object. *)
Variable has_key : jsval → jsval → res bool.

(** The [y] read for a series given as an array of property paths. *)
Definition series_y (payload : jsval) (series : list jsval) : res jsval :=
  if decide (1 < length series)%nat
  then ys ← map_res (λ s _, getProperty payload s) 0 series; mret (JArr ys)
  else getProperty payload (default JUndefined (series !! 0%nat)).

Definition addToLine (payload series : jsval) : res jsval :=
  let datapoint : gmap string jsval := {[ "category" := series ]} in
  if String.eqb (JS.typeof payload) "number" then
    mret (JObj (<["y" := payload]> (<["x" := JNum now]> datapoint)))
  else if String.eqb (JS.typeof payload) "object" then
    x ← getProperty payload (xAxisProperty config);
    y ← Strict.get payload "y";
    let x := if nullish x then JNum now else x in
    y ← match series with
        | JArr ss => series_y payload ss
        | _ => mret y
        end;
    mret (JObj (<["y" := y]> (<["x" := x]> datapoint)))
  else mret (JObj datapoint).

Definition addToBar (payload series : jsval) : res jsval :=
  let datapoint : gmap string jsval := {[ "category" := series ]} in
  let datapoint := if String.eqb (JS.typeof payload) "number"
                   then <["y" := payload]> datapoint else datapoint in
  match series with
  | JArr ss => y ← series_y payload ss; mret (JObj (<["y" := y]> datapoint))
  | _ => mret (JObj datapoint)
  end.

(** The callback of [p.map] in both branches: with a category read from a
    property, every point has its own series. *)
Definition point_of (add : jsval → jsval → res jsval) (series point : jsval)
  : res jsval :=
  series ← (if JS.strict_eq (categoryType config) (JStr "property")
            then getProperty point (category config) else mret series);
  add point series.

(** [series.forEach((s) => { if (s in p) points.push(addToLine(p, s)) })] *)
Fixpoint json_points (p : jsval) (series : list jsval) : res (list jsval) :=
  match series with
  | [] => mret []
  | s :: series =>
      present ← has_key s p;
      points ← (if present : bool then d ← addToLine p s; mret [d] else mret []);
      rest ← json_points p series;
      mret (points ++ rest)
  end.

Definition beforeSend (msg : jsval) : res jsval :=
  p ← Strict.get msg "payload";
  let series := evaluateNodeProperty msg in
  series ← (if JS.strict_eq (categoryType config) (JStr "property")
            then getProperty p (category config) else mret series);
  if JS.strict_eq (chartType config) (JStr "line")
     || JS.strict_eq (chartType config) (JStr "scatter") then
    match p with
    | JArr points =>
        ds ← map_res (λ point _, point_of addToLine series point) 0 points;
        mret (JS.set msg "_datapoint" (JArr ds))
    | _ =>
        if JS.strict_eq (categoryType config) (JStr "json") then
          match series with
          | JArr ss =>
              points ← json_points p ss;
              mret (JS.set msg "_datapoint" (JArr points))
          | _ => Throw TypeError
          end
        else
          d ← addToLine p series;
          mret (JS.set msg "_datapoint" d)
    end
  else if JS.strict_eq (chartType config) (JStr "bar") then
    match p with
    | JArr points =>
        ds ← map_res (λ point _, point_of addToBar series point) 0 points;
        mret (JS.set msg "_datapoint" (JArr ds))
    | _ =>
        d ← addToBar p series;
        mret (JS.set msg "_datapoint" d)
    end
  else mret msg.

End ChartBeforeSend.

(** Whether a character occurs in a string. *)
Fixpoint has_char (c : Ascii.ascii) (s : string) : bool :=
  match s with
  | EmptyString => false
  | String c' rest => Ascii.eqb c' c || has_char c rest
  end.

(** The chart is of a type [beforeSend] derives data points for. *)
Definition plots_points (config : plot_config) : bool :=
  JS.strict_eq (chartType config) (JStr "line")
  || JS.strict_eq (chartType config) (JStr "scatter")
  || JS.strict_eq (chartType config) (JStr "bar").

(** A line chart whose series is the message's topic. *)
Definition example_plot : plot_config :=
  PlotConfig (JStr "line") (JStr "topic") (JStr "msg") (JStr "x").

Definition example_series (msg : jsval) : jsval := JS.get msg "topic".

Definition example_has_key (s p : jsval) : res bool :=
  match p with
  | JObj o => Ok (bool_decide (is_Some (o !! JS.to_key s)))
  | _ => Throw TypeError
  end.


(** A message with two points, before [beforeSend]. *)
Definition example_raw_batch : jsval :=
  JObj {[ "topic" := JStr "A";
          "payload" := JArr [JNum 1; JObj {[ "x" := JNum 5; "y" := JNum 2 ]}] ]}.

(** A message with a bare number, before [beforeSend]. *)
Definition example_raw_number : jsval :=
  JObj {[ "topic" := JStr "A"; "payload" := JNum 3 ]}.

(** ** Vocabulary for the delivery of events *)

(** The state after several effects. *)
Definition log_all (es : list effect) (b : base) : base :=
  Base (ui b) (emitConfigRequested b) (connections b) (statestore b) (now b)
       (trace b ++ es).

(** The connection may receive the message: the origin lifts the
    constraints, or no hook answers [false] and the message is not
    addressed to another connection. *)
Definition eligible (n : base_config) (plugins : list plugin) (conn : socket)
    (wNode msg : jsval) : bool :=
  negb (nodeAllowsConstraints n wNode)
  || (no_objection plugins conn msg
      && (negb (JS.truthy (target_of msg))
          || JS.strict_eq (target_of msg) (JStr (sock_id conn)))).

(** Three connections, two of them on the same base. *)
Definition example_base_three : base :=
  Base example_ui None
       [Socket "A" "base1"; Socket "B" "base1"; Socket "C" "base2"] ∅ 0%nat [].

Definition control_node : jsval :=
  JObj {[ "id" := JStr "c1"; "type" := JStr "ui-control" ]}.


(** A page and a group as their nodes register them. *)
Definition example_page : jsval :=
  JObj {[ "id" := JStr "p2"; "type" := JStr "ui-page"; "theme" := JStr "t1";
          "_users" := JArr [] ]}.

Definition example_group : jsval :=
  JObj {[ "id" := JStr "g2"; "type" := JStr "ui-group"; "page" := JStr "p2";
          "_user" := JNull ]}.

(** ** Connections coming and going *)

Definition set_connections (conns : list socket) (b : base) : base :=
  Base (ui b) (emitConfigRequested b) conns (statestore b) (now b) (trace b).

(** [uiShared.connections[socket.id] = socket]: a known id keeps its place,
    a new one goes last. *)
Fixpoint set_connection (s : socket) (conns : list socket) : list socket :=
  match conns with
  | [] => [s]
  | c :: conns =>
      if String.eqb (sock_id c) (sock_id s) then s :: conns
      else c :: set_connection s conns
  end.

(** [delete uiShared.connections[id]] *)
Definition delete_connection (id : string) (conns : list socket) : list socket :=
  List.filter (λ c, negb (String.eqb (sock_id c) id)) conns.

(** [onConnection(socket)]: the socket is tied to this base node, stored,
    and sent the configuration at once.  The listeners then set up on the
    socket are host state. *)
Definition onConnection (n : base_config) (s : socket) (b : base) : base :=
  let s := Socket (sock_id s) (base_id n) in
  emitConfig n s (set_connections (set_connection s (connections b)) b).

(** The [disconnect] listener, as far as the node's state goes. *)
Definition onDisconnect (s : socket) (b : base) : base :=
  set_connections (delete_connection (sock_id s) (connections b)) b.

(** ** Closing the base node *)

Definition is_page_node (x : jsval) : bool :=
  JS.strict_eq (JS.get x "type") (JStr "ui-page")
  || JS.strict_eq (JS.get x "type") (JStr "ui-link").

Definition is_other_base (n : base_config) (x : jsval) : bool :=
  JS.strict_eq (JS.get x "type") (JStr "ui-base")
  && negb (JS.strict_eq (JS.get x "id") (JStr (base_id n))).

(** [close(node, done)]: [nodes] is what [RED.nodes.eachNode] visits,
    [ioServer] tells whether the socket.io server exists.  The result says
    whether the server was shut down. *)
Definition close (n : base_config) (ioServer : bool) (nodes : list jsval)
    (b : base) : base * bool :=
  if negb ioServer then (b, false) else
  let pageNodes := List.filter is_page_node nodes in
  let baseNodes :=
    List.filter (λ x, negb (is_page_node x) && is_other_base n x) nodes in
  let themeNodes :=
    List.filter (λ x, negb (is_page_node x) && negb (is_other_base n x)
                      && JS.strict_eq (JS.get x "type") (JStr "ui-theme"))
                nodes in
  if Nat.ltb 0 (length pageNodes) then (b, false) else
  let u := set_groups ∅ (set_widgets ∅ (set_pages ∅ (ui b))) in
  if Nat.ltb 0 (length baseNodes) then (set_ui u b, false) else
  let u := if Nat.eqb (length themeNodes) 0 then set_themes ∅ u else u in
  (set_ui (set_dashboards ∅ u) b, true).

(** ** The widget-change, widget-send and widget-load routes *)

(** [Object.prototype.hasOwnProperty.call(obj, prop)] for the property
    names the code asks for ([payload], [enabled], [visible], [class],
    [ui_update], [passthru]), which only a plain object can own; the call
    throws on [null] and [undefined], which callers rule out first. *)
Definition hasProperty (obj : jsval) (prop : string) : bool :=
  match obj with
  | JObj o => bool_decide (is_Some (o !! prop))
  | _ => false
  end.

Section Routes.

Variable getNode : jsval → jsval.
Variable call : nat → list jsval → res jsval.
Variable appendTopic : jsval → jsval → jsval → res jsval.
Variable addConnectionCredentials : jsval → socket → jsval.

(** The [onChange], [onSend] and [onLoad] hooks of the plugins that define
    one, in plugin order. *)
Variable change_hooks : list (socket → jsval → jsval → jsval).
Variable send_hooks : list (socket → jsval → jsval → jsval).
Variable load_hooks : list (socket → jsval → jsval → jsval).

Definition run_hooks (hooks : list (socket → jsval → jsval → jsval))
    (conn : socket) (id msg : jsval) : jsval :=
  foldl (λ msg h, h conn id msg) msg hooks.

(** [if (widgetEvents?.beforeSend) msg = await widgetEvents.beforeSend(msg)] *)
Definition run_beforeSend_unchecked (widgetEvents msg : jsval) : res jsval :=
  let beforeSend := JS.get_opt widgetEvents "beforeSend" in
  if JS.truthy beforeSend then apply_fn call beforeSend [msg] else mret msg.





(** [onLoad(conn, id, msg)]: [id.startsWith] is only reached when the node
    is missing, and throws on an id that is not a string. *)
Definition onLoad (conn : socket) (id : jsval) (data : gmap string jsval)
    (b : base) : res base :=
  if negb (JS.truthy id) then mret b else
  let '(wNode, _, _, _) := getWidgetAndConfig getNode id b in
  known ← (if JS.truthy wNode then mret true
           else match id with
                | JStr s => mret (String.prefix "ui-" s)
                | _ => Throw TypeError
                end);
  if negb known then mret b else
  let msg := run_hooks load_hooks conn id (Datastore.get data (JS.to_key id)) in
  if negb (JS.truthy msg) then mret b
  else mret (log (SockEmit (sock_id conn) ("widget-load:" ++ JS.to_key id) [msg]) b).

End Routes.

(** The flows once the last page is gone: a theme and this base node. *)
Definition example_flow_nodes : list jsval :=
  [JObj {[ "type" := JStr "ui-theme"; "id" := JStr "t1" ]};
   JObj {[ "type" := JStr "ui-base"; "id" := JStr "base1" ]}].


(** A widget node that exists, a toggle sent by a client, and a stored
    message of the widget. *)
Definition example_widget_node (id : jsval) : jsval :=
  JObj {[ "id" := id ]}.

Definition example_no_call (f : nat) (args : list jsval) : res jsval :=
  Throw TypeError.

Definition example_keep_topic (widgetConfig wNode msg : jsval) : res jsval :=
  Ok msg.


(** ** The input listener [register] gives a widget node *)

(** How the listener ends: it returns before its [try] block and never
    calls [done], or calls [done()], or warns and calls [done()], or calls
    [done(err)]. *)
Inductive input_done : Type :=
  | Returned
  | Done
  | Warned (message : jsval)
  | Failed (e : exn).

Section WidgetInput.

Variable n : base_config.
Variable plugins : list plugin.
Variable getNode : jsval → jsval.
Variable call : nat → list jsval → res jsval.
Variable appendTopic : jsval → jsval → jsval → res jsval.

(** The [onInput] hooks of the plugins that define one, in plugin order. *)
Variable input_hooks : list (jsval → jsval).

(** A widget's own [onInput(msg, send)], which may store and send; it is
    taken to leave the message object it is given as it is. *)
Variable run_onInput :
  nat → jsval → gmap string jsval → base → gmap string jsval * base * option exn.

(** The registration the listener closes over. *)
Variables widgetNode widgetConfig widgetEvents widget : jsval.

(** [emit(event, msg, wNode)] with what it has sent by the time a check
    throws. *)
Definition emit_keep (event : string) (msg wNode : jsval) (b : base)
  : base * option exn :=
  foldl (λ acc conn,
           match acc with
           | (b, Some e) => (b, Some e)
           | (b, None) =>
               match canSendTo n plugins conn wNode msg with
               | Ok ok =>
                   (if ok : bool
                    then log (SockEmit (sock_id conn) event [msg]) b else b, None)
               | Throw e => (b, Some e)
               end
           end)
        (b, None) (connections b).

(** The dynamic property handlers: [enabled], [visible] and [class] of the
    message go to the state store under the widget node's id.
    [hasProperty] throws on a [null] or [undefined] first argument. *)
Definition dynamic_properties (msg : jsval)
    (ss : gmap string (gmap string jsval))
  : gmap string (gmap string jsval) * option exn :=
  if nullish msg then (ss, Some TypeError) else
  let ss := if hasProperty msg "enabled"
            then Statestore.set ss widgetNode "enabled" (JS.get msg "enabled")
            else ss in
  let ss := if hasProperty msg "visible"
            then Statestore.set ss widgetNode "visible" (JS.get msg "visible")
            else ss in
  let cls := JS.or (JS.get msg "class")
                   (JS.get_opt (JS.get msg "ui_update") "class") in
  if hasProperty msg "class"
  then (Statestore.set ss widgetNode "class" cls, None)
  else if hasProperty msg "ui_update"
  then if nullish (JS.get msg "ui_update") then (ss, Some TypeError)
       else if hasProperty (JS.get msg "ui_update") "class"
       then (Statestore.set ss widgetNode "class" cls, None)
       else (ss, None)
  else (ss, None).

(** The branch without a widget [onInput]: store, add the topic, pass on. *)
Definition input_default (wNode msg : jsval) (data : gmap string jsval)
    (b : base) : gmap string jsval * base * jsval * option exn :=
  if negb (JS.truthy msg) then (data, b, msg, None) else
  let data := Datastore.save data (JS.to_key (JS.get widgetNode "id")) msg in
  match (if JS.truthy (JS.get widgetConfig "topic")
            || JS.truthy (JS.get widgetConfig "topicType")
         then appendTopic widgetConfig wNode msg else mret msg) with
  | Throw e => (data, b, msg, Some e)
  | Ok msg =>
      let forward := if hasProperty widgetConfig "passthru"
                     then JS.truthy (JS.get widgetConfig "passthru")
                     else true in
      (data, if forward then log (NodeSend widgetNode msg) b else b, msg, None)
  end.

(** The [try] block. *)
Definition input_try (wNode msg : jsval) (data : gmap string jsval) (b : base)
  : gmap string jsval * base * option exn :=
  match run_beforeSend_unchecked call widgetEvents msg with
  | Throw e => (data, b, Some e)
  | Ok msg =>
      match dynamic_properties msg (statestore b) with
      | (ss, Some e) => (data, set_statestore ss b, Some e)
      | (ss, None) =>
          let b := set_statestore ss b in
          let '(data, b, msg, err) :=
            if JS.truthy (JS.get_opt widgetEvents "onInput")
            then match JS.get_opt widgetEvents "onInput" with
                 | JFun h => let '(data, b, err) := run_onInput h msg data b in
                             (data, b, msg, err)
                 | _ => (data, b, msg, Some TypeError)
                 end
            else input_default wNode msg data b in
          match err with
          | Some e => (data, b, Some e)
          | None =>
              let '(b, err) :=
                emit_keep ("msg-input:" ++ JS.to_key (JS.get widget "id"))
                          msg wNode b in
              (data, b, err)
          end
      end
  end.

(** The [catch] block: [err.type] throws in turn on a thrown [null] or
    [undefined]. *)
Definition caught (e : exn) : res input_done :=
  match e with
  | TypeError => mret (Failed e)
  | Thrown v =>
      if nullish v then Throw TypeError
      else if JS.strict_eq (JS.get v "type") (JStr "warn")
      then mret (Warned (JS.get v "message"))
      else mret (Failed e)
  end.

(** The listener on [input]; a [Throw] is a rejection nothing catches. *)
Definition widget_input (msg : jsval) (data : gmap string jsval) (b : base)
  : res (gmap string jsval * base * input_done) :=
  if nullish msg then Throw TypeError else
  let msg := JS.remove (JS.remove msg "res") "req" in
  let wNode := getNode (JS.get widgetNode "id") in
  if negb (JS.truthy wNode) then mret (data, b, Returned) else
  let msg := foldl (λ msg h, h msg) msg input_hooks in
  if negb (JS.truthy msg) then mret (data, b, Returned) else
  let '(data, b, err) := input_try wNode msg data b in
  match err with
  | None => mret (data, b, Done)
  | Some e => d ← caught e; mret (data, b, d)
  end.

End WidgetInput.

(** The state store holds [value] under [(id, prop)]. *)
Definition holds (ss : gmap string (gmap string jsval)) (id prop : string)
    (value : jsval) : Prop :=
  ∃ bag, ss !! id = Some bag ∧ bag !! prop = Some value.

(** An effect on a socket. *)
Definition is_sock_emit (e : effect) : bool :=
  match e with SockEmit _ _ _ => true | _ => false end.

(** A switch that does not pass its input on, and a message that turns
    it off in the dashboard. *)
Definition example_switch_config : jsval :=
  JObj {[ "passthru" := JBool false; "group" := JStr "g1" ]}.

Definition example_disable : jsval :=
  JObj {[ "payload" := JBool true; "enabled" := JBool false ]}.

Definition example_no_onInput (h : nat) (msg : jsval)
    (data : gmap string jsval) (b : base)
  : gmap string jsval * base * option exn := (data, b, None).

(** A [beforeSend] that gives [null]. *)
Definition example_null_call (f : nat) (args : list jsval) : res jsval :=
  Ok JNull.

(** * Properties *)

(** ** Connection eligibility *)

Section EligibilityFacts.

Variable n : base_config.
Variable plugins : list plugin.

Lemma existsb_false_forallb (l : list jsval) :
  negb (existsb (JS.strict_eq (JBool false)) l)
  = forallb (λ c, negb (JS.strict_eq (JBool false) c)) l.
Proof.
  induction l as [|c l IH]; simpl; [done|].
  rewrite negb_orb. by rewrite IH.
Qed.

Lemma isValidConnection_elsewhere conn msg :
  nullish msg = false →
  addressed_elsewhere conn msg = true →
  isValidConnection plugins conn msg = Ok false.
Proof.
  intros Hmsg Hadd. unfold addressed_elsewhere, target_of in Hadd.
  apply andb_true_iff in Hadd as [Ht Hne].
  apply negb_true_iff in Hne.
  unfold isValidConnection.
  assert (Strict.get msg "_client" = Ok (JS.get msg "_client")) as ->
    by (by destruct msg).
  simpl. rewrite Ht, Hne.
  rewrite length_app. simpl.
  replace (length (plugin_checks plugins conn msg) + 1 =? 0)%nat with false
    by (symmetry; apply Nat.eqb_neq; lia).
  simpl. rewrite existsb_app. simpl. by rewrite orb_true_r.
Qed.

Lemma isValidConnection_untargeted conn msg :
  nullish msg = false →
  JS.truthy (target_of msg) = false →
  no_objection plugins conn msg = true →
  isValidConnection plugins conn msg = Ok true.
Proof.
  intros Hmsg Ht Hno. unfold target_of in Ht. unfold isValidConnection.
  assert (Strict.get msg "_client" = Ok (JS.get msg "_client")) as ->
    by (by destruct msg).
  simpl. rewrite Ht. rewrite existsb_false_forallb.
  unfold no_objection in Hno. rewrite Hno. by rewrite orb_true_r.
Qed.

End EligibilityFacts.

(** C2, as amended: a message addressed to another connection is refused
    for every origin whose type accepts client constraints (and when there
    is no origin node); an origin whose type is not listed in
    [acceptsClientConfig] lifts every constraint, so its messages go to
    every connection whatever they are addressed to; a message without a
    target to which no hook answers [false] is eligible to every
    connection. *)
Theorem canSendTo_target_rule (n : base_config) (plugins : list plugin)
    (conn : socket) (wNode msg : jsval) :
  nullish msg = false →
  (nodeAllowsConstraints n wNode = true →
   addressed_elsewhere conn msg = true →
   canSendTo n plugins conn wNode msg = Ok false)
  ∧ (nodeAllowsConstraints n wNode = false →
     canSendTo n plugins conn wNode msg = Ok true)
  ∧ (JS.truthy (target_of msg) = false →
     no_objection plugins conn msg = true →
     canSendTo n plugins conn wNode msg = Ok true).
Proof.
  intros Hmsg. unfold canSendTo. repeat split.
  - intros -> Hadd. by apply isValidConnection_elsewhere.
  - by intros ->.
  - intros Ht Hno. destruct (nodeAllowsConstraints n wNode); [|done].
    by apply isValidConnection_untargeted.
Qed.

Lemma canSendTo_target_rule_witness :
  canSendTo example_base_config [] (Socket "A" "base1")
            (JObj {[ "type" := JStr "ui-control" ]}) (msg_for "B") = Ok false
  ∧ canSendTo example_base_config [] (Socket "A" "base1")
              (JObj {[ "type" := JStr "ui-button" ]}) (msg_for "B") = Ok true
  ∧ canSendTo example_base_config [] (Socket "A" "base1")
              JUndefined (JObj {[ "payload" := JNum 1 ]}) = Ok true.
Proof.
  split; [|split].
  - exact (proj1 (canSendTo_target_rule example_base_config []
             (Socket "A" "base1") (JObj {[ "type" := JStr "ui-control" ]})
             (msg_for "B") eq_refl) eq_refl eq_refl).
  - exact (proj1 (proj2 (canSendTo_target_rule example_base_config []
             (Socket "A" "base1") (JObj {[ "type" := JStr "ui-button" ]})
             (msg_for "B") eq_refl)) eq_refl).
  - exact (proj2 (proj2 (canSendTo_target_rule example_base_config []
             (Socket "A" "base1") JUndefined (JObj {[ "payload" := JNum 1 ]})
             eq_refl)) eq_refl eq_refl).
Defined.

(** The claim C2 as first stated fails: a ui-button is not among the types
    that accept client constraints, so its message addressed to connection
    B is also eligible for connection A. *)
Lemma canSendTo_other_target_counterexample :
  ¬ (∀ (n : base_config) (plugins : list plugin) (conn : socket)
       (wNode msg : jsval),
        nullish msg = false →
        addressed_elsewhere conn msg = true →
        canSendTo n plugins conn wNode msg = Ok false).
Proof.
  intros H.
  specialize (H example_base_config [] (Socket "A" "base1")
                (JObj {[ "type" := JStr "ui-button" ]}) (msg_for "B")
                eq_refl eq_refl).
  vm_compute in H. discriminate H.
Qed.

(** ** Deregistration *)

(** An entry of a spread Map is an array: it has no [props] and no [page]
    property of its own, whatever the value it carries. *)
Lemma map_entry_props (k : string) (v : jsval) :
  JS.get (JArr [JStr k; v]) "props" = JUndefined.
Proof. reflexivity. Qed.

Lemma map_entry_page (k : string) (v : jsval) :
  JS.get (JArr [JStr k; v]) "page" = JUndefined.
Proof. reflexivity. Qed.

Lemma filter_entries_by_group (m : gmap string jsval) (gid : jsval) :
  JS.strict_eq JUndefined gid = false →
  List.filter (λ w, JS.strict_eq (JS.get_opt (JS.get w "props") "group") gid)
              (map_entries m) = [].
Proof.
  intros Hg. unfold map_entries.
  induction (map_to_list m) as [|[k v] l IH]; [done|].
  rewrite fmap_cons. cbn [List.filter fst snd].
  change (JS.get (JArr [JStr k; v]) "props") with JUndefined.
  cbn [JS.get_opt]. by rewrite Hg.
Qed.

Lemma filter_entries_by_page (m : gmap string jsval) (pid : jsval) :
  JS.strict_eq JUndefined pid = false →
  List.filter (λ g, JS.strict_eq (JS.get g "page") pid) (map_entries m) = [].
Proof.
  intros Hp. unfold map_entries.
  induction (map_to_list m) as [|[k v] l IH]; [done|].
  rewrite fmap_cons. cbn [List.filter fst snd].
  change (JS.get (JArr [JStr k; v]) "page") with JUndefined.
  by rewrite Hp.
Qed.

(** Folding a step that keeps a projection of the state keeps it. *)
Lemma foldl_preserves {A B C : Type} (proj : A → C) (f : A → B → A)
    (l : list B) (a : A) :
  (∀ a x, proj (f a x) = proj a) → proj (foldl f a l) = proj a.
Proof.
  intros Hf. revert a. induction l as [|x l IH]; intros a; simpl; [done|].
  by rewrite IH, Hf.
Qed.

Lemma ui_requestEmitConfig (b : base) : ui (requestEmitConfig b) = ui b.
Proof. unfold requestEmitConfig. by destruct (emitConfigRequested b). Qed.

Lemma ui_release_socket_hooks (widget : jsval) (b : base) :
  ui (release_socket_hooks widget b) = ui b.
Proof.
  unfold release_socket_hooks.
  apply (foldl_preserves ui). intros a socket.
  apply (foldl_preserves ui). intros a' ev.
  by destruct (JS.truthy _).
Qed.

(** The widget step of [deregister] on its own. *)
Lemma deregister_widget_step (page group widgetNode : jsval) (b : base) :
  JS.truthy widgetNode = true →
  widgets (ui b) !! JS.to_key (JS.get widgetNode "id") = None →
  deregister page group widgetNode b = Throw TypeError.
Proof.
  intros Hn Hw. unfold deregister. rewrite Hn, Hw. reflexivity.
Qed.

(** C10: [deregister(null, null, widgetNode)] with a widget node whose id
    is not in the widget registry throws a TypeError (the read of
    [widget.hooks] on [undefined]); with an id that is registered the call
    returns normally, the widget removed. *)
Theorem deregister_unknown_widget_throws (b : base) (widgetNode : jsval) :
  JS.truthy widgetNode = true →
  all_objects (widgets (ui b)) →
  (widgets (ui b) !! JS.to_key (JS.get widgetNode "id") = None →
   deregister JNull JNull widgetNode b = Throw TypeError)
  ∧ (is_Some (widgets (ui b) !! JS.to_key (JS.get widgetNode "id")) →
     ∃ b', deregister JNull JNull widgetNode b = Ok b'
           ∧ widgets (ui b') !! JS.to_key (JS.get widgetNode "id") = None).
Proof.
  intros Hn Hobj. split.
  - by apply deregister_widget_step.
  - intros [w Hw]. destruct (Hobj _ _ Hw) as [o ->].
    unfold deregister. rewrite Hn, Hw.
    cbn [mbind res_bind mret res_ret default Strict.get JS.truthy andb].
    eexists. split; [reflexivity|].
    rewrite ui_requestEmitConfig. cbn [ui set_ui widgets set_widgets].
    apply lookup_delete_eq.
Qed.

Lemma example_ui_all_objects : all_objects (widgets (ui example_base)).
Proof.
  intros id v. cbn [ui example_base example_ui widgets].
  intros H. apply lookup_insert_Some in H as [[_ <-]|[_ H]].
  - unfold widget_in. eauto.
  - apply lookup_singleton_Some in H as [_ <-]. unfold widget_in. eauto.
Qed.

Lemma deregister_unknown_widget_throws_witness :
  deregister JNull JNull (node_with_id "w9") example_base = Throw TypeError
  ∧ ∃ b', deregister JNull JNull (node_with_id "w1") example_base = Ok b'
          ∧ widgets (ui b') !! "w1" = None.
Proof.
  split.
  - apply (proj1 (deregister_unknown_widget_throws example_base
                    (node_with_id "w9") eq_refl example_ui_all_objects)).
    vm_compute. reflexivity.
  - apply (proj2 (deregister_unknown_widget_throws example_base
                    (node_with_id "w1") eq_refl example_ui_all_objects)).
    vm_compute. eauto.
Defined.

(** Whenever [deregister] is given a group, the group leaves the registry:
    the count of its remaining widgets is taken over Map entries, none of
    which has a [props] property. *)
Lemma deregister_group_always_removed (page group widgetNode : jsval)
    (b b' : base) (gid : string) :
  JS.truthy group = true →
  JS.get group "id" = JStr gid →
  deregister page group widgetNode b = Ok b' →
  groups (ui b') !! gid = None.
Proof.
  intros Hg Hid. unfold deregister. rewrite Hg, Hid.
  destruct (match JS.truthy widgetNode with true => _ | false => _ end)
    as [[b1 ch]|e]; [|discriminate].
  cbn [mbind res_bind mret res_ret].
  rewrite filter_entries_by_group by reflexivity.
  cbn [length Nat.eqb andb JS.to_key].
  destruct (JS.truthy page && _).
  - intros [= <-]. destruct (true : bool); rewrite ?ui_requestEmitConfig;
      cbn [ui set_ui groups set_pages set_groups]; apply lookup_delete_eq.
  - intros [= <-]. rewrite ui_requestEmitConfig.
    cbn [ui set_ui groups set_groups]. apply lookup_delete_eq.
Qed.

(** C3 at the failing input: two widgets [w1], [w2] are registered in
    group [g1]; deregistering [w1] with its group removes the group although
    [w2] is still registered in it. *)
Theorem deregister_drops_group_with_widget_left :
  ∃ b', deregister JNull (node_with_id "g1") (node_with_id "w1") example_base
        = Ok b'
        ∧ widgets (ui b') !! "w1" = None
        ∧ widgets (ui b') !! "w2" = Some (widget_in "w2" "g1")
        ∧ JS.get (JS.get (widget_in "w2" "g1") "props") "group" = JStr "g1"
        ∧ groups (ui b') !! "g1" = None.
Proof.
  eexists. split; [reflexivity|]. vm_compute. done.
Qed.

(** ** Config emission *)

Section EmitConfigFacts.

Variable n : base_config.

Lemma getAll_key (ss : gmap string (gmap string jsval)) (id : string) :
  Statestore.getAll ss (JStr id)
  = match ss !! id with Some bag => JObj bag | None => JUndefined end.
Proof. reflexivity. Qed.

Lemma widgets_emitConfig socket b id :
  widgets (ui (emitConfig n socket b)) !! id
  = merge_widget_state (statestore b) id <$> widgets (ui b) !! id.
Proof.
  unfold emitConfig, merge_statestore.
  cbn [ui log set_ui widgets set_groups set_pages set_widgets].
  rewrite map_lookup_imap. by destruct (widgets (ui b) !! id).
Qed.

Lemma pages_emitConfig socket b id :
  pages (ui (emitConfig n socket b)) !! id
  = merge_entry_state (statestore b) id <$> pages (ui b) !! id.
Proof.
  unfold emitConfig, merge_statestore.
  cbn [ui log set_ui pages set_groups set_pages set_widgets].
  rewrite map_lookup_imap. by destruct (pages (ui b) !! id).
Qed.

Lemma groups_emitConfig socket b id :
  groups (ui (emitConfig n socket b)) !! id
  = merge_entry_state (statestore b) id <$> groups (ui b) !! id.
Proof.
  unfold emitConfig, merge_statestore.
  cbn [ui log set_ui groups set_groups set_pages set_widgets].
  rewrite map_lookup_imap. by destruct (groups (ui b) !! id).
Qed.

Lemma statestore_emitConfig socket b :
  statestore (emitConfig n socket b) = statestore b.
Proof. reflexivity. Qed.

Lemma connections_emitConfig socket b :
  connections (emitConfig n socket b) = connections b.
Proof. reflexivity. Qed.

Lemma now_emitConfig socket b : now (emitConfig n socket b) = now b.
Proof. reflexivity. Qed.

Lemma emitConfigRequested_emitConfig socket b :
  emitConfigRequested (emitConfig n socket b) = emitConfigRequested b.
Proof. reflexivity. Qed.

Lemma trace_emitConfig socket b :
  trace (emitConfig n socket b)
  = trace b ++ [SockEmit (sock_id socket) "ui-config"
                  [JStr (base_id n); ui_snapshot (ui (emitConfig n socket b))]].
Proof. reflexivity. Qed.

(** The merged object has the state store's value under every key of the
    bag. *)
Lemma merge_state_wins (a : jsval) (bag : gmap string jsval) k v :
  bag !! k = Some v → JS.get (JS.merge a (JObj bag)) k = v.
Proof.
  intros Hk. cbn [JS.merge JS.get JS.spread].
  by rewrite (lookup_union_Some_l _ _ _ _ Hk).
Qed.

Lemma merge_keeps_rest (a : jsval) (bag : gmap string jsval) k :
  bag !! k = None → JS.get (JS.merge a (JObj bag)) k = JS.get (JObj (JS.spread a)) k.
Proof.
  intros Hk. cbn [JS.merge JS.get JS.spread].
  by rewrite lookup_union_r.
Qed.

End EmitConfigFacts.

(** C9: an emission rewrites the registry itself.  A widget with a bag in
    the state store has its [props] and [state] replaced by the merges
    [{...props, ...bag}] and [{...state, ...bag}], its other fields kept;
    a page or group with a bag is replaced by [{...entry, ...bag}]; under
    every key of the bag the stored props then hold the bag's value, so a
    different value held before is gone; entries without a bag are kept;
    what went on the socket is the snapshot of the rewritten registry. *)
Theorem emitConfig_rewrites_registry (n : base_config) (socket : socket)
    (b : base) :
  let b' := emitConfig n socket b in
  (∀ id w bag,
      widgets (ui b) !! id = Some (JObj w) →
      statestore b !! id = Some bag →
      ∃ w', widgets (ui b') !! id = Some (JObj w')
            ∧ w' !! "props" = Some (JS.merge (JS.get (JObj w) "props") (JObj bag))
            ∧ w' !! "state" = Some (JS.merge (JS.get (JObj w) "state") (JObj bag))
            ∧ (∀ k, k ≠ "props" → k ≠ "state" → w' !! k = w !! k)
            ∧ (∀ k v, bag !! k = Some v →
                      JS.get (JS.get (JObj w') "props") k = v
                      ∧ JS.get (JS.get (JObj w') "state") k = v))
  ∧ (∀ id p bag,
        pages (ui b) !! id = Some p →
        statestore b !! id = Some bag →
        pages (ui b') !! id = Some (JS.merge p (JObj bag)))
  ∧ (∀ id g bag,
        groups (ui b) !! id = Some g →
        statestore b !! id = Some bag →
        groups (ui b') !! id = Some (JS.merge g (JObj bag)))
  ∧ (∀ id,
        statestore b !! id = None →
        widgets (ui b') !! id = widgets (ui b) !! id
        ∧ pages (ui b') !! id = pages (ui b) !! id
        ∧ groups (ui b') !! id = groups (ui b) !! id)
  ∧ statestore b' = statestore b
  ∧ trace b' = trace b ++ [SockEmit (sock_id socket) "ui-config"
                             [JStr (base_id n); ui_snapshot (ui b')]].
Proof.
  intros b'. subst b'. repeat split.
  - intros id w bag Hw Hbag. rewrite widgets_emitConfig, Hw.
    unfold merge_widget_state. rewrite getAll_key, Hbag.
    cbn [fmap option_fmap option_map JS.truthy JS.set].
    eexists. split; [reflexivity|]. split; [|split; [|split]].
    + rewrite lookup_insert_ne; [|done]. by rewrite lookup_insert_eq.
    + rewrite lookup_insert_eq. cbn [JS.get].
      by rewrite lookup_insert_ne.
    + intros k Hp Hs. by rewrite !lookup_insert_ne.
    + intros k v Hk. split.
      * cbn [JS.get]. rewrite lookup_insert_ne; [|done].
        rewrite lookup_insert_eq. cbn [default].
        by apply merge_state_wins.
      * cbn [JS.get]. rewrite lookup_insert_eq. cbn [default].
        by apply merge_state_wins.
  - intros id p bag Hp Hbag. rewrite pages_emitConfig, Hp.
    unfold merge_entry_state. by rewrite getAll_key, Hbag.
  - intros id g bag Hg Hbag. rewrite groups_emitConfig, Hg.
    unfold merge_entry_state. by rewrite getAll_key, Hbag.
  - rewrite widgets_emitConfig. unfold merge_widget_state.
    rewrite getAll_key, H. by destruct (widgets (ui b) !! id).
  - rewrite pages_emitConfig. unfold merge_entry_state.
    rewrite getAll_key, H. by destruct (pages (ui b) !! id).
  - rewrite groups_emitConfig. unfold merge_entry_state.
    rewrite getAll_key, H. by destruct (groups (ui b) !! id).
Qed.

Lemma emitConfig_rewrites_registry_witness :
  let b' := emitConfig example_base_config (Socket "A" "base1") example_base_moved in
  (∃ w', widgets (ui b') !! "w1" = Some (JObj w')
         ∧ JS.get (JS.get (JObj w') "props") "group" = JStr "g9")
  ∧ JS.get (JS.get (widget_in "w1" "g1") "props") "group" = JStr "g1"
  ∧ pages (ui b') !! "p1"
    = Some (JObj {[ "id" := JStr "p1"; "type" := JStr "ui-page";
                    "visible" := JBool false ]}).
Proof.
  intros b'.
  destruct (emitConfig_rewrites_registry example_base_config
              (Socket "A" "base1") example_base_moved)
    as (Hw & Hp & _).
  split; [|split].
  - destruct (Hw "w1" _ {[ "group" := JStr "g9" ]} eq_refl eq_refl)
      as (w' & Hw' & _ & _ & _ & Hwin).
    exists w'. split; [exact Hw'|].
    apply (Hwin "group" (JStr "g9")). reflexivity.
  - reflexivity.
  - subst b'. rewrite (Hp "p1" _ {[ "visible" := JBool false ]} eq_refl eq_refl).
    vm_compute. reflexivity.
Defined.

(** ** Registration and the state store *)

Lemma strict_eq_undefined (v : jsval) :
  JS.strict_eq v JUndefined = true ↔ v = JUndefined.
Proof. destruct v; simpl; split; (done || discriminate). Qed.

Lemma strict_eq_undefined_false (v : jsval) :
  JS.strict_eq v JUndefined = false ↔ v ≠ JUndefined.
Proof.
  rewrite <- strict_eq_undefined. destruct (JS.strict_eq v JUndefined);
    split; (done || congruence).
Qed.

Lemma getProperty_set (ss : gmap string (gmap string jsval))
    (node id' : jsval) (prop prop' : string) (value : jsval) :
  Statestore.getProperty (Statestore.set ss node prop value) id' prop'
  = if decide (JS.to_key id' = JS.to_key (JS.get node "id") ∧ prop' = prop)
    then value
    else Statestore.getProperty ss id' prop'.
Proof.
  unfold Statestore.getProperty, Statestore.set.
  destruct (decide (JS.to_key id' = JS.to_key (JS.get node "id"))) as [->|Hid].
  - rewrite lookup_insert_eq.
    destruct (decide (prop' = prop)) as [->|Hp].
    + rewrite lookup_insert_eq. by rewrite decide_True.
    + rewrite lookup_insert_ne; [|done].
      rewrite decide_False; [|by intros [_ ?]].
      by destruct (ss !! JS.to_key (JS.get node "id")).
  - rewrite lookup_insert_ne; [|done]. rewrite decide_False; [done|by intros [? _]].
Qed.

Lemma getProperty_seed_default (ss : gmap string (gmap string jsval))
    (cfg id' : jsval) (prop prop' : string) (value : jsval) :
  Statestore.getProperty (seed_default cfg prop value ss) id' prop'
  = if decide (JS.to_key id' = JS.to_key (JS.get cfg "id") ∧ prop' = prop)
    then if JS.strict_eq (Statestore.getProperty ss id' prop') JUndefined
         then value else Statestore.getProperty ss id' prop'
    else Statestore.getProperty ss id' prop'.
Proof.
  unfold seed_default.
  destruct (JS.strict_eq (Statestore.getProperty ss (JS.get cfg "id") prop) _)
    eqn:Hu.
  - rewrite getProperty_set. case_decide as Hd; [|done].
    destruct Hd as [Hid ->].
    unfold Statestore.getProperty in *. rewrite Hid. by rewrite Hu.
  - case_decide as Hd; [|done]. destruct Hd as [Hid ->].
    unfold Statestore.getProperty in *. rewrite Hid. by rewrite Hu.
Qed.

(** A property that is set is left alone by the seeding. *)
Lemma seed_default_id (ss : gmap string (gmap string jsval)) (cfg : jsval)
    (prop : string) (value : jsval) :
  Statestore.getProperty ss (JS.get cfg "id") prop ≠ JUndefined →
  seed_default cfg prop value ss = ss.
Proof.
  intros H. unfold seed_default.
  apply strict_eq_undefined_false in H. by rewrite H.
Qed.

Section RegisterFacts.

Variable n : base_config.
Variable getNode : jsval → jsval.
Variable contribs : gmap string jsval.
Variable fn_source : nat → string.
Variable subflow_info : jsval → jsval → res jsval.

Lemma statestore_requestEmitConfig (b : base) :
  statestore (requestEmitConfig b) = statestore b.
Proof. unfold requestEmitConfig. by destruct (emitConfigRequested b). Qed.

(** What a registration does to the state store. *)
Lemma statestore_register page group widgetNode widgetConfig widgetEvents b b1 :
  register n getNode contribs fn_source subflow_info
           page group widgetNode widgetConfig widgetEvents b = Ok b1 →
  statestore b1
  = if JS.truthy widgetNode && JS.truthy widgetConfig
    then seed_defaults widgetConfig (statestore b)
    else statestore b.
Proof.
  unfold register.
  destruct (JS.truthy widgetNode && JS.truthy widgetConfig).
  - destruct (build_widget _ _ _ _ _ _ _) as [widget|e]; [|discriminate].
    cbn [mbind res_bind mret res_ret].
    repeat match goal with
           | |- context [match ?c with _ => _ end] =>
               lazymatch c with
               | context [match _ with _ => _ end] => fail
               | _ => destruct c
               end
           end;
      intros [= <-]; by rewrite statestore_requestEmitConfig.
  - cbn [mbind res_bind mret res_ret].
    repeat match goal with
           | |- context [match ?c with _ => _ end] =>
               lazymatch c with
               | context [match _ with _ => _ end] => fail
               | _ => destruct c
               end
           end;
      intros [= <-]; by rewrite statestore_requestEmitConfig.
Qed.

End RegisterFacts.

Lemma getProperty_key (ss : gmap string (gmap string jsval)) (id id' : jsval)
    (prop : string) :
  JS.to_key id = JS.to_key id' →
  Statestore.getProperty ss id prop = Statestore.getProperty ss id' prop.
Proof. intros H. unfold Statestore.getProperty. by rewrite H. Qed.

(** The three tests of [register] together: a default lands exactly where
    the read gave [undefined]. *)
Lemma getProperty_seed_defaults (ss : gmap string (gmap string jsval))
    (cfg id' : jsval) (prop' : string) :
  Statestore.getProperty (seed_defaults cfg ss) id' prop'
  = match decide (JS.to_key id' = JS.to_key (JS.get cfg "id")),
          list_to_map (M := gmap string jsval) default_states !! prop' with
    | left _, Some value =>
        if JS.strict_eq (Statestore.getProperty ss id' prop') JUndefined
        then value else Statestore.getProperty ss id' prop'
    | _, _ => Statestore.getProperty ss id' prop'
    end.
Proof.
  unfold seed_defaults. rewrite !getProperty_seed_default.
  destruct (decide (JS.to_key id' = JS.to_key (JS.get cfg "id"))) as [Hid|Hid].
  - destruct (decide (prop' = "class")) as [->|Hc].
    { rewrite decide_True by done. rewrite !decide_False by (by intros [_ ?]).
      reflexivity. }
    rewrite (decide_False (P := _ ∧ prop' = "class")) by (by intros [_ ?]).
    destruct (decide (prop' = "visible")) as [->|Hv].
    { rewrite decide_True by done. rewrite !decide_False by (by intros [_ ?]).
      reflexivity. }
    rewrite (decide_False (P := _ ∧ prop' = "visible")) by (by intros [_ ?]).
    destruct (decide (prop' = "enabled")) as [->|He].
    { rewrite decide_True by done. reflexivity. }
    rewrite (decide_False (P := _ ∧ prop' = "enabled")) by (by intros [_ ?]).
    unfold default_states. cbn [list_to_map foldr curry fst snd].
    by rewrite !lookup_insert_ne, lookup_empty by done.
  - by rewrite !decide_False by (by intros [? _]).
Qed.

Lemma seed_defaults_id (ss : gmap string (gmap string jsval)) (cfg : jsval) :
  (∀ prop value, (prop, value) ∈ default_states →
     Statestore.getProperty ss (JS.get cfg "id") prop ≠ JUndefined) →
  seed_defaults cfg ss = ss.
Proof.
  intros H. unfold seed_defaults.
  rewrite (seed_default_id ss cfg "enabled").
  2:{ apply (H _ (JBool true)). unfold default_states. repeat constructor. }
  rewrite (seed_default_id ss cfg "visible").
  2:{ apply (H _ (JBool true)). unfold default_states. repeat constructor. }
  apply seed_default_id.
  apply (H _ (JStr "")). unfold default_states. repeat constructor.
Qed.

Lemma default_states_lookup (prop : string) (value : jsval) :
  (prop, value) ∈ default_states →
  list_to_map (M := gmap string jsval) default_states !! prop = Some value
  ∧ value ≠ JUndefined.
Proof.
  unfold default_states. intros H.
  repeat (apply elem_of_cons in H as [[= -> ->]|H]); [done..|].
  by apply elem_of_nil in H.
Qed.

(** C4: at the registration of a widget each of [enabled = true],
    [visible = true], [class = ""] is written exactly when the property
    reads [undefined] for the widget's id, every entry that is set (of this
    or of any other id) keeps its value, and a later registration under the
    same id leaves the whole state store as it is. *)
Theorem register_seeds_defaults_once (n : base_config) (getNode : jsval → jsval)
    (contribs : gmap string jsval) (fn_source : nat → string)
    (subflow_info : jsval → jsval → res jsval)
    (page group widgetNode widgetConfig widgetEvents : jsval) (b b1 : base) :
  JS.truthy widgetNode = true →
  JS.truthy widgetConfig = true →
  register n getNode contribs fn_source subflow_info
           page group widgetNode widgetConfig widgetEvents b = Ok b1 →
  (∀ prop value,
      (prop, value) ∈ default_states →
      Statestore.getProperty (statestore b1) (JS.get widgetConfig "id") prop
      = if JS.strict_eq
             (Statestore.getProperty (statestore b) (JS.get widgetConfig "id") prop)
             JUndefined
        then value
        else Statestore.getProperty (statestore b) (JS.get widgetConfig "id") prop)
  ∧ (∀ id' prop',
        Statestore.getProperty (statestore b) id' prop' ≠ JUndefined →
        Statestore.getProperty (statestore b1) id' prop'
        = Statestore.getProperty (statestore b) id' prop')
  ∧ (∀ page' group' widgetNode' widgetConfig' widgetEvents' b2,
        JS.to_key (JS.get widgetConfig' "id")
        = JS.to_key (JS.get widgetConfig "id") →
        register n getNode contribs fn_source subflow_info
                 page' group' widgetNode' widgetConfig' widgetEvents' b1 = Ok b2 →
        statestore b2 = statestore b1).
Proof.
  intros Hn Hc Hreg.
  apply statestore_register in Hreg. rewrite Hn, Hc in Hreg. simpl in Hreg.
  assert (Hseed : ∀ prop value,
    (prop, value) ∈ default_states →
    Statestore.getProperty (statestore b1) (JS.get widgetConfig "id") prop
    = if JS.strict_eq
           (Statestore.getProperty (statestore b) (JS.get widgetConfig "id") prop)
           JUndefined
      then value
      else Statestore.getProperty (statestore b) (JS.get widgetConfig "id") prop).
  { intros prop value Hin. rewrite Hreg, getProperty_seed_defaults.
    rewrite decide_True by done.
    by destruct (default_states_lookup _ _ Hin) as [-> _]. }
  split; [exact Hseed|]. split.
  - intros id' prop' Hset. rewrite Hreg, getProperty_seed_defaults.
    apply strict_eq_undefined_false in Hset. rewrite Hset.
    by repeat case_match.
  - intros page' group' widgetNode' widgetConfig' widgetEvents' b2 Hid Hreg2.
    apply statestore_register in Hreg2. rewrite Hreg2.
    destruct (JS.truthy widgetNode' && JS.truthy widgetConfig'); [|done].
    apply seed_defaults_id. intros prop value Hin.
    rewrite (getProperty_key _ _ (JS.get widgetConfig "id")) by done.
    rewrite (Hseed _ _ Hin).
    destruct (JS.strict_eq _ _) eqn:Hu.
    + by destruct (default_states_lookup _ _ Hin).
    + by apply strict_eq_undefined_false.
Qed.

Lemma register_seeds_defaults_once_witness :
  Statestore.getProperty (statestore example_registered) (JStr "w3") "enabled"
  = JBool true
  ∧ Statestore.getProperty (statestore example_registered) (JStr "w3") "visible"
    = JBool false
  ∧ ∀ b2,
      register example_base_config no_node ∅ no_source no_subflow
               JNull JNull (node_with_id "w3") example_widgetConfig (JObj ∅)
               example_registered = Ok b2 →
      statestore b2 = statestore example_registered.
Proof.
  assert (Hreg : register example_base_config no_node ∅ no_source no_subflow
                   JNull JNull (node_with_id "w3") example_widgetConfig (JObj ∅)
                   example_base_hidden = Ok example_registered)
    by (vm_compute; reflexivity).
  destruct (register_seeds_defaults_once
              example_base_config no_node ∅ no_source no_subflow
              JNull JNull (node_with_id "w3") example_widgetConfig (JObj ∅)
              example_base_hidden example_registered
              eq_refl eq_refl Hreg) as (Hseed & Hframe & Hagain).
  split; [|split].
  - apply (Hseed "enabled" (JBool true)). unfold default_states. repeat constructor.
  - apply (Hframe (JStr "w3") "visible"). vm_compute. discriminate.
  - intros b2. by apply Hagain.
Defined.

(** ** The debounced emission *)

Lemma union_twice (bag x : gmap string jsval) : bag ∪ (bag ∪ x) = bag ∪ x.
Proof. by rewrite (assoc_L (∪)), (idemp_L (∪)). Qed.

Lemma merge_entry_state_idemp ss id e :
  merge_entry_state ss id (merge_entry_state ss id e) = merge_entry_state ss id e.
Proof.
  unfold merge_entry_state. rewrite getAll_key.
  destruct (ss !! id) as [bag|]; [|done].
  cbn [JS.truthy]. unfold JS.merge. cbn [JS.spread]. by rewrite union_twice.
Qed.

Lemma merge_widget_state_idemp ss id w :
  merge_widget_state ss id (merge_widget_state ss id w) = merge_widget_state ss id w.
Proof.
  unfold merge_widget_state. rewrite getAll_key.
  destruct (ss !! id) as [bag|]; [|done]. cbn [JS.truthy].
  destruct w as [| | | | | | |o|]; try reflexivity.
  cbn [JS.set JS.get]. f_equal.
  repeat (rewrite lookup_insert_eq
          || (rewrite (lookup_insert_ne _ "state" "props"); [|done])
          || (rewrite (lookup_insert_ne _ "props" "state"); [|done])).
  unfold JS.merge. cbn [default from_option Datatypes.id JS.spread].
  rewrite !union_twice.
  apply map_eq. intros k.
  destruct (decide (k = "state")) as [->|Hs].
  { by rewrite !lookup_insert_eq. }
  rewrite !(lookup_insert_ne _ "state" k); [|done..].
  destruct (decide (k = "props")) as [->|Hp].
  { by rewrite !lookup_insert_eq. }
  by repeat (rewrite lookup_insert_ne; [|done]).
Qed.

Lemma merge_statestore_idemp ss u :
  merge_statestore ss (merge_statestore ss u) = merge_statestore ss u.
Proof.
  destruct u as [h d p t g w].
  unfold merge_statestore, set_widgets, set_pages, set_groups.
  cbn [heads dashboards pages themes groups widgets].
  f_equal; apply map_eq; intros k; rewrite !map_lookup_imap.
  - destruct (p !! k); [|done]. cbn. by rewrite merge_entry_state_idemp.
  - destruct (g !! k); [|done]. cbn. by rewrite merge_entry_state_idemp.
  - destruct (w !! k); [|done]. cbn. by rewrite merge_widget_state_idemp.
Qed.

Section DebounceFacts.

Variable n : base_config.

(** The loop of the timer callback over the connections. *)
Lemma emit_to_all (conns : list socket) (b : base) :
  conns ≠ [] →
  foldl (λ b socket, emitConfig n socket b) b conns
  = Base (merge_statestore (statestore b) (ui b)) (emitConfigRequested b)
         (connections b) (statestore b) (now b)
         (trace b ++ fan_out n (ui_snapshot (merge_statestore (statestore b) (ui b)))
                             conns).
Proof.
  revert b. induction conns as [|s conns IH]; intros b Hne; [done|].
  cbn [foldl]. destruct conns as [|s' conns].
  - reflexivity.
  - rewrite IH; [|done]. unfold emitConfig, fan_out.
    cbn [ui set_ui log statestore emitConfigRequested connections now trace].
    rewrite merge_statestore_idemp.
    rewrite (fmap_cons _ s (s' :: conns)). by rewrite <- app_assoc.
Qed.

Lemma emitConfigTimeout_trace (b : base) :
  trace (emitConfigTimeout n b)
  = trace b ++ fan_out n (ui_snapshot (merge_statestore (statestore b) (ui b)))
                       (connections b)
  ∧ emitConfigRequested (emitConfigTimeout n b) = None
  ∧ now (emitConfigTimeout n b) = now b
  ∧ connections (emitConfigTimeout n b) = connections b
  ∧ statestore (emitConfigTimeout n b) = statestore b.
Proof.
  unfold emitConfigTimeout.
  destruct (connections b) as [|s conns] eqn:Hc.
  - cbn. rewrite Hc. by rewrite app_nil_r.
  - rewrite emit_to_all by done. cbn. by rewrite Hc.
Qed.

End DebounceFacts.

Lemma set_now_set_now (t t' : nat) (b : base) :
  set_now t (set_now t' b) = set_now t b.
Proof. reflexivity. Qed.

Lemma set_now_now (b : base) : set_now (now b) b = b.
Proof. by destruct b. Qed.

(** A request made while the flag is set changes nothing. *)
Lemma requestEmitConfig_pending (b : base) :
  is_Some (emitConfigRequested b) → requestEmitConfig b = b.
Proof. intros [due H]. unfold requestEmitConfig. by rewrite H. Qed.

(** While the timer is not yet due, requests and the passing of time leave
    everything but the clock as it is. *)
Lemma run_before_due (n : base_config) (script : list loop_event) (b : base)
    (due : nat) :
  emitConfigRequested b = Some due →
  (now b + duration script < due)%nat →
  run n script b = set_now (now b + duration script)%nat b.
Proof.
  revert b. induction script as [|e script IH]; intros b Hflag Hlt.
  - cbn. rewrite Nat.add_0_r. by rewrite set_now_now.
  - change (run n (e :: script) b) with (run n script (step n b e)).
    change (duration (e :: script))
      with (match e with Request => duration script
                    | Elapse d => (d + duration script)%nat end) in *.
    destruct e as [|d]; cbn [step].
    + rewrite requestEmitConfig_pending by eauto. by apply IH.
    + unfold elapse. rewrite Hflag.
      destruct (due <=? now b + d)%nat eqn:Hdue.
      { apply Nat.leb_le in Hdue. lia. }
      rewrite (IH (set_now (now b + d)%nat b)).
      * cbn [set_now now]. rewrite Nat.add_assoc. reflexivity.
      * done.
      * cbn [set_now now]. lia.
Qed.

(** C1: a first request made with no emission pending, followed by any
    further requests within less than the debounce interval, emits nothing
    and keeps the flag set until the timer is due; when it is due the
    callback runs once, every connection gets exactly one [ui-config], and
    the flag is cleared; after that nothing more is emitted; and a request
    made while the flag is set is a no-op. *)
Theorem requestEmitConfig_debounced (n : base_config) (b : base)
    (script : list loop_event) :
  emitConfigRequested b = None →
  (duration script < debounce)%nat →
  let b1 := run n (Request :: script) b in
  (trace b1 = trace b
   ∧ ui b1 = ui b
   ∧ emitConfigRequested b1 = Some (now b + debounce)%nat)
  ∧ (∀ d, (debounce ≤ duration script + d)%nat →
          let b2 := elapse n d b1 in
          emitConfigRequested b2 = None
          ∧ trace b2 = trace b ++ fan_out n (ui_snapshot (ui b2)) (connections b)
          ∧ ∀ d', trace (elapse n d' b2) = trace b2)
  ∧ (∀ b0, is_Some (emitConfigRequested b0) → requestEmitConfig b0 = b0).
Proof.
  intros Hidle Hlt b1.
  assert (Hb1 : b1 = set_now (now b + duration script)%nat
                       (set_emitConfigRequested (Some (now b + debounce)%nat) b)).
  { subst b1. unfold run. cbn [foldl step]. unfold requestEmitConfig at 1.
    rewrite Hidle.
    fold (run n script (set_emitConfigRequested (Some (now b + debounce)%nat) b)).
    rewrite (run_before_due n script _ (now b + debounce)%nat);
      cbn [set_emitConfigRequested now emitConfigRequested]; [done|done|lia]. }
  split; [|split].
  - by rewrite Hb1.
  - intros d Hd b2. subst b2. rewrite Hb1. unfold elapse.
    cbn [set_now set_emitConfigRequested emitConfigRequested now].
    destruct (now b + debounce <=? now b + duration script + d)%nat eqn:Hdue.
    2:{ apply Nat.leb_gt in Hdue. lia. }
    match goal with
    | |- context [emitConfigTimeout n ?x] =>
        destruct (emitConfigTimeout_trace n x) as (Ht & Hf & _ & Hc & _);
        set (fired := emitConfigTimeout n x) in *
    end.
    cbn [set_now emitConfigRequested trace ui].
    cbn [trace statestore ui connections] in Ht.
    split; [exact Hf|]. split.
    + rewrite Ht. subst fired. unfold emitConfigTimeout.
      cbn [connections set_now set_emitConfigRequested].
      destruct (connections b) as [|s conns]; [done|].
      rewrite emit_to_all; [|done]. reflexivity.
    + intros d'. unfold elapse. cbn [emitConfigRequested set_now now].
      by rewrite Hf.
  - apply requestEmitConfig_pending.
Qed.

Lemma requestEmitConfig_debounced_witness :
  let b1 := run example_base_config (Request :: example_burst) example_base in
  (trace b1 = [] ∧ emitConfigRequested b1 = Some 300%nat)
  ∧ trace (elapse example_base_config 1 b1)
    = fan_out example_base_config
        (ui_snapshot (ui (elapse example_base_config 1 b1)))
        [Socket "A" "base1"; Socket "B" "base1"].
Proof.
  destruct (requestEmitConfig_debounced example_base_config example_base
              example_burst eq_refl ltac:(vm_compute; lia))
    as ((Ht & _ & Hf) & Hfire & _).
  split; [split; [exact Ht | exact Hf]|].
  destruct (Hfire 1%nat ltac:(vm_compute; lia)) as (_ & Htrace & _).
  exact Htrace.
Defined.

(** ** The widget-action route *)

Lemma truthy_not_nullish (v : jsval) : JS.truthy v = true → nullish v = false.
Proof. by destruct v. Qed.

Section ActionFacts.

Variable plugins : list plugin.
Variable getNode : jsval → jsval.
Variable call : nat → list jsval → res jsval.
Variable appendTopic : jsval → jsval → jsval → res jsval.
Variable addConnectionCredentials : jsval → socket → jsval.

Lemma onAction_unfold conn id msg b :
  JS.truthy (run_onAction_hooks plugins conn id msg) = true →
  onAction plugins getNode call appendTopic addConnectionCredentials conn id msg b
  = let wNode := getNode id in
    let widget := default JUndefined (widgets (ui b) !! JS.to_key id) in
    let widgetConfig := JS.or (JS.get_opt widget "props") (JObj ∅) in
    let widgetEvents := JS.or (JS.get_opt widget "hooks") (JObj ∅) in
    if negb (JS.truthy wNode) || negb (JS.truthy (JS.get widgetEvents "onAction"))
    then b
    else match (m ← appendTopic widgetConfig wNode
                      (ensure_object
                         (addConnectionCredentials
                            (run_onAction_hooks plugins conn id msg) conn));
                run_beforeSend call widgetEvents m) with
         | Ok m => log (NodeSend wNode m) b
         | Throw e => report_error widgetEvents wNode e b
         end.
Proof. intros H. unfold onAction. rewrite H. reflexivity. Qed.

End ActionFacts.

(** C8, as amended: for an action whose message is still truthy after the
    [onAction] hooks, the call is a silent no-op when the widget node is
    not found or when the widget's hooks have no [onAction] entry;
    otherwise the message gets its topic, goes through [beforeSend] when
    that is a function, and is handed to [wNode.send] (provided neither
    step throws). *)
Theorem onAction_forwards (plugins : list plugin) (getNode : jsval → jsval)
    (call : nat → list jsval → res jsval)
    (appendTopic : jsval → jsval → jsval → res jsval)
    (addConnectionCredentials : jsval → socket → jsval)
    (conn : socket) (id msg : jsval) (b : base) :
  JS.truthy (run_onAction_hooks plugins conn id msg) = true →
  let wNode := (getWidgetAndConfig getNode id b).1.1.1 in
  let widgetConfig := (getWidgetAndConfig getNode id b).1.1.2 in
  let widgetEvents := (getWidgetAndConfig getNode id b).1.2 in
  let msg0 := ensure_object
                (addConnectionCredentials
                   (run_onAction_hooks plugins conn id msg) conn) in
  let result := onAction plugins getNode call appendTopic
                         addConnectionCredentials conn id msg b in
  (JS.truthy wNode = false ∨ JS.truthy (JS.get widgetEvents "onAction") = false →
   result = b)
  ∧ (JS.truthy wNode = true →
     JS.truthy (JS.get widgetEvents "onAction") = true →
     ∀ m1, appendTopic widgetConfig wNode msg0 = Ok m1 →
           (JS.is_function (JS.get widgetEvents "beforeSend") = false →
            result = log (NodeSend wNode m1) b)
           ∧ (∀ f m2, JS.get widgetEvents "beforeSend" = JFun f →
                      call f [m1] = Ok m2 →
                      result = log (NodeSend wNode m2) b)).
Proof.
  intros Hmsg wNode widgetConfig widgetEvents msg0 result.
  subst result. rewrite onAction_unfold by done.
  subst wNode widgetConfig widgetEvents msg0. unfold getWidgetAndConfig.
  cbn [fst snd]. cbv zeta.
  set (wNode := getNode id).
  set (widget := default JUndefined (widgets (ui b) !! JS.to_key id)).
  set (widgetConfig := JS.or (JS.get_opt widget "props") (JObj ∅)).
  set (widgetEvents := JS.or (JS.get_opt widget "hooks") (JObj ∅)).
  assert (Hev : nullish widgetEvents = false).
  { subst widgetEvents. unfold JS.or.
    destruct (JS.truthy (JS.get_opt widget "hooks")) eqn:Ht; [|done].
    by apply truthy_not_nullish. }
  assert (Hget : JS.get_opt widgetEvents "beforeSend"
                 = JS.get widgetEvents "beforeSend").
  { by destruct widgetEvents. }
  split.
  - intros [-> | ->]; [done|]. by rewrite orb_true_r.
  - intros -> -> m1 Hm1. cbn [negb orb]. rewrite Hm1.
    cbn [mbind res_bind]. unfold run_beforeSend. rewrite Hget. split.
    + intros ->. by rewrite andb_false_r.
    + intros f m2 -> Hcall. cbn. by rewrite Hcall.
Qed.

Lemma onAction_forwards_witness :
  onAction [] example_getNode example_call example_appendTopic
           example_credentials (Socket "A" "base1") (JStr "w9")
           (JObj {[ "payload" := JNum 1 ]}) example_base_actions
  = example_base_actions
  ∧ onAction [] example_getNode example_call example_appendTopic
             example_credentials (Socket "A" "base1") (JStr "w5")
             (JObj {[ "payload" := JNum 1 ]}) example_base_actions
    = log (NodeSend (example_getNode (JStr "w5"))
             (JObj {[ "payload" := JNum 1;
                      "_client" := JObj {[ "socketId" := JStr "A" ]};
                      "topic" := JStr "pressed";
                      "_datapoint" := JNum 7 ]}))
          example_base_actions.
Proof.
  split.
  - apply (proj1 (onAction_forwards [] example_getNode example_call
                    example_appendTopic example_credentials (Socket "A" "base1")
                    (JStr "w9") (JObj {[ "payload" := JNum 1 ]})
                    example_base_actions eq_refl)).
    left. vm_compute. reflexivity.
  - refine (proj2 (proj2 (onAction_forwards [] example_getNode example_call
                    example_appendTopic example_credentials (Socket "A" "base1")
                    (JStr "w5") (JObj {[ "payload" := JNum 1 ]})
                    example_base_actions eq_refl) eq_refl eq_refl _ _) 7%nat _ _ _).
    + vm_compute. reflexivity.
    + vm_compute. reflexivity.
    + vm_compute. reflexivity.
Defined.

(** The claim C8 as first stated fails: the widget [w1] is registered and
    its node is alive, nothing throws, yet its hooks have no [onAction]
    entry and the action is dropped. *)
Lemma onAction_resolved_not_forwarded_counterexample :
  ¬ (∀ (plugins : list plugin) (getNode : jsval → jsval)
       (call : nat → list jsval → res jsval)
       (appendTopic : jsval → jsval → jsval → res jsval)
       (addConnectionCredentials : jsval → socket → jsval)
       (conn : socket) (id msg : jsval) (b : base),
        (∀ c w m, ∃ m', appendTopic c w m = Ok m') →
        (∀ f args, ∃ v, call f args = Ok v) →
        JS.truthy (run_onAction_hooks plugins conn id msg) = true →
        JS.truthy (getNode id) = true →
        is_Some (widgets (ui b) !! JS.to_key id) →
        ∃ m, trace (onAction plugins getNode call appendTopic
                             addConnectionCredentials conn id msg b)
             = trace b ++ [NodeSend (getNode id) m]).
Proof.
  intros H.
  destruct (H [] example_getNode example_call example_appendTopic
              example_credentials (Socket "A" "base1") (JStr "w1")
              (JObj {[ "payload" := JNum 1 ]}) example_base) as [m Hm].
  - intros c w m. eexists. reflexivity.
  - intros f [|a [|a' args]]; eexists; reflexivity.
  - reflexivity.
  - reflexivity.
  - vm_compute. eauto.
  - vm_compute in Hm. discriminate Hm.
Qed.

(** ** The chart history: latest message per category *)

Lemma strict_get_ok (v : jsval) (k : string) :
  nullish v = false → Strict.get v k = Ok (JS.get v k).
Proof. by destruct v. Qed.








Section LastOfEach.

Variable key : jsval → string.






End LastOfEach.

(** ** The chart history: the steps of [onInput] *)

Section OnInputFacts.

Variable config : chart_config.
Variable node_id : string.
Variable parseInt : jsval → jsval.
Variable parseFloat : jsval → jsval.
Variable dateParse : string → jsval.
Variable json_clone : jsval → res jsval.

Lemma history_save (data : gmap string jsval) (msgs : list jsval) :
  history node_id (Datastore.save data node_id (JArr msgs)) = msgs.
Proof.
  unfold history, Datastore.get, Datastore.save. by rewrite lookup_insert_eq.
Qed.

Lemma get_save (data : gmap string jsval) (v : jsval) :
  Datastore.get (Datastore.save data node_id v) node_id = v.
Proof. unfold Datastore.get, Datastore.save. by rewrite lookup_insert_eq. Qed.


Lemma strict_eq_str (v : jsval) (s : string) :
  JS.strict_eq v (JStr s) = true ↔ v = JStr s.
Proof.
  destruct v; cbn; try (split; [discriminate|discriminate]).
  rewrite String.eqb_eq. split; congruence.
Qed.


End OnInputFacts.



(** ** The chart history: at most [N] messages per label *)

Section MostRecent.

Variable key : jsval → string.
Variable N : Z.




End MostRecent.




(** ** The chart history: the time window *)



Section TimeWindowFacts.

Variable config : chart_config.
Variable parseFloat : jsval → jsval.
Variable dateParse : string → jsval.





End TimeWindowFacts.

Section EvictionFacts.

Variable config : chart_config.
Variable node_id : string.
Variable parseInt : jsval → jsval.
Variable parseFloat : jsval → jsval.
Variable dateParse : string → jsval.


End EvictionFacts.







(** * Further properties of the chart history *)

Section HistoryFacts.

Variable config : chart_config.
Variable node_id : string.
Variable parseInt : jsval → jsval.
Variable parseFloat : jsval → jsval.
Variable dateParse : string → jsval.
Variable json_clone : jsval → res jsval.

Lemma history_append (data : gmap string jsval) (m : jsval) :
  history node_id (Datastore.append data node_id m) = history node_id data ++ [m].
Proof.
  unfold Datastore.append, history.
  destruct (Datastore.get data node_id) eqn:Hg;
    unfold Datastore.get; by rewrite lookup_insert_eq.
Qed.

Lemma history_append_all (data : gmap string jsval) (ms : list jsval) :
  history node_id (foldl (λ data m, Datastore.append data node_id m) data ms)
  = history node_id data ++ ms.
Proof.
  revert data. induction ms as [|m ms IH]; intros data; cbn [foldl].
  - by rewrite app_nil_r.
  - rewrite IH, history_append. by rewrite <- app_assoc.
Qed.

Lemma append_other (data : gmap string jsval) (m : jsval) (id : string) :
  id ≠ node_id → Datastore.append data node_id m !! id = data !! id.
Proof.
  intros Hne. unfold Datastore.append.
  destruct (Datastore.get data node_id); by rewrite lookup_insert_ne.
Qed.

Lemma append_all_other (data : gmap string jsval) (ms : list jsval) (id : string) :
  id ≠ node_id →
  foldl (λ data m, Datastore.append data node_id m) data ms !! id = data !! id.
Proof.
  intros Hne. revert data. induction ms as [|m ms IH]; intros data; [done|].
  cbn [foldl]. by rewrite IH, append_other.
Qed.

Lemma save_other (data : gmap string jsval) (v : jsval) (id : string) :
  id ≠ node_id → Datastore.save data node_id v !! id = data !! id.
Proof. intros Hne. unfold Datastore.save. by rewrite lookup_insert_ne. Qed.

(** The history the append starts from: cleared by [action = 'replace']. *)
Lemma history_prepared (data : gmap string jsval) :
  history node_id
    (if JS.strict_eq (action config) (JStr "replace")
     then Datastore.save
            (if JS.truthy (Datastore.get data node_id) then data
             else Datastore.save data node_id (JArr []))
            node_id (JArr [])
     else if JS.truthy (Datastore.get data node_id) then data
          else Datastore.save data node_id (JArr []))
  = if JS.strict_eq (action config) (JStr "replace") then []
    else history node_id data.
Proof.
  destruct (JS.strict_eq (action config) (JStr "replace")).
  - apply history_save.
  - destruct (JS.truthy (Datastore.get data node_id)) eqn:Ht; [done|].
    rewrite history_save. unfold history.
    by destruct (Datastore.get data node_id).
Qed.

Lemma map_res_length {A B : Type} (f : A → nat → res B) (l : list A)
    (index : nat) (out : list B) :
  map_res f index l = Ok out →
  length out = length l
  ∧ ∀ i x, l !! i = Some x → ∃ y, f x (index + i)%nat = Ok y ∧ out !! i = Some y.
Proof.
  revert index out. induction l as [|x l IH]; intros index out; cbn [map_res].
  - intros [= <-]. split; [done|]. by intros i x.
  - destruct (f x index) as [y|e] eqn:Hy; [|discriminate]. cbn [mbind res_bind].
    destruct (map_res f (S index) l) as [rest|e] eqn:Hrest; [|discriminate].
    cbn [mbind res_bind mret res_ret]. intros [= <-].
    destruct (IH _ _ Hrest) as [Hlen Hall]. split; [cbn; by rewrite Hlen|].
    intros [|i] x' Hx.
    + injection Hx as <-. exists y. by rewrite Nat.add_0_r.
    + cbn in Hx. destruct (Hall i x' Hx) as (y' & Hy' & Hout).
      exists y'. split; [|done]. by replace (index + S i)%nat with (S index + i)%nat by lia.
Qed.

End HistoryFacts.

(** X1: an empty array as payload clears the widget's history, whatever was
    stored and whatever the chart's settings; the stored data of the other
    widgets is not touched and the message is sent on as it came. *)
Theorem onInput_empty_array_clears (config : chart_config) (node_id : string)
    (parseInt parseFloat : jsval → jsval) (dateParse : string → jsval)
    (json_clone : jsval → res jsval) (now : Z) (msg : jsval)
    (data : gmap string jsval) :
  Strict.get msg "payload" = Ok (JArr []) →
  ∃ data',
    onInput config node_id parseInt parseFloat dateParse json_clone now msg data
    = Ok (data', msg)
    ∧ Datastore.get data' node_id = JArr []
    ∧ history node_id data' = []
    ∧ ∀ id, id ≠ node_id → data' !! id = data !! id.
Proof.
  intros Hp. unfold onInput. rewrite Hp. cbn [mbind res_bind mret res_ret].
  eexists. split; [reflexivity|].
  rewrite get_save, history_save. repeat split.
  intros id Hne. by apply save_other.
Qed.

Lemma onInput_empty_array_clears_witness :
  ∃ data',
    onInput example_line_chart "chart2" example_parse example_parse
            example_dateParse example_clone 60 reset_message example_lines_stored
    = Ok (data', reset_message)
    ∧ history "chart2" data' = [].
Proof.
  destruct (onInput_empty_array_clears example_line_chart "chart2"
              example_parse example_parse example_dateParse example_clone 60
              reset_message example_lines_stored eq_refl)
    as (data' & Hrun & _ & Hh & _).
  exists data'. split; [exact Hrun | exact Hh].
Defined.

(** The history and the other entries after the append step. *)
Lemma append_phase_inv (config : chart_config) (node_id : string)
    (json_clone : jsval → res jsval) (msg payload : jsval)
    (data appended : gmap string jsval) :
  Strict.get msg "payload" = Ok payload →
  append_phase config node_id json_clone msg data = Ok appended →
  ∃ new,
    history node_id appended
    = (if JS.strict_eq (action config) (JStr "replace") then []
       else history node_id data) ++ new
    ∧ (JS.isArray payload = false → new = [JObj (JS.spread msg)])
    ∧ (∀ ps, payload = JArr ps →
             length new = length ps
             ∧ ∀ i p, ps !! i = Some p →
                      ∃ p', json_clone p = Ok p'
                            ∧ new !! i
                              = Some (JObj (<["_datapoint" :=
                                     if JS.truthy (JS.get msg "_datapoint")
                                     then JS.get (JS.get msg "_datapoint")
                                                 (JS.string_of_Z (Z.of_nat i))
                                     else JNull]>
                                   (<["payload" := p']> (JS.spread msg)))))
    ∧ ∀ id, id ≠ node_id → appended !! id = data !! id.
Proof.
  intros Hp. unfold append_phase. rewrite Hp. cbn [mbind res_bind].
  set (prepared := if JS.strict_eq (action config) (JStr "replace") then _ else _).
  assert (Hprep : history node_id prepared
                  = if JS.strict_eq (action config) (JStr "replace") then []
                    else history node_id data) by apply history_prepared.
  assert (Hother : ∀ id, id ≠ node_id → prepared !! id = data !! id).
  { intros id Hne. subst prepared.
    destruct (JS.strict_eq _ _), (JS.truthy _);
      rewrite ?save_other by done; done. }
  destruct (JS.isArray payload) eqn:Harr.
  - destruct payload as [| | | | | |ps| |]; try discriminate Harr.
    destruct (map_res (split_message json_clone msg) 0 ps) as [ms|e] eqn:Hms;
      [|discriminate].
    cbn [mbind res_bind mret res_ret]. intros [= <-]. exists ms.
    rewrite history_append_all, Hprep. split; [done|]. split; [done|]. split.
    + intros ps' [= <-]. destruct (map_res_length _ _ _ _ Hms) as [Hlen Hall].
      split; [done|]. intros i p Hi. destruct (Hall i p Hi) as (y & Hy & Hout).
      unfold split_message in Hy. cbn [Nat.add] in Hy.
      destruct (json_clone p) as [p'|e]; [|discriminate].
      cbn [mbind res_bind mret res_ret] in Hy. injection Hy as <-. eauto.
    + intros id Hne. by rewrite append_all_other, Hother.
  - destruct payload; try discriminate Harr;
      (intros [= <-]; exists [JObj (JS.spread msg)];
       rewrite history_append, Hprep;
       split; [done|]; split; [done|]; split;
       [intros ps' Hps; discriminate Hps
       |intros id Hne; by rewrite append_other, Hother]).
Qed.

(** X2: what the append step stores.  The history it leaves is the one
    stored before (nothing when [action] is 'replace') followed by the new
    entries: a copy of the message for a payload that is no array; for an
    array payload one entry per element, in order, each the message with
    the element's clone as payload and the element's own data point. *)
Theorem append_phase_history (config : chart_config) (node_id : string)
    (json_clone : jsval → res jsval) (msg payload : jsval)
    (data appended : gmap string jsval) :
  Strict.get msg "payload" = Ok payload →
  append_phase config node_id json_clone msg data = Ok appended →
  ∃ new,
    history node_id appended
    = (if JS.strict_eq (action config) (JStr "replace") then []
       else history node_id data) ++ new
    ∧ (JS.isArray payload = false → new = [JObj (JS.spread msg)])
    ∧ (∀ ps, payload = JArr ps →
             length new = length ps
             ∧ ∀ i p, ps !! i = Some p →
                      ∃ p', json_clone p = Ok p'
                            ∧ new !! i
                              = Some (JObj (<["_datapoint" :=
                                     if JS.truthy (JS.get msg "_datapoint")
                                     then JS.get (JS.get msg "_datapoint")
                                                 (JS.string_of_Z (Z.of_nat i))
                                     else JNull]>
                                   (<["payload" := p']> (JS.spread msg)))))
    ∧ ∀ id, id ≠ node_id → appended !! id = data !! id.
Proof. apply append_phase_inv. Qed.


Lemma append_phase_history_witness :
  ∃ appended,
    append_phase example_replacing_chart "chart2" example_clone example_batch
                 example_lines_stored = Ok appended
    ∧ history "chart2" appended = example_batch_entries.
Proof.
  destruct (append_phase example_replacing_chart "chart2" example_clone
              example_batch example_lines_stored) as [appended|e] eqn:Happ;
    [|vm_compute in Happ; discriminate Happ].
  exists appended. split; [reflexivity|].
  destruct (append_phase_history example_replacing_chart "chart2" example_clone
              example_batch (JArr [JNum 7; JNum 8]) example_lines_stored appended
              eq_refl Happ) as (new & Hh & _ & Hnew & _).
  vm_compute in Happ. injection Happ as <-. vm_compute. reflexivity.
Defined.

(** ** Eviction only removes *)

Lemma filter_from_sublist {A : Type} (p : A → nat → bool) (index : nat)
    (l : list A) :
  filter_from p index l `sublist_of` l.
Proof.
  revert index. induction l as [|x l IH]; intros index; cbn [filter_from]; [done|].
  destruct (p x index); by constructor.
Qed.

Lemma filter_res_sublist {A : Type} (p : A → res bool) (l r : list A) :
  filter_res p l = Ok r → r `sublist_of` l.
Proof.
  revert r. induction l as [|x l IH]; intros r; cbn [filter_res].
  - by intros [= <-].
  - destruct (p x) as [keep|e]; [|discriminate]. cbn [mbind res_bind].
    destruct (filter_res p l) as [rest|e]; [|discriminate].
    cbn [mbind res_bind mret res_ret]. intros [= <-].
    destruct keep; constructor; by apply IH.
Qed.

Lemma prune_loop_sublist (maxPoints : Z) (k : nat) (msgs r : list jsval)
    (lineCounts : gmap string Z) :
  prune_loop maxPoints k msgs lineCounts = Ok r → r `sublist_of` msgs.
Proof.
  revert msgs lineCounts. induction k as [|i IH]; intros msgs lineCounts;
    cbn [prune_loop].
  - by intros [= <-].
  - destruct (Strict.get _ "topic") as [topic|e]; [|discriminate].
    cbn [mbind res_bind]. destruct (Z.geb _ maxPoints); intros H.
    + etrans; [by eapply IH|]. apply sublist_delete.
    + by eapply IH.
Qed.

Section OnlyRemoves.

Variable config : chart_config.
Variable node_id : string.
Variable parseInt : jsval → jsval.
Variable parseFloat : jsval → jsval.
Variable dateParse : string → jsval.
Variable json_clone : jsval → res jsval.

Lemma evict_by_axis_removes (data stored : gmap string jsval) :
  evict_by_axis config node_id parseInt data = Ok stored →
  history node_id stored `sublist_of` history node_id data
  ∧ ∀ id, id ≠ node_id → stored !! id = data !! id.
Proof.
  unfold evict_by_axis, latest_per_category, latest_per_label.
  destruct (JS.strict_eq (xAxisType config) (JStr "category")).
  - destruct (record_seen _ _ _) as [seen|e]; [|discriminate].
    cbn [mbind res_bind mret res_ret]. intros [= <-]. rewrite history_save.
    split; [apply filter_from_sublist|]. intros id Hne. by apply save_other.
  - destruct (count_window_on config parseInt); [|by intros [= <-]].
    destruct (parseInt (removeOlderPoints config)); try by intros [= <-].
    destruct (prune_loop _ _ _ _) as [r|e] eqn:Hr; [|discriminate].
    cbn [mbind res_bind mret res_ret]. intros [= <-]. rewrite history_save.
    split; [by eapply prune_loop_sublist|]. intros id Hne. by apply save_other.
Qed.

Lemma evict_by_time_removes (now : Z) (data stored : gmap string jsval) :
  evict_by_time config node_id parseFloat dateParse now data = Ok stored →
  history node_id stored `sublist_of` history node_id data
  ∧ ∀ id, id ≠ node_id → stored !! id = data !! id.
Proof.
  unfold evict_by_time, within_window.
  destruct (time_window_on config); [|by intros [= <-]].
  destruct (filter_res _ _) as [r|e] eqn:Hr; [|discriminate].
  cbn [mbind res_bind mret res_ret]. intros [= <-]. rewrite history_save.
  split; [by eapply filter_res_sublist|]. intros id Hne. by apply save_other.
Qed.

(** The ways [onInput] returns. *)
Lemma onInput_inv (now : Z) (msg sent : jsval) (data data' : gmap string jsval) :
  onInput config node_id parseInt parseFloat dateParse json_clone now msg data
  = Ok (data', sent) →
  sent = msg
  ∧ ((Strict.get msg "payload" = Ok (JArr [])
      ∧ data' = Datastore.save data node_id (JArr []))
     ∨ ∃ appended stored,
         Strict.get msg "payload" ≠ Ok (JArr [])
         ∧ append_phase config node_id json_clone msg data = Ok appended
         ∧ evict_by_axis config node_id parseInt appended = Ok stored
         ∧ evict_by_time config node_id parseFloat dateParse now stored = Ok data').
Proof.
  unfold onInput.
  destruct (Strict.get msg "payload") as [payload|e] eqn:Hp; [|discriminate].
  cbn [mbind res_bind].
  destruct payload as [| | | | | |[|p ps]| |];
    try (destruct (append_phase _ _ _ _ _) as [appended|e] eqn:Ha; [|discriminate];
         cbn [mbind res_bind];
         destruct (evict_by_axis _ _ _ _) as [stored|e'] eqn:Hs; [|discriminate];
         cbn [mbind res_bind];
         destruct (evict_by_time _ _ _ _ _ _) as [final|e''] eqn:Hf; [|discriminate];
         cbn [mbind res_bind mret res_ret]; intros [= <- <-];
         split; [done|]; right; exists appended, stored;
         split; [discriminate|]; done).
  cbn [mret res_ret]. intros [= <- <-]. split; [done|]. by left.
Qed.

End OnlyRemoves.

(** X3: whatever the settings, when [onInput] returns it has sent on the
    message it was given, it has left the stored data of every other widget
    as it was, and (unless the message was the reset signal) the history it
    leaves is a subsequence of the appended history: eviction removes
    entries and never reorders or alters the ones that stay. *)
Theorem onInput_only_removes (config : chart_config) (node_id : string)
    (parseInt parseFloat : jsval → jsval) (dateParse : string → jsval)
    (json_clone : jsval → res jsval) (now : Z) (msg sent : jsval)
    (data data' : gmap string jsval) :
  onInput config node_id parseInt parseFloat dateParse json_clone now msg data
  = Ok (data', sent) →
  sent = msg
  ∧ (∀ id, id ≠ node_id → data' !! id = data !! id)
  ∧ (Strict.get msg "payload" ≠ Ok (JArr []) →
     ∃ appended,
       append_phase config node_id json_clone msg data = Ok appended
       ∧ history node_id data' `sublist_of` history node_id appended).
Proof.
  intros H. apply onInput_inv in H as [-> [[Hp ->]|H]].
  - split; [done|]. split; [|done]. intros id Hne. by apply save_other.
  - destruct H as (appended & stored & Hp & Happ & Haxis & Htime).
    apply evict_by_axis_removes in Haxis as [Hs1 Ho1].
    apply evict_by_time_removes in Htime as [Hs2 Ho2].
    destruct (Strict.get msg "payload") as [payload|e] eqn:Hpay.
    2:{ unfold append_phase in Happ. rewrite Hpay in Happ. discriminate. }
    destruct (append_phase_inv _ _ _ _ _ _ _ Hpay Happ)
      as (new & _ & _ & _ & Ho0).
    split; [done|]. split.
    + intros id Hne. by rewrite Ho2, Ho1, Ho0.
    + intros _. exists appended. split; [done|]. by etrans.
Qed.

Lemma onInput_only_removes_witness :
  ∃ data',
    onInput example_line_chart "chart2" example_parse example_parse
            example_dateParse example_clone 50 (dot "A" 50 5)
            example_lines_stored
    = Ok (data', dot "A" 50 5)
    ∧ data' !! "chart1" = example_lines_stored !! "chart1".
Proof.
  destruct (onInput example_line_chart "chart2" example_parse example_parse
              example_dateParse example_clone 50 (dot "A" 50 5)
              example_lines_stored) as [[data' sent]|e] eqn:Hrun;
    [|vm_compute in Hrun; discriminate Hrun].
  destruct (onInput_only_removes example_line_chart "chart2" example_parse
              example_parse example_dateParse example_clone 50 (dot "A" 50 5)
              sent example_lines_stored data' Hrun) as (-> & Hother & _).
  exists data'. split; [reflexivity|]. apply Hother. discriminate.
Defined.

(** ** Messages without a data point *)




(** * Properties of the data point derivation *)

Example dot_char_is_dot : String dot_char EmptyString = ".".
Proof. reflexivity. Qed.

Lemma split_on_nonempty (sep : Ascii.ascii) (s : string) : split_on sep s ≠ [].
Proof.
  destruct s as [|c rest]; cbn [split_on]; [done|].
  destruct (Ascii.eqb c sep); [done|]. by destruct (split_on sep rest).
Qed.

Lemma concat_cons_nonempty (sep x : string) (l : list string) :
  l ≠ [] → String.concat sep (x :: l) = (x ++ sep ++ String.concat sep l)%string.
Proof. by destruct l. Qed.

(** X5: splitting a path at a character and joining the parts with that
    character gives the path back, and no part contains the character. *)
Theorem split_on_join (sep : Ascii.ascii) (s : string) :
  String.concat (String sep EmptyString) (split_on sep s) = s
  ∧ Forall (λ part, has_char sep part = false) (split_on sep s).
Proof.
  induction s as [|c rest [IHc IHf]]; [by repeat constructor|].
  cbn [split_on]. destruct (Ascii.eqb c sep) eqn:Hc.
  - apply Ascii.eqb_eq in Hc as ->. split.
    + rewrite concat_cons_nonempty by apply split_on_nonempty.
      cbn. by rewrite IHc.
    + by constructor.
  - destruct (split_on sep rest) as [|part parts] eqn:Hs.
    { by destruct (split_on_nonempty sep rest). }
    split.
    + destruct parts as [|part' parts].
      * cbn in *. by rewrite IHc.
      * rewrite concat_cons_nonempty by done.
        rewrite concat_cons_nonempty in IHc by done.
        rewrite <- IHc. reflexivity.
    + inversion IHf as [|? ? Hpart Hparts]; subst. constructor; [|done].
      cbn [has_char]. by rewrite Hc, Hpart.
Qed.







Section BeforeSendFacts.

Variable config : plot_config.
Variable evaluateNodeProperty : jsval → jsval.
Variable now : Z.
Variable has_key : jsval → jsval → res bool.

Lemma addToLine_category (payload series d : jsval) :
  addToLine config now payload series = Ok d →
  ∃ o, d = JObj o ∧ o !! "category" = Some series.
Proof.
  unfold addToLine.
  destruct (String.eqb (JS.typeof payload) "number").
  { intros [= <-]. eexists. split; [done|].
    by rewrite !lookup_insert_ne, lookup_singleton_eq. }
  destruct (String.eqb (JS.typeof payload) "object"); cycle 1.
  { intros [= <-]. eexists. split; [done|]. by rewrite lookup_singleton_eq. }
  destruct (getProperty payload (xAxisProperty config)) as [x|e]; [|discriminate].
  cbn [mbind res_bind]. destruct (Strict.get payload "y") as [y|e]; [|discriminate].
  cbn [mbind res_bind].
  destruct (match series with JArr ss => series_y payload ss | _ => mret y end)
    as [y'|e]; [|discriminate].
  cbn [mbind res_bind mret res_ret]. intros [= <-]. eexists. split; [done|].
  by rewrite !lookup_insert_ne, lookup_singleton_eq.
Qed.

Lemma addToBar_category (payload series d : jsval) :
  addToBar payload series = Ok d →
  ∃ o, d = JObj o ∧ o !! "category" = Some series.
Proof.
  unfold addToBar.
  assert (Hc : (if String.eqb (JS.typeof payload) "number"
                then <["y" := payload]> {[ "category" := series ]}
                else ({[ "category" := series ]} : gmap string jsval))
               !! "category" = Some series).
  { destruct (String.eqb _ _); [rewrite lookup_insert_ne by done|];
      by rewrite lookup_singleton_eq. }
  destruct series; try (intros [= <-]; eauto).
  destruct (series_y payload l) as [y|e]; [|discriminate].
  cbn [mbind res_bind mret res_ret]. intros [= <-]. eexists. split; [done|].
  by rewrite lookup_insert_ne.
Qed.

Lemma map_points_category (add : jsval → jsval → res jsval) (series : jsval)
    (points ds : list jsval) :
  (∀ p s d, add p s = Ok d → ∃ o, d = JObj o ∧ o !! "category" = Some s) →
  map_res (λ point _, point_of config add series point) 0 points = Ok ds →
  length ds = length points
  ∧ ∀ i d, ds !! i = Some d →
           ∃ o, d = JObj o ∧ is_Some (o !! "category")
                ∧ (JS.strict_eq (categoryType config) (JStr "property") = false →
                   o !! "category" = Some series).
Proof.
  intros Hadd Hmap. destruct (map_res_length _ _ _ _ Hmap) as [Hlen Hall].
  split; [done|]. intros i d Hd.
  destruct (lookup_lt_is_Some_2 points i) as [p Hp].
  { rewrite <- Hlen. by eapply lookup_lt_Some. }
  destruct (Hall i p Hp) as (d' & Hpoint & Hd'). rewrite Hd in Hd'.
  injection Hd' as <-. unfold point_of in Hpoint.
  destruct (JS.strict_eq (categoryType config) (JStr "property")).
  - destruct (getProperty p (category config)) as [s|e]; [|discriminate].
    cbn [mbind res_bind] in Hpoint.
    destruct (Hadd _ _ _ Hpoint) as (o & -> & Ho). exists o.
    split; [done|]. split; [eauto|done].
  - cbn [mbind res_bind mret res_ret] in Hpoint.
    destruct (Hadd _ _ _ Hpoint) as (o & -> & Ho). exists o.
    split; [done|]. split; [eauto|done].
Qed.

End BeforeSendFacts.

(** X7: for a chart type other than line, scatter and bar, [beforeSend]
    hands the message back as it is, without a data point. *)
Theorem beforeSend_other_chart_type (config : plot_config)
    (evaluateNodeProperty : jsval → jsval) (now : Z)
    (has_key : jsval → jsval → res bool) (msg : jsval) :
  nullish msg = false →
  plots_points config = false →
  JS.strict_eq (categoryType config) (JStr "property") = false →
  beforeSend config evaluateNodeProperty now has_key msg = Ok msg.
Proof.
  intros Hmsg Hplots Hprop. unfold beforeSend, plots_points in *.
  rewrite strict_get_ok by done. cbn [mbind res_bind]. rewrite Hprop.
  cbn [mbind res_bind mret res_ret].
  apply orb_false_iff in Hplots as [Hplots Hbar].
  by rewrite Hplots, Hbar.
Qed.

Lemma beforeSend_other_chart_type_witness :
  beforeSend (PlotConfig (JStr "pie") (JStr "topic") (JStr "msg") (JStr ""))
             example_series 1000 example_has_key example_bare_message
  = Ok example_bare_message.
Proof.
  apply beforeSend_other_chart_type; reflexivity.
Defined.

(** X8: for an array payload on a line, scatter or bar chart, [beforeSend]
    attaches an array of data points, one per element of the payload, each
    an object with a category; unless the category is read from a property
    of each point, that category is the series evaluated for the message. *)
Theorem beforeSend_array_payload (config : plot_config)
    (evaluateNodeProperty : jsval → jsval) (now : Z)
    (has_key : jsval → jsval → res bool) (msg msg' : jsval)
    (points : list jsval) :
  plots_points config = true →
  Strict.get msg "payload" = Ok (JArr points) →
  beforeSend config evaluateNodeProperty now has_key msg = Ok msg' →
  ∃ ds,
    msg' = JS.set msg "_datapoint" (JArr ds)
    ∧ length ds = length points
    ∧ ∀ i d, ds !! i = Some d →
             ∃ o, d = JObj o ∧ is_Some (o !! "category")
                  ∧ (JS.strict_eq (categoryType config) (JStr "property") = false →
                     o !! "category" = Some (evaluateNodeProperty msg)).
Proof.
  intros Hplots Hp. unfold beforeSend, plots_points in *. rewrite Hp.
  cbn [mbind res_bind].
  destruct (JS.strict_eq (categoryType config) (JStr "property")) eqn:Hprop.
  - destruct (getProperty (JArr points) (category config)) as [series|e];
      [|discriminate].
    cbn [mbind res_bind].
    destruct (JS.strict_eq (chartType config) (JStr "line")
              || JS.strict_eq (chartType config) (JStr "scatter")) eqn:Hline.
    + destruct (map_res _ 0 points) as [ds|e] eqn:Hds; [|discriminate].
      cbn [mbind res_bind mret res_ret]. intros [= <-]. exists ds.
      split; [done|].
      destruct (map_points_category config (addToLine config now) series points ds
                  (addToLine_category config now) Hds) as [Hlen Hall].
      split; [done|]. intros i d Hd.
      destruct (Hall i d Hd) as (o & -> & Hc & _). exists o.
      split; [done|]. split; [done|]. discriminate.
    + cbn [orb] in Hplots. rewrite Hplots.
      destruct (map_res _ 0 points) as [ds|e] eqn:Hds; [|discriminate].
      cbn [mbind res_bind mret res_ret]. intros [= <-]. exists ds.
      split; [done|].
      destruct (map_points_category config addToBar series points ds
                  addToBar_category Hds) as [Hlen Hall].
      split; [done|]. intros i d Hd.
      destruct (Hall i d Hd) as (o & -> & Hc & _). exists o.
      split; [done|]. split; [done|]. discriminate.
  - cbn [mbind res_bind mret res_ret].
    destruct (JS.strict_eq (chartType config) (JStr "line")
              || JS.strict_eq (chartType config) (JStr "scatter")) eqn:Hline.
    + destruct (map_res _ 0 points) as [ds|e] eqn:Hds; [|discriminate].
      cbn [mbind res_bind mret res_ret]. intros [= <-]. exists ds.
      split; [done|].
      destruct (map_points_category config (addToLine config now)
                  (evaluateNodeProperty msg) points ds
                  (addToLine_category config now) Hds) as [Hlen Hall].
      split; [done|]. intros i d Hd. rewrite Hprop in Hall.
      destruct (Hall i d Hd) as (o & -> & Hc & Hs). eauto.
    + cbn [orb] in Hplots. rewrite Hplots.
      destruct (map_res _ 0 points) as [ds|e] eqn:Hds; [|discriminate].
      cbn [mbind res_bind mret res_ret]. intros [= <-]. exists ds.
      split; [done|].
      destruct (map_points_category config addToBar
                  (evaluateNodeProperty msg) points ds
                  addToBar_category Hds) as [Hlen Hall].
      split; [done|]. intros i d Hd. rewrite Hprop in Hall.
      destruct (Hall i d Hd) as (o & -> & Hc & Hs). eauto.
Qed.

Lemma beforeSend_array_payload_witness :
  beforeSend example_plot example_series 1000 example_has_key example_raw_batch
  = Ok (JS.set example_raw_batch "_datapoint"
          (JArr [JObj {[ "category" := JStr "A"; "x" := JNum 1000; "y" := JNum 1 ]};
                 JObj {[ "category" := JStr "A"; "x" := JNum 5; "y" := JNum 2 ]}])).
Proof.
  destruct (beforeSend example_plot example_series 1000 example_has_key
              example_raw_batch) as [msg'|e] eqn:Hrun;
    [|vm_compute in Hrun; discriminate Hrun].
  destruct (beforeSend_array_payload example_plot example_series 1000
              example_has_key example_raw_batch msg'
              [JNum 1; JObj {[ "x" := JNum 5; "y" := JNum 2 ]}]
              eq_refl eq_refl Hrun) as (ds & -> & _).
  rewrite <- Hrun. vm_compute. reflexivity.
Defined.

(** X9: a bare number as payload becomes, on a line or scatter chart, the
    data point [{category, x: now, y: payload}], and on a bar chart (with a
    series that is no array) the data point [{category, y: payload}], the
    category being the series evaluated for the message. *)
Theorem beforeSend_number_payload (config : plot_config)
    (evaluateNodeProperty : jsval → jsval) (now : Z)
    (has_key : jsval → jsval → res bool) (msg : jsval) (v : Z) :
  Strict.get msg "payload" = Ok (JNum v) →
  JS.strict_eq (categoryType config) (JStr "property") = false →
  JS.strict_eq (categoryType config) (JStr "json") = false →
  (JS.strict_eq (chartType config) (JStr "line")
   || JS.strict_eq (chartType config) (JStr "scatter") = true →
   beforeSend config evaluateNodeProperty now has_key msg
   = Ok (JS.set msg "_datapoint"
           (JObj (<["y" := JNum v]> (<["x" := JNum now]>
                    {[ "category" := evaluateNodeProperty msg ]})))))
  ∧ (JS.strict_eq (chartType config) (JStr "bar") = true →
     JS.isArray (evaluateNodeProperty msg) = false →
     beforeSend config evaluateNodeProperty now has_key msg
     = Ok (JS.set msg "_datapoint"
             (JObj (<["y" := JNum v]> {[ "category" := evaluateNodeProperty msg ]})))).
Proof.
  intros Hp Hprop Hjson. unfold beforeSend. rewrite Hp, Hprop, Hjson.
  cbn [mbind res_bind mret res_ret]. split.
  - intros ->. reflexivity.
  - intros Hbar Harr. apply strict_eq_str in Hbar. rewrite Hbar.
    cbn [JS.strict_eq String.eqb Ascii.eqb Bool.eqb orb andb].
    unfold addToBar. cbn [JS.typeof String.eqb].
    destruct (evaluateNodeProperty msg); try discriminate Harr; reflexivity.
Qed.

Lemma beforeSend_number_payload_witness :
  beforeSend example_plot example_series 1000 example_has_key example_raw_number
  = Ok (JObj {[ "topic" := JStr "A"; "payload" := JNum 3;
                "_datapoint" := JObj {[ "category" := JStr "A";
                                        "x" := JNum 1000; "y" := JNum 3 ]} ]}).
Proof.
  refine (eq_trans (proj1 (beforeSend_number_payload example_plot example_series
                             1000 example_has_key example_raw_number 3
                             eq_refl eq_refl eq_refl) eq_refl) _).
  vm_compute. reflexivity.
Defined.

(** * Further properties of the ui-base node *)

(** ** Delivery of events *)

Section EmitFacts.

Variable n : base_config.
Variable plugins : list plugin.

Lemma isValidConnection_eligible (conn : socket) (msg : jsval) :
  nullish msg = false →
  isValidConnection plugins conn msg
  = Ok (no_objection plugins conn msg
        && (negb (JS.truthy (target_of msg))
            || JS.strict_eq (target_of msg) (JStr (sock_id conn)))).
Proof.
  intros Hmsg. unfold isValidConnection, no_objection, target_of.
  rewrite strict_get_ok by done. cbn [mbind res_bind mret res_ret]. f_equal.
  destruct (JS.truthy (JS.get_opt (JS.get msg "_client") "socketId")).
  - rewrite length_app, existsb_app, negb_orb, existsb_false_forallb.
    cbn [length existsb negb orb JS.strict_eq].
    replace (length (plugin_checks plugins conn msg) + 1 =? 0)%nat with false
      by (symmetry; apply Nat.eqb_neq; lia).
    cbn [orb]. f_equal.
    by destruct (JS.strict_eq _ (JStr (sock_id conn))).
  - rewrite existsb_false_forallb. cbn [negb orb]. rewrite andb_true_r.
    by destruct (plugin_checks plugins conn msg).
Qed.

Lemma canSendTo_eligible (conn : socket) (wNode msg : jsval) :
  nullish msg = false →
  canSendTo n plugins conn wNode msg = Ok (eligible n plugins conn wNode msg).
Proof.
  intros Hmsg. unfold canSendTo, eligible.
  destruct (nodeAllowsConstraints n wNode); [|done].
  by rewrite isValidConnection_eligible.
Qed.

Lemma log_all_log (es : list effect) (e : effect) (b : base) :
  log e (log_all es b) = log_all (es ++ [e]) b.
Proof. unfold log, log_all. cbn. by rewrite <- app_assoc. Qed.

Lemma log_all_nil (b : base) : log_all [] b = b.
Proof. destruct b. unfold log_all. cbn. by rewrite app_nil_r. Qed.

(** The loop of [emit] over any list of connections. *)
Lemma emit_loop (event : string) (msg wNode : jsval) (conns : list socket)
    (es : list effect) (b : base) :
  nullish msg = false →
  foldl (λ acc conn,
           b ← acc;
           ok ← canSendTo n plugins conn wNode msg;
           mret (if ok : bool then log (SockEmit (sock_id conn) event [msg]) b
                 else b))
        (Ok (log_all es b)) conns
  = Ok (log_all (es ++ ((λ conn, SockEmit (sock_id conn) event [msg])
                        <$> List.filter (λ conn, eligible n plugins conn wNode msg)
                                        conns)) b).
Proof.
  intros Hmsg. revert es. induction conns as [|conn conns IH]; intros es.
  - cbn. by rewrite app_nil_r.
  - cbn [foldl List.filter]. cbn [mbind res_bind].
    rewrite canSendTo_eligible by done. cbn [mbind res_bind mret res_ret].
    destruct (eligible n plugins conn wNode msg).
    + rewrite log_all_log, IH. rewrite fmap_cons. by rewrite <- app_assoc.
    + apply IH.
Qed.

End EmitFacts.

(** X10: [emit] puts the event, in the order of the connections, on exactly
    those connections that pass the eligibility check, and changes nothing
    else; in particular a message addressed to a connection id, coming from
    an origin that accepts client constraints, reaches only connections with
    that id. *)
Theorem emit_delivers (n : base_config) (plugins : list plugin)
    (event : string) (msg wNode : jsval) (b : base) :
  nullish msg = false →
  emit n plugins event msg wNode b
  = Ok (log_all ((λ conn, SockEmit (sock_id conn) event [msg])
                 <$> List.filter (λ conn, eligible n plugins conn wNode msg)
                                 (connections b)) b)
  ∧ (∀ conn sid,
        nodeAllowsConstraints n wNode = true →
        target_of msg = JStr sid → sid ≠ "" →
        eligible n plugins conn wNode msg = true → sock_id conn = sid).
Proof.
  intros Hmsg. split.
  - unfold emit. rewrite <- (log_all_nil b) at 1.
    change (mret (log_all [] b)) with (Ok (log_all [] b)).
    by rewrite emit_loop.
  - intros conn sid Hallow Ht Hsid. unfold eligible. rewrite Hallow, Ht.
    cbn [negb orb JS.truthy JS.strict_eq].
    destruct (String.eqb_spec sid ""); [done|]. cbn [negb orb].
    intros H. apply andb_true_iff in H as [_ H].
    by apply String.eqb_eq in H.
Qed.

Lemma emit_delivers_witness :
  emit example_base_config [] "msg-input:c1" (msg_for "B") control_node
       example_base_three
  = Ok (log_all [SockEmit "B" "msg-input:c1" [msg_for "B"]] example_base_three).
Proof.
  refine (eq_trans (proj1 (emit_delivers example_base_config [] "msg-input:c1"
                             (msg_for "B") control_node example_base_three
                             eq_refl)) _).
  vm_compute. reflexivity.
Defined.

(** X11: [emit] with a [null] or [undefined] message throws a TypeError at
    the first connection when the origin accepts client constraints (or is
    absent): the check reads [msg._client]; with no connection at all, or
    from an origin that lifts the constraints, it does not throw. *)
Theorem emit_null_message (n : base_config) (plugins : list plugin)
    (event : string) (msg wNode : jsval) (b : base) :
  nullish msg = true →
  (nodeAllowsConstraints n wNode = true → connections b ≠ [] →
   emit n plugins event msg wNode b = Throw TypeError)
  ∧ (connections b = [] → emit n plugins event msg wNode b = Ok b)
  ∧ (nodeAllowsConstraints n wNode = false →
     emit n plugins event msg wNode b
     = Ok (log_all ((λ conn, SockEmit (sock_id conn) event [msg])
                    <$> connections b) b)).
Proof.
  intros Hmsg. split; [|split].
  - intros Hallow Hne. unfold emit.
    destruct (connections b) as [|conn conns]; [done|].
    cbn [foldl mbind res_bind mret res_ret]. unfold canSendTo. rewrite Hallow.
    unfold isValidConnection.
    assert (Strict.get msg "_client" = Throw TypeError) as ->
      by (destruct msg; try discriminate Hmsg; reflexivity).
    cbn [mbind res_bind]. clear. induction conns as [|c conns IH]; [done|].
    cbn [foldl]. exact IH.
  - intros Hnone. unfold emit. by rewrite Hnone.
  - intros Hallow. unfold emit.
    match goal with |- foldl ?f _ _ = _ => set (step := f) end.
    assert (Hloop : ∀ conns es,
      foldl step (Ok (log_all es b)) conns
      = Ok (log_all (es ++ ((λ conn, SockEmit (sock_id conn) event [msg])
                            <$> conns)) b)).
    { induction conns as [|conn conns IH]; intros es.
      - cbn. by rewrite app_nil_r.
      - cbn [foldl]. unfold step at 2. cbn [mbind res_bind].
        unfold canSendTo. rewrite Hallow. cbn [mbind res_bind mret res_ret].
        rewrite log_all_log, IH. rewrite fmap_cons. by rewrite <- app_assoc. }
    rewrite <- (log_all_nil b) at 1. apply Hloop.
Qed.

Lemma emit_null_message_witness :
  emit example_base_config [] "msg-input:c1" JNull control_node example_base_three
  = Throw TypeError.
Proof.
  apply (proj1 (emit_null_message example_base_config [] "msg-input:c1" JNull
                  control_node example_base_three eq_refl)).
  - reflexivity.
  - discriminate.
Defined.

(** ** More on config emission *)

(** X12: a second emission with the state store unchanged leaves the
    registry as the first one left it and sends the same snapshot: merging
    the state store into the registry is idempotent. *)
Theorem emitConfig_idempotent (n : base_config) (first second : socket)
    (b : base) :
  ui (emitConfig n second (emitConfig n first b)) = ui (emitConfig n first b)
  ∧ trace (emitConfig n second (emitConfig n first b))
    = trace b
      ++ [SockEmit (sock_id first) "ui-config"
            [JStr (base_id n); ui_snapshot (ui (emitConfig n first b))];
          SockEmit (sock_id second) "ui-config"
            [JStr (base_id n); ui_snapshot (ui (emitConfig n first b))]].
Proof.
  unfold emitConfig.
  cbn [ui set_ui log statestore trace emitConfigRequested connections now].
  rewrite merge_statestore_idemp. split; [done|]. by rewrite <- app_assoc.
Qed.

(** X13: an emission adds no entry to the registry and removes none, and
    it leaves the dashboards, themes and heads, the state store, the
    connections and the pending flag untouched. *)
Theorem emitConfig_frame (n : base_config) (socket : socket) (b : base) :
  (∀ id, is_Some (widgets (ui (emitConfig n socket b)) !! id)
         ↔ is_Some (widgets (ui b) !! id))
  ∧ (∀ id, is_Some (pages (ui (emitConfig n socket b)) !! id)
           ↔ is_Some (pages (ui b) !! id))
  ∧ (∀ id, is_Some (groups (ui (emitConfig n socket b)) !! id)
           ↔ is_Some (groups (ui b) !! id))
  ∧ dashboards (ui (emitConfig n socket b)) = dashboards (ui b)
  ∧ themes (ui (emitConfig n socket b)) = themes (ui b)
  ∧ heads (ui (emitConfig n socket b)) = heads (ui b)
  ∧ statestore (emitConfig n socket b) = statestore b
  ∧ connections (emitConfig n socket b) = connections b
  ∧ emitConfigRequested (emitConfig n socket b) = emitConfigRequested b.
Proof.
  split; [|split; [|split]].
  - intros id. rewrite widgets_emitConfig. by rewrite fmap_is_Some.
  - intros id. rewrite pages_emitConfig. by rewrite fmap_is_Some.
  - intros id. rewrite groups_emitConfig. by rewrite fmap_is_Some.
  - by destruct b as [[]].
Qed.

(** ** What the registry holds *)

Lemma merge_widget_state_object ss id w :
  (∃ o, w = JObj o) → ∃ o, merge_widget_state ss id w = JObj o.
Proof.
  intros [o ->]. unfold merge_widget_state.
  destruct (JS.truthy _); cbn [JS.set]; eauto.
Qed.

Lemma emitConfig_all_objects (n : base_config) (socket : socket) (b : base) :
  all_objects (widgets (ui b)) →
  all_objects (widgets (ui (emitConfig n socket b))).
Proof.
  intros H id v. rewrite widgets_emitConfig.
  destruct (widgets (ui b) !! id) as [w|] eqn:Hw; [|done].
  cbn. intros [= <-]. apply merge_widget_state_object. by eapply H.
Qed.

Lemma deregister_widgets (page group widgetNode : jsval) (b b' : base) :
  deregister page group widgetNode b = Ok b' →
  widgets (ui b')
  = if JS.truthy widgetNode
    then delete (JS.to_key (JS.get widgetNode "id")) (widgets (ui b))
    else widgets (ui b).
Proof.
  unfold deregister. destruct (JS.truthy widgetNode).
  - destruct (Strict.get _ "hooks") as [hooks|e]; [|discriminate].
    cbn [mbind res_bind mret res_ret].
    repeat match goal with
           | |- context [if ?c then _ else _] =>
               lazymatch c with
               | context [if _ then _ else _] => fail
               | _ => destruct c
               end
           end;
      intros [= <-]; rewrite ?ui_requestEmitConfig; cbn;
      rewrite ?ui_release_socket_hooks; reflexivity.
  - cbn [mbind res_bind mret res_ret].
    repeat match goal with
           | |- context [if ?c then _ else _] =>
               lazymatch c with
               | context [if _ then _ else _] => fail
               | _ => destruct c
               end
           end;
      intros [= <-]; rewrite ?ui_requestEmitConfig; reflexivity.
Qed.

Section RegistryFacts.

Variable n : base_config.
Variable getNode : jsval → jsval.
Variable contribs : gmap string jsval.
Variable fn_source : nat → string.
Variable subflow_info : jsval → jsval → res jsval.

(** What a registration that returns has done. *)
Lemma register_inv (page group widgetNode widgetConfig widgetEvents : jsval)
    (b b1 : base) :
  register n getNode contribs fn_source subflow_info
           page group widgetNode widgetConfig widgetEvents b = Ok b1 →
  ∃ widget,
    (if JS.truthy widgetNode && JS.truthy widgetConfig
     then build_widget getNode contribs fn_source subflow_info widgetConfig
                       widgetEvents (seed_defaults widgetConfig (statestore b))
          = Ok widget
     else widget = JNull)
    ∧ widgets (ui b1)
      = (if JS.truthy widgetNode && JS.truthy widgetConfig
            && negb (bool_decide (is_Some (widgets (ui b)
                                           !! JS.to_key (JS.get widget "id"))))
         then <[JS.to_key (JS.get widget "id") := widget]> (widgets (ui b))
         else widgets (ui b))
    ∧ pages (ui b1)
      = (if JS.truthy page
         then <[JS.to_key (JS.get page "id") := JS.remove page "_users"]>
                (pages (ui b))
         else pages (ui b))
    ∧ groups (ui b1)
      = (if JS.truthy group
         then <[JS.to_key (JS.get group "id")
                := foldl JS.remove group ["_user"; "type"]]> (groups (ui b))
         else groups (ui b))
    ∧ dashboards (ui b1)
      = match dashboards (ui b) !! base_id n with
        | Some _ => dashboards (ui b)
        | None => <[base_id n := base_obj n]> (dashboards (ui b))
        end
    ∧ heads (ui b1) = heads (ui b)
    ∧ emitConfigRequested b1
      = Some (default (now b + debounce)%nat (emitConfigRequested b))
    ∧ connections b1 = connections b
    ∧ now b1 = now b.
Proof.
  unfold register.
  destruct (JS.truthy widgetNode && JS.truthy widgetConfig) eqn:Hbuilding.
  - destruct (build_widget _ _ _ _ _ _ _) as [widget|e] eqn:Hw; [|discriminate].
    cbn [mbind res_bind mret res_ret].
    destruct (JS.truthy page) eqn:Hpage; destruct (JS.truthy group) eqn:Hgroup;
      destruct (dashboards (ui b) !! base_id n) eqn:Hdash;
      cbn [andb negb set_statestore ui set_dashboards themes dashboards];
      repeat match goal with
             | |- context [if ?c then _ else _] =>
                 lazymatch c with
                 | context [if _ then _ else _] => fail
                 | _ => destruct c eqn:?
                 end
             end;
      intros [= <-]; exists widget; (split; [reflexivity|]);
      unfold requestEmitConfig, registerTheme;
      destruct (emitConfigRequested b) eqn:Hflag;
      cbn; rewrite ?Hflag; cbn; repeat split; try reflexivity; try done;
      unfold registerTheme in *; cbn in *;
      repeat match goal with
             | H : negb (bool_decide _) = _ |- _ => rewrite H; clear H
             end; reflexivity.
  - cbn [mbind res_bind mret res_ret].
    destruct (JS.truthy page) eqn:Hpage; destruct (JS.truthy group) eqn:Hgroup;
      destruct (dashboards (ui b) !! base_id n) eqn:Hdash;
      cbn [andb negb set_statestore ui set_dashboards themes dashboards];
      repeat match goal with
             | |- context [if ?c then _ else _] =>
                 lazymatch c with
                 | context [if _ then _ else _] => fail
                 | _ => destruct c eqn:?
                 end
             end;
      intros [= <-]; exists JNull; (split; [reflexivity|]);
      unfold requestEmitConfig, registerTheme;
      destruct (emitConfigRequested b) eqn:Hflag;
      cbn; rewrite ?Hflag; cbn; repeat split; try reflexivity; try done;
      unfold registerTheme in *; cbn in *;
      repeat match goal with
             | H : negb (bool_decide _) = _ |- _ => rewrite H; clear H
             end; reflexivity.
Qed.

End RegistryFacts.



Section BuildWidgetFacts.

Variable getNode : jsval → jsval.
Variable contribs : gmap string jsval.
Variable fn_source : nat → string.
Variable subflow_info : jsval → jsval → res jsval.



End BuildWidgetFacts.

Lemma build_widget_object (getNode : jsval → jsval) (contribs : gmap string jsval)
    (fn_source : nat → string) (subflow_info : jsval → jsval → res jsval)
    (widgetConfig widgetEvents widget : jsval)
    (ss : gmap string (gmap string jsval)) :
  build_widget getNode contribs fn_source subflow_info widgetConfig widgetEvents ss
  = Ok widget →
  ∃ o, widget = JObj o
       ∧ o !! "id" = Some (JS.get widgetConfig "id")
       ∧ o !! "hooks" = Some widgetEvents.
Proof.
  unfold build_widget.
  destruct (if _ && _ then _ else _) as [p0|e]; [|discriminate].
  cbn [mbind res_bind].
  destruct (stringify_functions _ _) as [props|e]; [|discriminate].
  cbn [mbind res_bind mret res_ret]. intros [= <-].
  eexists. split; [reflexivity|]. split; reflexivity.
Qed.

(** What a deregistration that returns has done. *)
Lemma deregister_inv (page group widgetNode : jsval) (b b' : base) :
  deregister page group widgetNode b = Ok b' →
  (groups (ui b') = groups (ui b)
   ∨ groups (ui b') = delete (JS.to_key (JS.get group "id")) (groups (ui b)))
  ∧ (pages (ui b') = pages (ui b)
     ∨ pages (ui b') = delete (JS.to_key (JS.get page "id")) (pages (ui b)))
  ∧ dashboards (ui b') = dashboards (ui b)
  ∧ themes (ui b') = themes (ui b)
  ∧ heads (ui b') = heads (ui b)
  ∧ statestore b' = statestore b
  ∧ connections b' = connections b
  ∧ (JS.truthy widgetNode = true → is_Some (emitConfigRequested b'))
  ∧ (JS.truthy widgetNode = false → JS.truthy group = false →
     JS.truthy page = false → b' = b).
Proof.
  unfold deregister.
  assert (Hrel : ∀ w, ui (release_socket_hooks w b) = ui b
                      ∧ statestore (release_socket_hooks w b) = statestore b
                      ∧ connections (release_socket_hooks w b) = connections b
                      ∧ emitConfigRequested (release_socket_hooks w b)
                        = emitConfigRequested b).
  { intros w. unfold release_socket_hooks. repeat split.
    - apply (foldl_preserves ui). intros a s. apply (foldl_preserves ui).
      intros a' ev. by destruct (JS.truthy _).
    - apply (foldl_preserves statestore). intros a s.
      apply (foldl_preserves statestore). intros a' ev. by destruct (JS.truthy _).
    - apply (foldl_preserves connections). intros a s.
      apply (foldl_preserves connections). intros a' ev. by destruct (JS.truthy _).
    - apply (foldl_preserves emitConfigRequested). intros a s.
      apply (foldl_preserves emitConfigRequested). intros a' ev.
      by destruct (JS.truthy _). }
  destruct (JS.truthy widgetNode) eqn:Hwn.
  - destruct (Strict.get _ "hooks") as [hooks|e]; [|discriminate].
    cbn [mbind res_bind mret res_ret].
    set (b0 := if JS.truthy (JS.get_opt hooks "onSocket") then _ else b).
    assert (Hb0 : ui b0 = ui b ∧ statestore b0 = statestore b
                  ∧ connections b0 = connections b).
    { subst b0. destruct (JS.truthy (JS.get_opt hooks "onSocket")); [|done].
      destruct (Hrel (default JUndefined
                        (widgets (ui b) !! JS.to_key (JS.get widgetNode "id"))))
        as (H1 & H2 & H3 & _). by rewrite H1, H2, H3. }
    destruct Hb0 as (Hu & Hs & Hc). clearbody b0. clear Hrel.
    destruct b0 as [u0 f0 c0 s0 n0 t0]. cbn in Hu, Hs, Hc. subst u0 s0 c0.
    destruct (JS.truthy group && _); destruct (JS.truthy page && _);
      intros [= <-]; unfold requestEmitConfig; cbn; destruct f0; cbn;
      (split; [eauto|]); (split; [eauto|]);
      repeat split; eauto; discriminate.
  - cbn [mbind res_bind mret res_ret].
    destruct (JS.truthy group) eqn:Hg; destruct (JS.truthy page) eqn:Hp;
      cbn [andb];
      repeat match goal with
             | |- context [if ?c then _ else _] => destruct c
             end;
      intros [= <-]; clear Hrel; destruct b as [u0 f0 c0 s0 n0 t0];
      unfold requestEmitConfig; cbn; try destruct f0; cbn;
      (split; [eauto|]); (split; [eauto|]);
      repeat split; eauto; discriminate.
Qed.

(** X14: the widget registry only ever holds objects: registering,
    deregistering and emitting the configuration keep that invariant, which
    is what makes the read of [widget.hooks] in [deregister] safe for every
    registered id. *)
Theorem registry_holds_objects (n : base_config) (getNode : jsval → jsval)
    (contribs : gmap string jsval) (fn_source : nat → string)
    (subflow_info : jsval → jsval → res jsval) (b : base) :
  all_objects (widgets (ui b)) →
  (∀ page group widgetNode widgetConfig widgetEvents b1,
      register n getNode contribs fn_source subflow_info
               page group widgetNode widgetConfig widgetEvents b = Ok b1 →
      all_objects (widgets (ui b1)))
  ∧ (∀ page group widgetNode b1,
        deregister page group widgetNode b = Ok b1 →
        all_objects (widgets (ui b1)))
  ∧ (∀ socket, all_objects (widgets (ui (emitConfig n socket b)))).
Proof.
  intros Hobj. split; [|split].
  - intros page group widgetNode widgetConfig widgetEvents b1 Hreg.
    destruct (register_inv _ _ _ _ _ _ _ _ _ _ _ _ Hreg)
      as (widget & Hbuild & Hw & _).
    rewrite Hw. destruct (JS.truthy widgetNode && JS.truthy widgetConfig);
      [|done].
    destruct (negb _); [|done]. cbn [andb].
    apply build_widget_object in Hbuild as (o & -> & _).
    intros id v Hv. apply lookup_insert_Some in Hv as [[_ <-]|[_ Hv]]; eauto.
  - intros page group widgetNode b1 Hd. rewrite (deregister_widgets _ _ _ _ _ Hd).
    destruct (JS.truthy widgetNode); [|done].
    intros id v Hv. apply lookup_delete_Some in Hv as [_ Hv]. eauto.
  - intros socket. by apply emitConfig_all_objects.
Qed.

Lemma registry_holds_objects_witness :
  all_objects (widgets (ui example_registered)).
Proof.
  apply (proj1 (registry_holds_objects example_base_config no_node ∅ no_source
                  no_subflow example_base_hidden example_ui_all_objects)
           JNull JNull (node_with_id "w3") example_widgetConfig (JObj ∅)).
  vm_compute. reflexivity.
Defined.



(** X16: every registration that returns leaves an emission pending, and
    one made while an emission is already pending does not postpone it: the
    timer stays due at the instant the first request set; the clock and the
    connections are not touched. *)
Theorem register_requests_emission (n : base_config) (getNode : jsval → jsval)
    (contribs : gmap string jsval) (fn_source : nat → string)
    (subflow_info : jsval → jsval → res jsval)
    (page group widgetNode widgetConfig widgetEvents : jsval) (b b1 : base) :
  register n getNode contribs fn_source subflow_info
           page group widgetNode widgetConfig widgetEvents b = Ok b1 →
  (emitConfigRequested b = None →
   emitConfigRequested b1 = Some (now b + debounce)%nat)
  ∧ (∀ due, emitConfigRequested b = Some due →
            emitConfigRequested b1 = Some due)
  ∧ now b1 = now b
  ∧ connections b1 = connections b.
Proof.
  intros Hreg.
  destruct (register_inv _ _ _ _ _ _ _ _ _ _ _ _ Hreg)
    as (widget & _ & _ & _ & _ & _ & _ & Hflag & Hconn & Hnow).
  rewrite Hflag. split; [by intros ->|]. split; [by intros due ->|done].
Qed.

Lemma register_requests_emission_witness :
  emitConfigRequested example_registered = Some 300%nat.
Proof.
  assert (Hreg : register example_base_config no_node ∅ no_source no_subflow
                   JNull JNull (node_with_id "w3") example_widgetConfig (JObj ∅)
                   example_base_hidden = Ok example_registered)
    by (vm_compute; reflexivity).
  apply (proj1 (register_requests_emission example_base_config no_node ∅
                  no_source no_subflow JNull JNull (node_with_id "w3")
                  example_widgetConfig (JObj ∅) example_base_hidden
                  example_registered Hreg)).
  reflexivity.
Defined.

(** X17: a registration refreshes the containers it is given: the page is
    stored under its id without [_users], the group under its id without
    [_user] and [type], each replacing what was stored under that id; the
    other pages and groups stay; the base node's own entry is in the
    dashboards map afterwards, and an entry already there is kept. *)
Theorem register_refreshes_containers (n : base_config) (getNode : jsval → jsval)
    (contribs : gmap string jsval) (fn_source : nat → string)
    (subflow_info : jsval → jsval → res jsval)
    (page group widgetNode widgetConfig widgetEvents : jsval) (b b1 : base) :
  register n getNode contribs fn_source subflow_info
           page group widgetNode widgetConfig widgetEvents b = Ok b1 →
  (JS.truthy page = true →
   pages (ui b1) !! JS.to_key (JS.get page "id") = Some (JS.remove page "_users"))
  ∧ (∀ id, (JS.truthy page = true → id ≠ JS.to_key (JS.get page "id")) →
           pages (ui b1) !! id = pages (ui b) !! id)
  ∧ (JS.truthy group = true →
     groups (ui b1) !! JS.to_key (JS.get group "id")
     = Some (JS.remove (JS.remove group "_user") "type"))
  ∧ (∀ id, (JS.truthy group = true → id ≠ JS.to_key (JS.get group "id")) →
           groups (ui b1) !! id = groups (ui b) !! id)
  ∧ is_Some (dashboards (ui b1) !! base_id n)
  ∧ (∀ d, dashboards (ui b) !! base_id n = Some d →
          dashboards (ui b1) = dashboards (ui b))
  ∧ heads (ui b1) = heads (ui b).
Proof.
  intros Hreg.
  destruct (register_inv _ _ _ _ _ _ _ _ _ _ _ _ Hreg)
    as (widget & _ & _ & Hp & Hg & Hd & Hh & _).
  rewrite Hp, Hg, Hd, Hh. repeat split.
  - intros ->. by rewrite lookup_insert_eq.
  - intros id Hne. destruct (JS.truthy page); [|done].
    rewrite lookup_insert_ne; [done|]. intros Heq. by apply Hne.
  - intros ->. by rewrite lookup_insert_eq.
  - intros id Hne. destruct (JS.truthy group); [|done].
    rewrite lookup_insert_ne; [done|]. intros Heq. by apply Hne.
  - destruct (dashboards (ui b) !! base_id n) eqn:Hdash; [by rewrite Hdash|].
    by rewrite lookup_insert_eq.
  - by intros d ->.
Qed.

Lemma register_refreshes_containers_witness :
  ∃ b1,
    register example_base_config no_node ∅ no_source no_subflow
             example_page example_group JNull JNull JNull example_base = Ok b1
    ∧ pages (ui b1) !! "p2"
      = Some (JObj {[ "id" := JStr "p2"; "type" := JStr "ui-page";
                      "theme" := JStr "t1" ]})
    ∧ groups (ui b1) !! "g2"
      = Some (JObj {[ "id" := JStr "g2"; "page" := JStr "p2" ]})
    ∧ pages (ui b1) !! "p1" = pages (ui example_base) !! "p1".
Proof.
  destruct (register example_base_config no_node ∅ no_source no_subflow
              example_page example_group JNull JNull JNull example_base)
    as [b1|e] eqn:Hreg; [|vm_compute in Hreg; discriminate Hreg].
  exists b1. split; [reflexivity|].
  destruct (register_refreshes_containers example_base_config no_node ∅
              no_source no_subflow example_page example_group JNull JNull JNull
              example_base b1 Hreg) as (Hp & Hpo & Hg & _).
  split; [|split].
  - refine (eq_trans (Hp eq_refl) _). vm_compute. reflexivity.
  - refine (eq_trans (Hg eq_refl) _). vm_compute. reflexivity.
  - apply Hpo. intros _. vm_compute. discriminate.
Defined.

(** X18: a deregistration that returns removes at most the widget, the
    group and the page it was given: every other widget stays, no group or
    page is added or changed, and the dashboards, themes, heads, the state
    store and the connections are left as they were; called without widget,
    group and page it changes nothing and requests no emission. *)
Theorem deregister_frame (page group widgetNode : jsval) (b b' : base) :
  deregister page group widgetNode b = Ok b' →
  (∀ id, id ≠ JS.to_key (JS.get widgetNode "id") →
         widgets (ui b') !! id = widgets (ui b) !! id)
  ∧ (∀ id g, groups (ui b') !! id = Some g → groups (ui b) !! id = Some g)
  ∧ (∀ id p, pages (ui b') !! id = Some p → pages (ui b) !! id = Some p)
  ∧ dashboards (ui b') = dashboards (ui b)
  ∧ themes (ui b') = themes (ui b)
  ∧ heads (ui b') = heads (ui b)
  ∧ statestore b' = statestore b
  ∧ connections b' = connections b
  ∧ (JS.truthy widgetNode = false → JS.truthy group = false →
     JS.truthy page = false → b' = b).
Proof.
  intros Hd.
  destruct (deregister_inv _ _ _ _ _ Hd)
    as (Hg & Hp & Hdash & Hth & Hh & Hss & Hc & _ & Hnoop).
  split; [|split; [|split]].
  - intros id Hne. rewrite (deregister_widgets _ _ _ _ _ Hd).
    destruct (JS.truthy widgetNode); [|done]. by rewrite lookup_delete_ne.
  - intros id g. destruct Hg as [-> | ->]; [done|].
    intros H. by apply lookup_delete_Some in H as [_ H].
  - intros id p. destruct Hp as [-> | ->]; [done|].
    intros H. by apply lookup_delete_Some in H as [_ H].
  - done.
Qed.

Lemma deregister_frame_witness :
  deregister JNull JNull JNull example_base = Ok example_base
  ∧ ∃ b', deregister JNull JNull (node_with_id "w1") example_base = Ok b'
          ∧ widgets (ui b') !! "w2" = Some (widget_in "w2" "g1")
          ∧ dashboards (ui b') = dashboards (ui example_base).
Proof.
  split; [reflexivity|].
  destruct (deregister JNull JNull (node_with_id "w1") example_base)
    as [b'|e] eqn:Hd; [|vm_compute in Hd; discriminate Hd].
  exists b'. split; [reflexivity|].
  destruct (deregister_frame JNull JNull (node_with_id "w1") example_base b' Hd)
    as (Hw & _ & _ & Hdash & _).
  split; [|exact Hdash].
  refine (eq_trans (Hw "w2" _) _); [vm_compute; discriminate|].
  vm_compute. reflexivity.
Defined.

Lemma deregister_widget_only (widgetNode : jsval) (b b' : base) :
  deregister JNull JNull widgetNode b = Ok b' →
  pages (ui b') = pages (ui b) ∧ groups (ui b') = groups (ui b).
Proof.
  unfold deregister. destruct (JS.truthy widgetNode).
  - destruct (Strict.get _ "hooks") as [hooks|e]; [|discriminate].
    cbn [mbind res_bind mret res_ret JS.truthy andb].
    intros [= <-]. rewrite ui_requestEmitConfig. cbn [ui set_ui pages groups set_widgets].
    destruct (JS.truthy _); by rewrite ?ui_release_socket_hooks.
  - cbn [mbind res_bind mret res_ret JS.truthy andb]. by intros [= <-].
Qed.

(** X19: registering a widget under a new id and then deregistering its
    node gives back the widget registry, the pages and the groups as they
    were before; the deregistration returns normally; the state entries
    seeded for the id stay in the state store. *)
Theorem register_deregister_round_trip (n : base_config)
    (getNode : jsval → jsval) (contribs : gmap string jsval)
    (fn_source : nat → string) (subflow_info : jsval → jsval → res jsval)
    (widgetNode widgetEvents : jsval) (cfg : gmap string jsval) (b b1 : base) :
  JS.truthy widgetNode = true →
  JS.to_key (JS.get widgetNode "id") = JS.to_key (JS.get (JObj cfg) "id") →
  widgets (ui b) !! JS.to_key (JS.get (JObj cfg) "id") = None →
  register n getNode contribs fn_source subflow_info
           JNull JNull widgetNode (JObj cfg) widgetEvents b = Ok b1 →
  ∃ b2,
    deregister JNull JNull widgetNode b1 = Ok b2
    ∧ widgets (ui b2) = widgets (ui b)
    ∧ pages (ui b2) = pages (ui b)
    ∧ groups (ui b2) = groups (ui b)
    ∧ statestore b2 = seed_defaults (JObj cfg) (statestore b).
Proof.
  intros Hwn Hid Hfresh Hreg.
  pose proof (statestore_register _ _ _ _ _ _ _ _ _ _ _ _ Hreg) as Hss.
  destruct (register_inv _ _ _ _ _ _ _ _ _ _ _ _ Hreg)
    as (widget & Hbuild & Hw & Hp & Hg & _).
  rewrite Hwn in Hbuild, Hw, Hss. cbn [andb JS.truthy] in Hbuild, Hw, Hss, Hp, Hg.
  apply build_widget_object in Hbuild as (o & -> & Hoid & _).
  assert (Hkey : JS.get (JObj o) "id" = JS.get (JObj cfg) "id").
  { cbn [JS.get]. by rewrite Hoid. }
  rewrite Hkey, Hfresh in Hw.
  rewrite bool_decide_eq_false_2 in Hw by (by intros [? ?]). cbn [negb] in Hw.
  destruct (deregister JNull JNull widgetNode b1) as [b2|e] eqn:Hd.
  - exists b2. split; [done|].
    destruct (deregister_inv _ _ _ _ _ Hd) as (_ & _ & _ & _ & _ & Hs2 & _).
    destruct (deregister_widget_only _ _ _ Hd) as [Hp2 Hg2].
    rewrite (deregister_widgets _ _ _ _ _ Hd), Hwn, Hw, Hid.
    split; [by apply delete_insert_id|].
    rewrite Hp2, Hg2, Hs2, Hp, Hg, Hss. done.
  - exfalso. unfold deregister in Hd. rewrite Hwn, Hw, Hid in Hd.
    rewrite lookup_insert_eq in Hd. cbn in Hd. discriminate Hd.
Qed.

Lemma register_deregister_round_trip_witness :
  ∃ b2,
    deregister JNull JNull (node_with_id "w3") example_registered = Ok b2
    ∧ widgets (ui b2) = widgets (ui example_base_hidden)
    ∧ Statestore.getProperty (statestore b2) (JStr "w3") "enabled" = JBool true.
Proof.
  pose (cfg := (list_to_map
                  [("id", JStr "w3"); ("type", JStr "ui-button");
                   ("group", JStr "g1"); ("width", JStr "0");
                   ("x", JNum 120); ("y", JNum 80); ("wires", JArr [])]
                : gmap string jsval)).
  assert (Hreg : register example_base_config no_node ∅ no_source no_subflow
                   JNull JNull (node_with_id "w3") (JObj cfg)
                   (JObj ∅) example_base_hidden = Ok example_registered)
    by (vm_compute; reflexivity).
  destruct (register_deregister_round_trip example_base_config no_node ∅
              no_source no_subflow (node_with_id "w3") (JObj ∅) cfg
              example_base_hidden example_registered eq_refl eq_refl eq_refl Hreg)
    as (b2 & Hd & Hw & _ & _ & Hss).
  exists b2. split; [exact Hd|]. split; [exact Hw|].
  rewrite Hss. vm_compute. reflexivity.
Defined.

(** ** Connections *)

Lemma set_connection_elem (s : socket) (conns : list socket) :
  s ∈ set_connection s conns.
Proof.
  induction conns as [|c conns IH]; cbn [set_connection].
  - apply list_elem_of_here.
  - destruct (String.eqb _ _); [apply list_elem_of_here|].
    by apply list_elem_of_further.
Qed.

Lemma set_connection_ids (s : socket) (conns : list socket) (i : string) :
  i ∈ sock_id <$> set_connection s conns
  ↔ i = sock_id s ∨ i ∈ sock_id <$> conns.
Proof.
  induction conns as [|c conns IH]; cbn [set_connection fmap list_fmap].
  - rewrite list_elem_of_singleton. split; [by left|].
    intros [H|H]; [done|]. by apply elem_of_nil in H.
  - destruct (String.eqb (sock_id c) (sock_id s)) eqn:E.
    + apply String.eqb_eq in E. cbn [fmap list_fmap].
      rewrite !elem_of_cons, E. tauto.
    + cbn [fmap list_fmap]. rewrite !elem_of_cons, IH. tauto.
Qed.

Lemma set_connection_NoDup (s : socket) (conns : list socket) :
  NoDup (sock_id <$> conns) → NoDup (sock_id <$> set_connection s conns).
Proof.
  induction conns as [|c conns IH]; cbn [set_connection fmap list_fmap];
    intros Hnd.
  - apply NoDup_singleton.
  - apply NoDup_cons in Hnd as [Hnotin Hnd].
    destruct (String.eqb (sock_id c) (sock_id s)) eqn:E.
    + apply String.eqb_eq in E. cbn [fmap list_fmap].
      apply NoDup_cons. by rewrite <- E.
    + apply String.eqb_neq in E. cbn [fmap list_fmap].
      apply NoDup_cons. split; [|by apply IH].
      rewrite set_connection_ids. intros [H|H]; [by apply E|by apply Hnotin].
Qed.

Lemma set_connection_others (s c : socket) (conns : list socket) :
  c ∈ conns → sock_id c ≠ sock_id s → c ∈ set_connection s conns.
Proof.
  induction conns as [|c' conns IH]; cbn [set_connection]; intros Hin Hne.
  - by apply elem_of_nil in Hin.
  - apply elem_of_cons in Hin as [->|Hin].
    + destruct (String.eqb (sock_id c') (sock_id s)) eqn:E.
      * by apply String.eqb_eq in E.
      * apply list_elem_of_here.
    + destruct (String.eqb (sock_id c') (sock_id s)).
      * by apply list_elem_of_further.
      * apply list_elem_of_further. by apply IH.
Qed.

Lemma delete_connection_elem (i : string) (c : socket) (conns : list socket) :
  c ∈ delete_connection i conns ↔ c ∈ conns ∧ sock_id c ≠ i.
Proof.
  unfold delete_connection. rewrite !list_elem_of_In, List.filter_In.
  rewrite negb_true_iff, String.eqb_neq. tauto.
Qed.

(** X20: a new connection is tied to this base node, takes its place in
    the connection table (one entry per socket id, the others kept), and is
    sent the configuration at once, whether or not a debounced emission is
    pending; the pending request is left as it is. *)
Theorem onConnection_stores_and_sends (n : base_config) (s : socket)
    (b : base) :
  NoDup (sock_id <$> connections b) →
  NoDup (sock_id <$> connections (onConnection n s b))
  ∧ Socket (sock_id s) (base_id n) ∈ connections (onConnection n s b)
  ∧ (∀ c, c ∈ connections b → sock_id c ≠ sock_id s →
          c ∈ connections (onConnection n s b))
  ∧ trace (onConnection n s b)
    = trace b ++ [SockEmit (sock_id s) "ui-config"
                    [JStr (base_id n);
                     ui_snapshot (merge_statestore (statestore b) (ui b))]]
  ∧ emitConfigRequested (onConnection n s b) = emitConfigRequested b.
Proof.
  intros Hnd. unfold onConnection, emitConfig, set_connections.
  cbn [connections ui set_ui log statestore trace emitConfigRequested sock_id].
  split; [by apply set_connection_NoDup|].
  split; [apply set_connection_elem|].
  split; [|done].
  intros c Hin Hne. by apply set_connection_others.
Qed.

Lemma onConnection_stores_and_sends_witness :
  Socket "s9" "base1" ∈ connections
    (onConnection example_base_config (Socket "s9" "") example_base).
Proof.
  refine (proj1 (proj2 (onConnection_stores_and_sends example_base_config
                          (Socket "s9" "") example_base _))).
  apply (bool_decide_unpack _). vm_compute. reflexivity.
Defined.

(** X21: a socket that disconnects while a debounced emission is pending
    receives nothing when the timer fires; every socket still connected
    receives the configuration. *)
Theorem disconnect_before_timer (n : base_config) (s : socket) (b : base) :
  emitConfigRequested b = None →
  ∃ snapshot,
    trace (elapse n debounce (onDisconnect s (requestEmitConfig b)))
    = trace b ++ fan_out n snapshot (delete_connection (sock_id s) (connections b))
    ∧ (∀ event args,
         SockEmit (sock_id s) event args
         ∉ fan_out n snapshot (delete_connection (sock_id s) (connections b)))
    ∧ (∀ c, c ∈ connections b → sock_id c ≠ sock_id s →
         SockEmit (sock_id c) "ui-config" [JStr (base_id n); snapshot]
         ∈ fan_out n snapshot (delete_connection (sock_id s) (connections b))).
Proof.
  intros Hidle. exists (ui_snapshot (merge_statestore (statestore b) (ui b))).
  split; [|split].
  - unfold requestEmitConfig. rewrite Hidle.
    unfold elapse, onDisconnect, set_connections, set_emitConfigRequested.
    cbn [emitConfigRequested now connections ui statestore trace].
    rewrite Nat.leb_refl. unfold set_now at 1. cbn [trace].
    rewrite (proj1 (emitConfigTimeout_trace n _)). reflexivity.
  - intros event args Hin. unfold fan_out in Hin.
    apply list_elem_of_fmap in Hin as (c & Heq & Hc).
    apply delete_connection_elem in Hc as [_ Hne].
    injection Heq as Hid _ _. by apply Hne.
  - intros c Hc Hne. unfold fan_out. apply list_elem_of_fmap.
    exists c. split; [done|]. by apply delete_connection_elem.
Qed.

Lemma disconnect_before_timer_witness :
  ∃ snapshot,
    trace (elapse example_base_config debounce
             (onDisconnect (Socket "A" "base1") (requestEmitConfig example_base)))
    = fan_out example_base_config snapshot [Socket "B" "base1"].
Proof.
  destruct (disconnect_before_timer example_base_config (Socket "A" "base1")
              example_base eq_refl) as (snapshot & Htrace & _).
  exists snapshot. exact Htrace.
Defined.

(** X22: a socket that connects while a debounced emission is pending is
    sent the configuration twice, once on connecting and once when the
    timer fires, with the same content both times. *)
Theorem connect_before_timer (n : base_config) (s : socket) (b : base) :
  emitConfigRequested b = None →
  ∃ snapshot,
    trace (elapse n debounce (onConnection n s (requestEmitConfig b)))
    = trace b
      ++ [SockEmit (sock_id s) "ui-config" [JStr (base_id n); snapshot]]
      ++ fan_out n snapshot
           (set_connection (Socket (sock_id s) (base_id n)) (connections b))
    ∧ SockEmit (sock_id s) "ui-config" [JStr (base_id n); snapshot]
      ∈ fan_out n snapshot
          (set_connection (Socket (sock_id s) (base_id n)) (connections b)).
Proof.
  intros Hidle. exists (ui_snapshot (merge_statestore (statestore b) (ui b))).
  split.
  - unfold requestEmitConfig. rewrite Hidle.
    unfold elapse, onConnection, emitConfig, set_connections,
      set_emitConfigRequested.
    cbn [emitConfigRequested now connections ui statestore trace set_ui log
         sock_id].
    rewrite Nat.leb_refl. unfold set_now at 1. cbn [trace].
    rewrite (proj1 (emitConfigTimeout_trace n _)).
    unfold set_now.
    cbn [emitConfigRequested now connections ui statestore trace set_ui log].
    rewrite merge_statestore_idemp. by rewrite <- app_assoc.
  - unfold fan_out. apply list_elem_of_fmap.
    exists (Socket (sock_id s) (base_id n)). split; [done|].
    apply set_connection_elem.
Qed.

Lemma connect_before_timer_witness :
  ∃ snapshot,
    trace (elapse example_base_config debounce
             (onConnection example_base_config (Socket "C" "")
                (requestEmitConfig example_base)))
    = [SockEmit "C" "ui-config" [JStr "base1"; snapshot]]
      ++ fan_out example_base_config snapshot
           [Socket "A" "base1"; Socket "B" "base1"; Socket "C" "base1"].
Proof.
  destruct (connect_before_timer example_base_config (Socket "C" "")
              example_base eq_refl) as (snapshot & Htrace & _).
  exists snapshot. exact Htrace.
Defined.

(** ** Closing *)

Lemma filter_length_zero {A : Type} (f : A → bool) (l : list A) :
  Nat.ltb 0 (length (List.filter f l)) = existsb f l.
Proof.
  induction l as [|x l IH]; [done|]. cbn [List.filter existsb].
  destruct (f x); [done|]. exact IH.
Qed.

Lemma theme_node_class (n : base_config) (x : jsval) :
  negb (is_page_node x) && negb (is_other_base n x)
  && JS.strict_eq (JS.get x "type") (JStr "ui-theme")
  = JS.strict_eq (JS.get x "type") (JStr "ui-theme").
Proof.
  unfold is_page_node, is_other_base.
  destruct (JS.get x "type") as [| |?|?| |t|?|?|?]; try reflexivity.
  destruct (JS.strict_eq (JStr t) (JStr "ui-theme")) eqn:E;
    [|by rewrite andb_false_r].
  apply strict_eq_str in E. injection E as ->. reflexivity.
Qed.

(** X23: closing the base node while a ui-page or ui-link node is left in
    the flows changes nothing.  Otherwise the pages, widgets and groups of
    the node are emptied; the server is shut down and the dashboards
    emptied exactly when no other ui-base node is left, and the themes are
    emptied only then and only when no ui-theme node is left.  The heads,
    the state store, the connection table and a pending emission are never
    touched. *)
Theorem close_cases (n : base_config) (nodes : list jsval) (b b' : base)
    (down : bool) :
  close n true nodes b = (b', down) →
  heads (ui b') = heads (ui b)
  ∧ statestore b' = statestore b
  ∧ connections b' = connections b
  ∧ emitConfigRequested b' = emitConfigRequested b
  ∧ trace b' = trace b
  ∧ (existsb is_page_node nodes = true → b' = b ∧ down = false)
  ∧ (existsb is_page_node nodes = false →
       pages (ui b') = ∅ ∧ widgets (ui b') = ∅ ∧ groups (ui b') = ∅
       ∧ down = negb (existsb (λ x, negb (is_page_node x) && is_other_base n x)
                              nodes)
       ∧ dashboards (ui b') = (if down then ∅ else dashboards (ui b))
       ∧ themes (ui b')
         = (if down && negb (existsb (λ x, JS.strict_eq (JS.get x "type")
                                              (JStr "ui-theme")) nodes)
            then ∅ else themes (ui b))).
Proof.
  unfold close. cbn [negb]. rewrite !filter_length_zero.
  assert (Hth : Nat.eqb (length (List.filter
              (λ x, negb (is_page_node x) && negb (is_other_base n x)
                    && JS.strict_eq (JS.get x "type") (JStr "ui-theme")) nodes)) 0
            = negb (existsb (λ x, JS.strict_eq (JS.get x "type") (JStr "ui-theme"))
                            nodes)).
  { induction nodes as [|x nodes IH]; [done|]. cbn [List.filter existsb].
    rewrite theme_node_class.
    destruct (JS.strict_eq (JS.get x "type") (JStr "ui-theme")); [done|].
    exact IH. }
  rewrite Hth. clear Hth.
  destruct (existsb is_page_node nodes).
  - intros [= <- <-]. repeat split; try done.
  - destruct (existsb (λ x, negb (is_page_node x) && is_other_base n x) nodes).
    + intros [= <- <-]. cbn. repeat split; try done.
    + intros [= <- <-].
      destruct (existsb (λ x, JS.strict_eq (JS.get x "type") (JStr "ui-theme"))
                        nodes); cbn; repeat split; try done.
Qed.

Lemma close_cases_witness :
  widgets (ui (close example_base_config true example_flow_nodes
                 example_base).1) = ∅
  ∧ themes (ui (close example_base_config true example_flow_nodes
                  example_base).1) = themes (ui example_base).
Proof.
  pose proof (close_cases example_base_config example_flow_nodes example_base
                _ _ (surjective_pairing _)) as H.
  destruct H as (_ & _ & _ & _ & _ & _ & H).
  destruct (H eq_refl) as (_ & Hw & _ & _ & _ & Ht).
  split; [exact Hw|]. rewrite Ht. vm_compute. reflexivity.
Defined.

(** ** The widget-change, widget-send and widget-load routes *)








(** X26: a widget-load request is answered to the requesting connection
    only, with at most one [widget-load:<id>] event that carries the
    stored message as the load hooks leave it; there is no answer when
    that message is blank, and none for an id without a node unless the id
    starts with [ui-]. *)
Theorem onLoad_replies_to_requester
    (getNode : jsval → jsval)
    (load_hooks : list (socket → jsval → jsval → jsval))
    (conn : socket) (id : jsval) (data : gmap string jsval) (b b' : base) :
  onLoad getNode load_hooks conn id data b = Ok b' →
  b' = b
  ∨ (JS.truthy (run_hooks load_hooks conn id (Datastore.get data (JS.to_key id)))
     = true
     ∧ (JS.truthy (getNode id) = true
        ∨ ∃ s, id = JStr s ∧ String.prefix "ui-" s = true)
     ∧ b' = log (SockEmit (sock_id conn) ("widget-load:" ++ JS.to_key id)
                   [run_hooks load_hooks conn id
                      (Datastore.get data (JS.to_key id))]) b).
Proof.
  unfold onLoad, getWidgetAndConfig.
  destruct (JS.truthy id); cbn [negb]; [|intros [= <-]; by left].
  destruct (JS.truthy (getNode id)) eqn:Hnode.
  - cbn.
    destruct (JS.truthy (run_hooks _ _ _ _)) eqn:Hmsg; cbn;
      intros [= <-]; [|by left].
    right. split; [done|]. split; [by left|done].
  - destruct id as [| |?|?| |s|?|?|?]; try (cbn; discriminate).
    cbn. destruct (String.prefix "ui-" s) eqn:Hp; cbn;
      [|intros [= <-]; by left].
    destruct (JS.truthy (run_hooks _ _ _ _)) eqn:Hmsg; cbn;
      intros [= <-]; [|by left].
    right. split; [done|]. split; [|done]. right. by exists s.
Qed.

Lemma onLoad_replies_to_requester_witness :
  ∃ b', onLoad no_node [] (Socket "A" "base1") (JStr "ui-notification")
               {[ "ui-notification" := JStr "hello" ]} example_base = Ok b'
        ∧ trace b' = [SockEmit "A" "widget-load:ui-notification" [JStr "hello"]].
Proof.
  pose (data := ({[ "ui-notification" := JStr "hello" ]} : gmap string jsval)).
  destruct (onLoad no_node [] (Socket "A" "base1") (JStr "ui-notification")
              data example_base) as [b'|e] eqn:Hload;
    [|vm_compute in Hload; discriminate Hload].
  exists b'. split; [exact Hload|].
  destruct (onLoad_replies_to_requester no_node [] (Socket "A" "base1")
              (JStr "ui-notification") data example_base b' Hload)
    as [H|(_ & _ & H)].
  - rewrite H in Hload. vm_compute in Hload. discriminate Hload.
  - rewrite H. vm_compute. reflexivity.
Defined.



(** ** The input listener of a widget node *)

Lemma foldl_invariant {A B : Type} (P : A → Prop) (f : A → B → A)
    (l : list B) (a : A) :
  P a → (∀ a x, P a → P (f a x)) → P (foldl f a l).
Proof.
  intros Ha Hstep. revert a Ha.
  induction l as [|x l IH]; intros a Ha; [done|]. cbn. apply IH. by apply Hstep.
Qed.

Lemma set_holds (ss : gmap string (gmap string jsval)) (node : jsval)
    (prop : string) (value : jsval) :
  holds (Statestore.set ss node prop value) (JS.to_key (JS.get node "id"))
        prop value.
Proof.
  unfold holds, Statestore.set. eexists. rewrite lookup_insert_eq.
  split; [reflexivity|]. by rewrite lookup_insert_eq.
Qed.

Lemma set_holds_other (ss : gmap string (gmap string jsval)) (node : jsval)
    (id prop prop' : string) (value value' : jsval) :
  prop' ≠ prop →
  holds ss id prop value →
  holds (Statestore.set ss node prop' value') id prop value.
Proof.
  intros Hne (bag & Hbag & Hp). unfold holds, Statestore.set.
  destruct (decide (id = JS.to_key (JS.get node "id"))) as [->|Hid].
  - rewrite lookup_insert_eq. eexists. split; [reflexivity|].
    rewrite Hbag. cbn [default]. by rewrite lookup_insert_ne.
  - rewrite lookup_insert_ne; [|done]. by exists bag.
Qed.

Lemma holds_getProperty (ss : gmap string (gmap string jsval)) (id : jsval)
    (prop : string) (value : jsval) :
  holds ss (JS.to_key id) prop value →
  Statestore.getProperty ss id prop = value.
Proof.
  intros (bag & Hbag & Hp). unfold Statestore.getProperty.
  by rewrite Hbag, Hp.
Qed.

Lemma hasProperty_not_nullish (msg : jsval) (prop : string) :
  hasProperty msg prop = true → nullish msg = false.
Proof. by destruct msg. Qed.

Lemma dynamic_properties_holds (widgetNode msg : jsval)
    (ss : gmap string (gmap string jsval)) (p : string) :
  p = "enabled" ∨ p = "visible" →
  hasProperty msg p = true →
  holds (dynamic_properties widgetNode msg ss).1
        (JS.to_key (JS.get widgetNode "id")) p (JS.get msg p).
Proof.
  intros Hp Hhas. unfold dynamic_properties.
  rewrite (hasProperty_not_nullish _ _ Hhas).
  assert (Hmid : holds
            (if hasProperty msg "visible"
             then Statestore.set
                    (if hasProperty msg "enabled"
                     then Statestore.set ss widgetNode "enabled"
                            (JS.get msg "enabled") else ss)
                    widgetNode "visible" (JS.get msg "visible")
             else if hasProperty msg "enabled"
                  then Statestore.set ss widgetNode "enabled"
                         (JS.get msg "enabled") else ss)
            (JS.to_key (JS.get widgetNode "id")) p (JS.get msg p)).
  { destruct Hp as [-> | ->].
    - rewrite Hhas. destruct (hasProperty msg "visible").
      + apply set_holds_other; [done|]. apply set_holds.
      + apply set_holds.
    - rewrite Hhas. apply set_holds. }
  assert (Hc : p ≠ "class") by (destruct Hp as [-> | ->]; done).
  destruct (hasProperty msg "class").
  { cbn [fst]. apply set_holds_other; [by apply not_eq_sym|]. exact Hmid. }
  destruct (hasProperty msg "ui_update"); [|exact Hmid].
  destruct (nullish (JS.get msg "ui_update")); [exact Hmid|].
  destruct (hasProperty (JS.get msg "ui_update") "class"); [|exact Hmid].
  cbn [fst]. apply set_holds_other; [by apply not_eq_sym|]. exact Hmid.
Qed.

Section WidgetInputFacts.

Variable n : base_config.
Variable plugins : list plugin.
Variable getNode : jsval → jsval.
Variable call : nat → list jsval → res jsval.
Variable appendTopic : jsval → jsval → jsval → res jsval.
Variable input_hooks : list (jsval → jsval).
Variable run_onInput :
  nat → jsval → gmap string jsval → base → gmap string jsval * base * option exn.
Variables widgetNode widgetConfig widgetEvents widget : jsval.

(** [emit] changes nothing but the trace, to which it adds socket events
    only. *)
Lemma emit_keep_inv (event : string) (msg wNode : jsval) (b : base) :
  ∃ es, (emit_keep n plugins event msg wNode b).1 = log_all es b
        ∧ forallb is_sock_emit es = true.
Proof.
  unfold emit_keep.
  apply (foldl_invariant
           (λ acc : base * option exn,
              ∃ es, acc.1 = log_all es b ∧ forallb is_sock_emit es = true)).
  - exists []. split; [by rewrite log_all_nil|done].
  - intros [b1 [e|]] conn (es & Hes & Hall); cbn [fst] in *.
    + by exists es.
    + destruct (canSendTo n plugins conn wNode msg) as [[|]|e]; cbn [fst].
      * exists (es ++ [SockEmit (sock_id conn) event [msg]]).
        split; [by rewrite Hes, log_all_log|].
        rewrite forallb_app, Hall. reflexivity.
      * by exists es.
      * by exists es.
Qed.

(** Without a widget [onInput], the state store after the [try] block is
    the one the dynamic property handlers leave. *)
Lemma input_try_default (wNode msg msg2 : jsval) (data : gmap string jsval)
    (b : base) :
  JS.truthy (JS.get_opt widgetEvents "onInput") = false →
  run_beforeSend_unchecked call widgetEvents msg = Ok msg2 →
  ∃ data' es err,
    input_try n plugins call appendTopic run_onInput widgetNode widgetConfig
              widgetEvents widget wNode msg data b
    = (data',
       log_all es (set_statestore
                     (dynamic_properties widgetNode msg2 (statestore b)).1 b),
       err)
    ∧ (data' = data
       ∨ data' = Datastore.save data (JS.to_key (JS.get widgetNode "id")) msg2)
    ∧ (∀ e, e ∈ es →
         is_sock_emit e = true
         ∨ (∃ m, e = NodeSend widgetNode m)
           ∧ (hasProperty widgetConfig "passthru" = true →
              JS.truthy (JS.get widgetConfig "passthru") = true)).
Proof.
  intros Hcustom Hbefore. unfold input_try. rewrite Hbefore, Hcustom.
  destruct (dynamic_properties widgetNode msg2 (statestore b)) as [ss [e|]];
    cbn [fst].
  { exists data, [], (Some e). rewrite log_all_nil. split; [done|].
    split; [by left|]. intros e' He'. by apply elem_of_nil in He'. }
  unfold input_default.
  destruct (JS.truthy msg2); cbn [negb].
  - destruct (if JS.truthy (JS.get widgetConfig "topic")
                 || JS.truthy (JS.get widgetConfig "topicType")
              then appendTopic widgetConfig wNode msg2 else mret msg2)
      as [m|e].
    + destruct (emit_keep_inv ("msg-input:" ++ JS.to_key (JS.get widget "id"))
                  m wNode
                  (if if hasProperty widgetConfig "passthru"
                      then JS.truthy (JS.get widgetConfig "passthru") else true
                   then log (NodeSend widgetNode m) (set_statestore ss b)
                   else set_statestore ss b))
        as (es & Hes & Hall).
      destruct (emit_keep _ _ _ _ _ _) as [b2 err] eqn:Hemit.
      cbn [fst] in Hes. subst b2.
      destruct (hasProperty widgetConfig "passthru") eqn:Hpass.
      * destruct (JS.truthy (JS.get widgetConfig "passthru")) eqn:Hon.
        -- exists (Datastore.save data (JS.to_key (JS.get widgetNode "id")) msg2),
             (NodeSend widgetNode m :: es), err.
           split; [|split; [by right|]].
           ++ f_equal. f_equal. unfold log_all, log. cbn.
              by rewrite <- app_assoc.
           ++ intros e' He'. apply elem_of_cons in He' as [->|He'].
              ** right. split; [by exists m|done].
              ** left. rewrite forallb_forall in Hall. apply Hall.
                 by apply list_elem_of_In.
        -- exists (Datastore.save data (JS.to_key (JS.get widgetNode "id")) msg2),
             es, err.
           split; [done|]. split; [by right|].
           intros e' He'. left. rewrite forallb_forall in Hall. apply Hall.
           by apply list_elem_of_In.
      * exists (Datastore.save data (JS.to_key (JS.get widgetNode "id")) msg2),
          (NodeSend widgetNode m :: es), err.
        split; [|split; [by right|]].
        -- f_equal. f_equal. unfold log_all, log. cbn.
           by rewrite <- app_assoc.
        -- intros e' He'. apply elem_of_cons in He' as [->|He'].
           ++ right. split; [by exists m|done].
           ++ left. rewrite forallb_forall in Hall. apply Hall.
              by apply list_elem_of_In.
    + exists (Datastore.save data (JS.to_key (JS.get widgetNode "id")) msg2),
        [], (Some e).
      rewrite log_all_nil. split; [done|]. split; [by right|].
      intros e' He'. by apply elem_of_nil in He'.
  - destruct (emit_keep_inv ("msg-input:" ++ JS.to_key (JS.get widget "id"))
                msg2 wNode (set_statestore ss b)) as (es & Hes & Hall).
    destruct (emit_keep _ _ _ _ _ _) as [b2 err] eqn:Hemit.
    cbn [fst] in Hes. subst b2.
    exists data, es, err. split; [done|]. split; [by left|].
    intros e' He'. left. rewrite forallb_forall in Hall. apply Hall.
    by apply list_elem_of_In.
Qed.

End WidgetInputFacts.

(** X28: when a message arriving at a widget node carries its own
    [enabled] or [visible] property and the widget has no [onInput] of its
    own, the value is in the state store under the node's id once the
    listener has run, however the rest of the listener ends; the next
    configuration emitted then shows it in the widget's [props]. *)
Theorem input_dynamic_property_reaches_config
    (n : base_config) (plugins : list plugin) (getNode : jsval → jsval)
    (call : nat → list jsval → res jsval)
    (appendTopic : jsval → jsval → jsval → res jsval)
    (input_hooks : list (jsval → jsval))
    (run_onInput : nat → jsval → gmap string jsval → base
                   → gmap string jsval * base * option exn)
    (widgetNode widgetConfig widgetEvents widget : jsval)
    (p : string) (msg msg2 : jsval) (data data' : gmap string jsval)
    (b b' : base) (d : input_done) (s : socket) :
  p = "enabled" ∨ p = "visible" →
  JS.truthy (JS.get_opt widgetEvents "onInput") = false →
  run_beforeSend_unchecked call widgetEvents
    (foldl (λ m h, h m) (JS.remove (JS.remove msg "res") "req") input_hooks)
  = Ok msg2 →
  hasProperty msg2 p = true →
  widget_input n plugins getNode call appendTopic input_hooks run_onInput
               widgetNode widgetConfig widgetEvents widget msg data b
  = Ok (data', b', d) →
  d ≠ Returned →
  Statestore.getProperty (statestore b') (JS.get widgetNode "id") p
  = JS.get msg2 p
  ∧ (∀ w, widgets (ui b') !! JS.to_key (JS.get widgetNode "id") = Some (JObj w) →
       ∃ w', widgets (ui (emitConfig n s b')) !! JS.to_key (JS.get widgetNode "id")
             = Some (JObj w')
             ∧ JS.get (JS.get (JObj w') "props") p = JS.get msg2 p).
Proof.
  intros Hp Hcustom Hbefore Hhas Hrun Hd.
  assert (Hss : holds (statestore b') (JS.to_key (JS.get widgetNode "id")) p
                      (JS.get msg2 p)).
  { unfold widget_input in Hrun.
    destruct (nullish msg); [discriminate Hrun|].
    destruct (JS.truthy (getNode (JS.get widgetNode "id"))); cbn [negb] in Hrun;
      [|by injection Hrun as _ _ <-].
    destruct (JS.truthy (foldl _ _ input_hooks)); cbn [negb] in Hrun;
      [|by injection Hrun as _ _ <-].
    destruct (input_try_default n plugins call appendTopic run_onInput
                widgetNode widgetConfig widgetEvents widget
                (getNode (JS.get widgetNode "id")) _ msg2 data b
                Hcustom Hbefore) as (data1 & es & err & Htry & _ & _).
    rewrite Htry in Hrun.
    assert (Hb' : b' = log_all es (set_statestore
                (dynamic_properties widgetNode msg2 (statestore b)).1 b)).
    { destruct err as [e|]; [|by injection Hrun as _ <- _].
      destruct (caught e); [|discriminate Hrun].
      cbn in Hrun. by injection Hrun as _ <- _. }
    rewrite Hb'. cbn [log_all statestore set_statestore].
    by apply dynamic_properties_holds. }
  split; [by apply holds_getProperty|].
  intros w Hw. destruct Hss as (bag & Hbag & Hval).
  rewrite widgets_emitConfig, Hw. unfold merge_widget_state.
  rewrite getAll_key, Hbag.
  cbn [fmap option_fmap option_map JS.truthy JS.set].
  eexists. split; [reflexivity|].
  cbn [JS.get]. rewrite lookup_insert_ne; [|done].
  rewrite lookup_insert_eq. cbn [default].
  by apply merge_state_wins.
Qed.

Lemma input_dynamic_property_reaches_config_witness :
  let r := widget_input example_base_config [] example_widget_node
             example_no_call example_keep_topic [] example_no_onInput
             (node_with_id "w1") example_switch_config (JObj ∅)
             (widget_in "w1" "g1") example_disable ∅ example_base in
  ∃ data' b' d,
    r = Ok (data', b', d)
    ∧ Statestore.getProperty (statestore b') (JStr "w1") "enabled" = JBool false
    ∧ ∃ w', widgets (ui (emitConfig example_base_config (Socket "A" "base1") b'))
              !! "w1" = Some (JObj w')
            ∧ JS.get (JS.get (JObj w') "props") "enabled" = JBool false.
Proof.
  intros r.
  destruct r as [[[data' b'] d]|e] eqn:Hr; [|vm_compute in Hr; discriminate Hr].
  exists data', b', d. split; [reflexivity|].
  assert (Hd : d ≠ Returned).
  { intros ->. vm_compute in Hr. discriminate Hr. }
  assert (H1 : JS.truthy (JS.get_opt (JObj ∅) "onInput") = false)
    by (vm_compute; reflexivity).
  assert (H2 : run_beforeSend_unchecked example_no_call (JObj ∅)
                 (foldl (λ m h, h m)
                    (JS.remove (JS.remove example_disable "res") "req") [])
               = Ok example_disable) by (vm_compute; reflexivity).
  assert (H3 : hasProperty example_disable "enabled" = true)
    by (vm_compute; reflexivity).
  destruct (input_dynamic_property_reaches_config example_base_config []
              example_widget_node example_no_call example_keep_topic []
              example_no_onInput (node_with_id "w1") example_switch_config
              (JObj ∅) (widget_in "w1" "g1") "enabled" example_disable
              example_disable ∅ data' example_base b' d (Socket "A" "base1")
              (or_introl eq_refl) H1 H2 H3 Hr Hd) as [Hget Hcfg].
  split; [exact Hget|].
  assert (Hb' : ui b' = ui example_base).
  { vm_compute in Hr. injection Hr as _ <- _. reflexivity. }
  apply (Hcfg (list_to_map
    [("id", JStr "w1"); ("type", JStr "ui-button");
     ("props", JObj {[ "group" := JStr "g1" ]});
     ("state", JObj ∅); ("hooks", JObj ∅)])).
  rewrite Hb'. vm_compute. reflexivity.
Defined.

(** X29: a widget whose configuration has [passthru] switched off and no
    [onInput] of its own sends nothing on from its node, whatever arrives:
    all the listener puts out are socket events; the message is stored all
    the same. *)
Theorem input_passthru_off
    (n : base_config) (plugins : list plugin) (getNode : jsval → jsval)
    (call : nat → list jsval → res jsval)
    (appendTopic : jsval → jsval → jsval → res jsval)
    (input_hooks : list (jsval → jsval))
    (run_onInput : nat → jsval → gmap string jsval → base
                   → gmap string jsval * base * option exn)
    (widgetNode widgetConfig widgetEvents widget : jsval)
    (msg : jsval) (data data' : gmap string jsval)
    (b b' : base) (d : input_done) :
  hasProperty widgetConfig "passthru" = true →
  JS.truthy (JS.get widgetConfig "passthru") = false →
  JS.truthy (JS.get_opt widgetEvents "onInput") = false →
  widget_input n plugins getNode call appendTopic input_hooks run_onInput
               widgetNode widgetConfig widgetEvents widget msg data b
  = Ok (data', b', d) →
  (∃ es, trace b' = trace b ++ es ∧ forallb is_sock_emit es = true)
  ∧ (∀ msg2,
       run_beforeSend_unchecked call widgetEvents
         (foldl (λ m h, h m) (JS.remove (JS.remove msg "res") "req") input_hooks)
       = Ok msg2 →
       JS.truthy msg2 = true → d = Done →
       data' = Datastore.save data (JS.to_key (JS.get widgetNode "id")) msg2).
Proof.
  intros Hhas Hoff Hcustom Hrun. unfold widget_input in Hrun.
  destruct (nullish msg); [discriminate Hrun|].
  destruct (JS.truthy (getNode (JS.get widgetNode "id"))); cbn [negb] in Hrun.
  2: { injection Hrun as <- <- <-. split; [|done].
       exists []. by rewrite app_nil_r. }
  destruct (JS.truthy (foldl _ _ input_hooks)); cbn [negb] in Hrun.
  2: { injection Hrun as <- <- <-. split; [|done].
       exists []. by rewrite app_nil_r. }
  destruct (run_beforeSend_unchecked call widgetEvents
              (foldl (λ m h, h m) (JS.remove (JS.remove msg "res") "req")
                     input_hooks)) as [msg2|e] eqn:Hbefore.
  - destruct (input_try_default n plugins call appendTopic run_onInput
                widgetNode widgetConfig widgetEvents widget
                (getNode (JS.get widgetNode "id")) _ msg2 data b
                Hcustom Hbefore) as (data1 & es & err & Htry & Hdata & Hes).
    rewrite Htry in Hrun.
    assert (Hres : data' = data1
                   ∧ b' = log_all es (set_statestore
                            (dynamic_properties widgetNode msg2 (statestore b)).1 b)
                   ∧ (d = Done → err = None)).
    { destruct err as [e|]; [|by injection Hrun as <- <- <-].
      destruct (caught e) as [d'|] eqn:Hc; [|discriminate Hrun].
      cbn in Hrun. injection Hrun as <- <- <-.
      split; [done|]. split; [done|]. intros ->.
      unfold caught in Hc. destruct e as [|v]; [discriminate Hc|].
      destruct (nullish v); [discriminate Hc|].
      destruct (JS.strict_eq _ _); discriminate Hc. }
    destruct Hres as (-> & -> & Hdone). split.
    + exists es. split; [reflexivity|].
      apply forallb_forall. intros e He. apply list_elem_of_In in He.
      destruct (Hes e He) as [Hsock|[_ Hon]]; [exact Hsock|].
      rewrite (Hon Hhas) in Hoff. discriminate Hoff.
    + intros m2 [= <-] Htruthy Hd. specialize (Hdone Hd). subst err.
      clear Hrun. unfold input_try in Htry. rewrite Hbefore, Hcustom in Htry.
      destruct (dynamic_properties widgetNode msg2 (statestore b)) as [ss [e|]];
        [discriminate Htry|].
      unfold input_default in Htry. rewrite Htruthy in Htry. cbn [negb] in Htry.
      destruct (if JS.truthy (JS.get widgetConfig "topic")
                   || JS.truthy (JS.get widgetConfig "topicType")
                then appendTopic widgetConfig (getNode (JS.get widgetNode "id")) msg2
                else mret msg2) as [m|e]; [|discriminate Htry].
      destruct (emit_keep _ _ _ _ _ _) as [b2 err2].
      by injection Htry as <- _ _.
  - unfold input_try in Hrun. rewrite Hbefore in Hrun.
    destruct (caught e) as [d'|]; [|discriminate Hrun].
    cbn in Hrun. injection Hrun as <- <- <-. split; [|done].
    exists []. by rewrite app_nil_r.
Qed.

Lemma input_passthru_off_witness :
  let r := widget_input example_base_config [] example_widget_node
             example_no_call example_keep_topic [] example_no_onInput
             (node_with_id "w1") example_switch_config (JObj ∅)
             (widget_in "w1" "g1") example_disable ∅ example_base in
  ∃ data' b' d,
    r = Ok (data', b', d)
    ∧ ∃ es, trace b' = trace example_base ++ es ∧ forallb is_sock_emit es = true.
Proof.
  intros r.
  destruct r as [[[data' b'] d]|e] eqn:Hr; [|vm_compute in Hr; discriminate Hr].
  exists data', b', d. split; [reflexivity|].
  assert (H1 : hasProperty example_switch_config "passthru" = true)
    by (vm_compute; reflexivity).
  assert (H2 : JS.truthy (JS.get example_switch_config "passthru") = false)
    by (vm_compute; reflexivity).
  assert (H3 : JS.truthy (JS.get_opt (JObj ∅) "onInput") = false)
    by (vm_compute; reflexivity).
  exact (proj1 (input_passthru_off example_base_config []
                  example_widget_node example_no_call example_keep_topic []
                  example_no_onInput (node_with_id "w1") example_switch_config
                  (JObj ∅) (widget_in "w1" "g1") example_disable ∅ data'
                  example_base b' d H1 H2 H3 Hr)).
Defined.

(** X30: when a widget's [beforeSend] gives back [null] or [undefined],
    the listener fails with a type error at its first property test:
    nothing is stored, nothing is sent or put on a socket, the state store
    is unchanged, and [done] gets the error. *)
Theorem input_blank_after_beforeSend
    (n : base_config) (plugins : list plugin) (getNode : jsval → jsval)
    (call : nat → list jsval → res jsval)
    (appendTopic : jsval → jsval → jsval → res jsval)
    (input_hooks : list (jsval → jsval))
    (run_onInput : nat → jsval → gmap string jsval → base
                   → gmap string jsval * base * option exn)
    (widgetNode widgetConfig widgetEvents widget : jsval)
    (msg msg2 : jsval) (data : gmap string jsval) (b : base) :
  nullish msg = false →
  JS.truthy (getNode (JS.get widgetNode "id")) = true →
  JS.truthy (foldl (λ m h, h m) (JS.remove (JS.remove msg "res") "req")
                   input_hooks) = true →
  run_beforeSend_unchecked call widgetEvents
    (foldl (λ m h, h m) (JS.remove (JS.remove msg "res") "req") input_hooks)
  = Ok msg2 →
  nullish msg2 = true →
  widget_input n plugins getNode call appendTopic input_hooks run_onInput
               widgetNode widgetConfig widgetEvents widget msg data b
  = Ok (data, b, Failed TypeError).
Proof.
  intros Hmsg Hnode Hhooks Hbefore Hblank. unfold widget_input.
  rewrite Hmsg, Hnode, Hhooks. cbn [negb]. unfold input_try.
  rewrite Hbefore. unfold dynamic_properties. rewrite Hblank.
  destruct b. reflexivity.
Qed.

Lemma input_blank_after_beforeSend_witness :
  widget_input example_base_config [] example_widget_node
    example_null_call example_keep_topic [] example_no_onInput
    (node_with_id "w1") example_switch_config
    (JObj {[ "beforeSend" := JFun 0 ]}) (widget_in "w1" "g1")
    example_disable ∅ example_base
  = Ok (∅, example_base, Failed TypeError).
Proof.
  assert (H1 : JS.truthy (example_widget_node
                            (JS.get (node_with_id "w1") "id")) = true)
    by (vm_compute; reflexivity).
  assert (H2 : JS.truthy (foldl (λ m h, h m)
                 (JS.remove (JS.remove example_disable "res") "req") []) = true)
    by (vm_compute; reflexivity).
  assert (H3 : run_beforeSend_unchecked example_null_call
                 (JObj {[ "beforeSend" := JFun 0 ]})
                 (foldl (λ m h, h m)
                    (JS.remove (JS.remove example_disable "res") "req") [])
               = Ok JNull) by (vm_compute; reflexivity).
  exact (input_blank_after_beforeSend example_base_config []
           example_widget_node example_null_call example_keep_topic []
           example_no_onInput (node_with_id "w1") example_switch_config
           (JObj {[ "beforeSend" := JFun 0 ]}) (widget_in "w1" "g1")
           example_disable JNull ∅ example_base
           eq_refl H1 H2 H3 eq_refl).
Defined.
